(** * Publisher service: orchestrator, format converter, quality validator

    A shallow embedding of the TypeScript services of the publisher plugin:

    - [FormatConverter] (EPUB packaging through JSZip),
    - [QualityValidator] (EPUB, PDF and cover verdicts, quality score),
    - the platform adapters ([AmazonKDPPublisher], [IngramSparkPublisher],
      [Draft2DigitalPublisher], [FindawayVoicesPublisher]),
    - [PublishingOrchestrator] ([runPhase], [publishBook]).

    JavaScript numbers that the code only uses as integers (sizes, counts,
    pixel dimensions, percentages) are [Z].  A thrown [Error] is its message.
    Asynchronous code is awaited statement by statement in the source, so it is
    embedded as sequential code in a state-and-exception monad whose state
    survives a throw (objects mutated before the throw stay mutated). *)

From Stdlib Require Import ZArith String Ascii List Lia Bool.
From Stdlib Require QArith Qround Qminmax.
From stdpp Require Import base gmap strings list pretty.

Local Open Scope Z_scope.

(* ===================================================================== *)
(** ** Strings *)
(* ===================================================================== *)

(** The double quote and the line feed of the source's template literals. *)
Definition dq : string := String (ascii_of_nat 34) EmptyString.
Definition nl : string := String (ascii_of_nat 10) EmptyString.

(** [Array.prototype.join]. *)
Fixpoint join (sep : string) (l : list string) : string :=
  match l with
  | [] => EmptyString
  | [s] => s
  | s :: rest => s +:+ sep +:+ join sep rest
  end.

(** [name="value"] preceded by a blank, as the XML templates write attributes. *)
Definition attr (name value : string) : string :=
  " " +:+ name +:+ "=" +:+ dq +:+ value +:+ dq.

(** [text.replace(/c/g, by)] for a one-character pattern. *)
Fixpoint replaceAll (c : ascii) (by_ : string) (text : string) : string :=
  match text with
  | EmptyString => EmptyString
  | String a rest =>
      if Ascii.eqb a c then by_ +:+ replaceAll c by_ rest
      else String a (replaceAll c by_ rest)
  end.

(** [FormatConverter.escapeXML]: five replacements, ampersand first. *)
Definition escapeXML (text : string) : string :=
  replaceAll "'" "&apos;"
    (replaceAll (ascii_of_nat 34) "&quot;"
       (replaceAll ">" "&gt;"
          (replaceAll "<" "&lt;"
             (replaceAll "&" "&amp;" text)))).

(** White space removed by [String.prototype.trim] (the one-byte part). *)
Definition isSpace (a : ascii) : bool :=
  let n := nat_of_ascii a in
  ((9 <=? n)%nat && (n <=? 13)%nat) || (n =? 32)%nat || (n =? 160)%nat.

(** [s.trim().length === 0]. *)
Fixpoint trimsToEmpty (s : string) : bool :=
  match s with
  | EmptyString => true
  | String a rest => isSpace a && trimsToEmpty rest
  end.

(** [s.length] as a JavaScript number. *)
Definition strlen (s : string) : Z := Z.of_nat (String.length s).

(* ===================================================================== *)
(** ** Core types ([types/index.ts]) *)
(* ===================================================================== *)

Inductive PublishingFormat := ebook | print | audiobook.

Inductive DistributionChannel :=
  | amazon_kdp | ingram_spark | draft2digital | findaway_voices
  | kobo | apple_books | google_play_books | barnes_noble.

#[global] Instance PublishingFormat_eq_dec : EqDecision PublishingFormat.
Proof. solve_decision. Defined.

#[global] Instance DistributionChannel_eq_dec : EqDecision DistributionChannel.
Proof. solve_decision. Defined.

(** The string a channel is at run time: the key of the lookup tables. *)
Definition channel_key (c : DistributionChannel) : string :=
  match c with
  | amazon_kdp => "amazon_kdp"
  | ingram_spark => "ingram_spark"
  | draft2digital => "draft2digital"
  | findaway_voices => "findaway_voices"
  | kobo => "kobo"
  | apple_books => "apple_books"
  | google_play_books => "google_play_books"
  | barnes_noble => "barnes_noble"
  end.

Inductive TrimSize := trim_5x8 | trim_5_5x8_5 | trim_6x9 | trim_7x10 | trim_8x10 | trim_8_5x11.

Inductive ColorProfile := RGB | CMYK.

#[global] Instance ColorProfile_eq_dec : EqDecision ColorProfile.
Proof. solve_decision. Defined.

Record Chapter := {
  chapter_number : Z;
  chapter_title : string;
  chapter_content : string;
  word_count : Z;
}.

(** The fields of [BookMetadata] that the modelled services read.  A [Date]
    is kept as its ISO day ([toISOString().split('T')[0]]). *)
Record BookMetadata := {
  meta_title : string;
  meta_subtitle : option string;
  meta_author : string;
  meta_publisher : string;
  meta_publication_date : string;
  meta_language : string;
  meta_genre : string;
  meta_description : string;
  meta_bisac_categories : list string;
  meta_keywords : list string;
  meta_price_usd : Z;
}.

(** *** Archives and buffers

    A [Buffer] is modelled by what the code reads of it.  Bytes that come from
    a collaborator (an image, a rendered PDF) are opaque and only their length
    is read; the buffer that [JSZip.generateAsync] returns is kept as the list
    of file entries it encodes. *)

Inductive Compression := STORE | DEFLATE.

#[global] Instance Compression_eq_dec : EqDecision Compression.
Proof. solve_decision. Defined.

(** The package document and the NCX are kept as what their templates are
    filled with; [render_opf] and [render_ncx] below give the text that is
    written into the archive. *)
Record ManifestItem := {
  item_id : string;
  item_href : string;
  item_media_type : string;
  item_properties : option string;
}.

Record PackageDocument := {
  opf_identifier : string;          (* content of [dc:identifier] *)
  opf_title : string;
  opf_creator : string;
  opf_language : string;
  opf_publisher : string;
  opf_date : string;
  opf_description : string;
  opf_modified : string;
  opf_manifest : list ManifestItem;
  opf_spine : list string;          (* the [idref] of each [itemref], in order *)
}.

Record NavPoint := {
  np_id : string;
  np_playOrder : Z;
  np_label : string;
  np_src : string;
}.

Record NcxDocument := {
  ncx_uid : string;                 (* content of the [dtb:uid] meta *)
  ncx_depth : string;
  ncx_docTitle : string;
  ncx_docAuthor : string;
  ncx_navMap : list NavPoint;
}.

Inductive Content :=
  | Text (s : string)
  | Binary (byteLength : Z)
  | Package (doc : PackageDocument)
  | Ncx (doc : NcxDocument).

Record ArchiveEntry := {
  arc_name : string;
  arc_data : Content;
  arc_method : Compression;
}.

Inductive Buffer :=
  | Blob (byteLength : Z)
  | ZipBuffer (entries : list ArchiveEntry).

Inductive EPUBFormat := epub2 | epub3.

#[global] Instance EPUBFormat_eq_dec : EqDecision EPUBFormat.
Proof. solve_decision. Defined.

Record EPUBValidation := {
  ev_valid : bool;
  ev_errors : list string;
  ev_warnings : list string;
  ev_version : string;
  ev_accessibility_score : option Z;
}.

Record EPUBFile := {
  epub_file : Buffer;
  epub_size : Z;
  epub_format : EPUBFormat;
  epub_validation : EPUBValidation;
  epub_toc_depth : Z;
  epub_has_cover : bool;
}.

Record MOBIFile := {
  mobi_file : Buffer;
  mobi_size : Z;
}.

Record PDFFile := {
  pdf_file : Buffer;
  pdf_size : Z;
  pdf_trim_size : TrimSize;
  pdf_page_count : Z;
  pdf_bleed : bool;
  pdf_color_profile : ColorProfile;
}.

Inductive ImageFormat := jpg | png | tiff.

#[global] Instance ImageFormat_eq_dec : EqDecision ImageFormat.
Proof. solve_decision. Defined.

(** [CoverDesign], the declared parameter type of [validateCover] and of
    [convertToEPUB]'s optional cover. *)
Record CoverDesign := {
  cd_front_cover : Buffer;
  cd_width : Z;
  cd_height : Z;
  cd_format : ImageFormat;
  cd_dpi : Z;
  cd_color_mode : ColorProfile;
}.

(** [CoverGenerationResult], what [CoverDesigner.generateCover] returns:
    buffers and notes, and no [dimensions], [format], [dpi] or [color_mode]. *)
Record CoverGenerationResult := {
  cg_concept_description : string;
  cg_ai_prompt : string;
  cg_front_cover : Buffer;
  cg_full_cover : option Buffer;
  cg_thumbnail : Buffer;
  cg_design_notes : string;
}.

(** The orchestrator keeps its cover in a variable of type [any]; at run time
    the object is one of the two shapes above. *)
Inductive CoverObject :=
  | GeneratedCover (r : CoverGenerationResult)
  | DesignedCover (d : CoverDesign).

Definition front_cover (c : CoverObject) : Buffer :=
  match c with
  | GeneratedCover r => cg_front_cover r
  | DesignedCover d => cd_front_cover d
  end.

(** [cover.dimensions]: [undefined] on a generator result. *)
Definition dimensions (c : CoverObject) : option (Z * Z) :=
  match c with
  | GeneratedCover _ => None
  | DesignedCover d => Some (cd_width d, cd_height d)
  end.

Definition cover_format (c : CoverObject) : option ImageFormat :=
  match c with GeneratedCover _ => None | DesignedCover d => Some (cd_format d) end.

Definition cover_dpi (c : CoverObject) : option Z :=
  match c with GeneratedCover _ => None | DesignedCover d => Some (cd_dpi d) end.

Definition cover_color_mode (c : CoverObject) : option ColorProfile :=
  match c with GeneratedCover _ => None | DesignedCover d => Some (cd_color_mode d) end.

(** *** Validation results *)

Inductive Severity := critical | error | warning.

Inductive Impact := low | medium | high.

#[global] Instance Severity_eq_dec : EqDecision Severity.
Proof. solve_decision. Defined.

#[global] Instance Impact_eq_dec : EqDecision Impact.
Proof. solve_decision. Defined.

(** Diagnostics, without their [suggestion] text, which nothing reads. *)
Record ValidationError := {
  err_code : string;
  err_message : string;
  err_severity : Severity;
}.

Record ValidationWarning := {
  warn_code : string;
  warn_message : string;
  warn_impact : Impact;
}.

Record ValidationResult := {
  valid : bool;
  vr_format : string;
  errors : list ValidationError;
  warnings : list ValidationWarning;
  quality_score : Z;
}.

(** *** Submissions *)

Record SubmissionRequest := {
  req_isbn : string;
  req_title : string;
  req_author : string;
  req_description : string;
  req_categories : list string;
  req_keywords : list string;
  req_cover : Buffer;
  req_manuscript : option Buffer;   (* [undefined] when no format produced a file *)
  req_price : Z;
  req_territories : list string;
  req_drm_enabled : bool;
}.

Inductive SubmissionStatus := ready_for_upload | submitted | submission_error.

Record SubmissionResult := {
  submission_id : string;
  platform : DistributionChannel;
  sub_status : SubmissionStatus;
  instructions : option string;
}.

(** *** Pipeline records and events *)

Inductive PhaseName :=
  | isbn_acquisition | copyright_registration | lccn_application
  | format_conversion | cover_generation | metadata_optimization
  | quality_validation | platform_submission.

#[global] Instance PhaseName_eq_dec : EqDecision PhaseName.
Proof. solve_decision. Defined.

Definition phase_key (p : PhaseName) : string :=
  match p with
  | isbn_acquisition => "isbn_acquisition"
  | copyright_registration => "copyright_registration"
  | lccn_application => "lccn_application"
  | format_conversion => "format_conversion"
  | cover_generation => "cover_generation"
  | metadata_optimization => "metadata_optimization"
  | quality_validation => "quality_validation"
  | platform_submission => "platform_submission"
  end.

Inductive PhaseState := pending | in_progress | completed | failed.

#[global] Instance PhaseState_eq_dec : EqDecision PhaseState.
Proof. solve_decision. Defined.

Record PublishingPhaseStatus := {
  phase : PhaseName;
  status : PhaseState;
  progress : Z;
  message : option string;
}.

Record PublishingPhase := {
  name : string;
  order : Z;
  phase_status : PhaseState;
  phase_progress : Z;
}.

Record PublishingPipeline := {
  project_id : string;
  current_phase : PublishingPhase;
  progress_percentage : Z;
  phases : list PublishingPhaseStatus;
}.

Inductive PublishingEvent :=
  | ProgressEvent (project : string) (phase : PhaseName) (progress : Z) (message : string)
  | ErrorEvent (project : string) (phase : PhaseName) (error : string).

Inductive PublishingStatus := published | publishing_error.

Record PublishingProject := {
  prose_project_id : string;
  project_title : string;
  project_author : string;
  formats : list PublishingFormat;
  distribution_channels : list DistributionChannel;
  project_status : PublishingStatus;
  total_cost : Z;
}.

Inductive LogLevel := info | warn | log_error.

Record LogEntry := { level : LogLevel; text : string }.

(* ===================================================================== *)
(** ** Effects *)
(* ===================================================================== *)

(** A settled promise: fulfilled with a value or rejected with an [Error],
    kept as its message. *)
Inductive Result (A : Type) :=
  | Ok (a : A)
  | Throw (msg : string).

Arguments Ok {A} a.
Arguments Throw {A} msg.

Definition is_ok {A} (r : Result A) : bool :=
  match r with Ok _ => true | Throw _ => false end.

(** What a publish call can change: the pipeline object it owns, the events
    it emitted, the log, the number of identifiers drawn from [uuidv4], and
    the state [Ext] of everything outside the process (database, file system,
    remote services). *)
Record World (Ext : Type) := {
  w_pipeline : PublishingPipeline;
  w_events : list PublishingEvent;
  w_log : list LogEntry;
  w_uuids : nat;
  w_ext : Ext;
}.

Arguments w_pipeline {Ext} _.
Arguments w_events {Ext} _.
Arguments w_log {Ext} _.
Arguments w_uuids {Ext} _.
Arguments w_ext {Ext} _.

(** The collaborators the services call, each a transition of the outside
    state that fulfils or rejects, and the constants of the environment. *)
Record Env (Ext : Type) := {
  (* clock and identifiers *)
  now_iso : string;                       (* [new Date().toISOString()] *)
  now_ms : Z;                             (* [Date.now()] *)
  uuidv4_at : nat -> string;              (* the n-th identifier [uuidv4()] returns *)
  (* JSZip and the file system *)
  zipByteLength : list ArchiveEntry -> Z; (* [length] of the generated buffer *)
  formats_outputDir : string;             (* [config.storage.outputDir]/formats *)
  fs_writeFile : string -> Buffer -> Ext -> Result unit * Ext;
  (* services outside the modelled core *)
  assignISBN : string -> PublishingFormat -> Ext -> Result unit * Ext;
  registerCopyright : string -> BookMetadata -> Buffer -> Ext -> Result unit * Ext;
  applyForLCCN : BookMetadata -> option PublishingFormat -> Ext -> Result unit * Ext;
  ebook_convert : Buffer -> string -> Ext -> Result Buffer * Ext;
  pdfkit_render : list Chapter -> BookMetadata -> TrimSize -> Ext -> Result (Buffer * Z) * Ext;
  epubcheck : Buffer -> Ext -> Result unit * Ext;
  toFixed2 : Z -> Z -> string;            (* [(w / h).toFixed(2)] *)
  generateCover : string -> BookMetadata -> option TrimSize -> Ext -> Result CoverGenerationResult * Ext;
  optimizeMetadata : BookMetadata -> Ext -> Result BookMetadata * Ext;
  (* what the adapters do once their own check passed *)
  kdp_prepareSubmissionPackage : SubmissionRequest -> Ext -> Result string * Ext;
  kdp_saveSubmissionRecord : string -> SubmissionRequest -> Ext -> Result unit * Ext;
  ingram_deliver : SubmissionRequest -> Ext
                   -> Result (string * SubmissionStatus * option string) * Ext;
  uploadInstructions : DistributionChannel -> SubmissionRequest -> string;
  db_saveProject : PublishingProject -> Ext -> Result unit * Ext;
  (* the orchestrator as an EventEmitter *)
  has_error_listener : bool;              (* someone called [on('error', ...)] *)
  inspect : PublishingEvent -> string;    (* [util.inspect] of an event *)
  (* [config.costs], in cents *)
  cost_isbn_single : Z;
  cost_copyright_registration : Z;
  cost_lccn : Z;
  cost_cover_generation : Z;
}.

Arguments now_iso {Ext} _.
Arguments now_ms {Ext} _.
Arguments uuidv4_at {Ext} _ _.
Arguments zipByteLength {Ext} _ _.
Arguments formats_outputDir {Ext} _.
Arguments fs_writeFile {Ext} _ _ _ _.
Arguments assignISBN {Ext} _ _ _ _.
Arguments registerCopyright {Ext} _ _ _ _ _.
Arguments applyForLCCN {Ext} _ _ _ _.
Arguments ebook_convert {Ext} _ _ _ _.
Arguments pdfkit_render {Ext} _ _ _ _ _.
Arguments epubcheck {Ext} _ _ _.
Arguments toFixed2 {Ext} _ _ _.
Arguments generateCover {Ext} _ _ _ _ _.
Arguments optimizeMetadata {Ext} _ _ _.
Arguments kdp_prepareSubmissionPackage {Ext} _ _ _.
Arguments kdp_saveSubmissionRecord {Ext} _ _ _ _.
Arguments ingram_deliver {Ext} _ _ _.
Arguments uploadInstructions {Ext} _ _ _.
Arguments db_saveProject {Ext} _ _ _.
Arguments has_error_listener {Ext} _.
Arguments inspect {Ext} _ _.
Arguments cost_isbn_single {Ext} _.
Arguments cost_copyright_registration {Ext} _.
Arguments cost_lccn {Ext} _.
Arguments cost_cover_generation {Ext} _.

(** The monad of the embedding. *)
Definition M (Ext A : Type) : Type := World Ext -> Result A * World Ext.

Definition ret {Ext A} (a : A) : M Ext A := fun w => (Ok a, w).

Definition bind {Ext A B} (c : M Ext A) (k : A -> M Ext B) : M Ext B :=
  fun w =>
    match c w with
    | (Ok a, w') => k a w'
    | (Throw msg, w') => (Throw msg, w')
    end.

(** [throw new Error(msg)]. *)
Definition throw {Ext A} (msg : string) : M Ext A := fun w => (Throw msg, w).

(** [try { body } catch (error) { handler(error.message) }]. *)
Definition try_catch {Ext A} (body : M Ext A) (handler : string -> M Ext A) : M Ext A :=
  fun w =>
    match body w with
    | (Ok a, w') => (Ok a, w')
    | (Throw msg, w') => handler msg w'
    end.

Declare Scope monad_scope.
Delimit Scope monad_scope with monad.
Notation "x <- c ;; k" := (bind c (fun x => k))
  (at level 100, c at next level, right associativity) : monad_scope.
Notation "c ;;; k" := (bind c (fun _ => k))
  (at level 100, right associativity) : monad_scope.
Local Open Scope monad_scope.

Definition get_world {Ext} : M Ext (World Ext) := fun w => (Ok w, w).

Definition modify_world {Ext} (f : World Ext -> World Ext) : M Ext unit :=
  fun w => (Ok tt, f w).

(** A call of a collaborator: it moves the outside state and nothing else. *)
Definition call {Ext A} (f : Ext -> Result A * Ext) : M Ext A :=
  fun w =>
    let '(r, e) := f (w_ext w) in
    (r, {| w_pipeline := w_pipeline w; w_events := w_events w; w_log := w_log w;
           w_uuids := w_uuids w; w_ext := e |}).

(** [logger.info], [logger.warn], [logger.error]. *)
Definition logger {Ext} (lvl : LogLevel) (msg : string) : M Ext unit :=
  modify_world (fun w =>
    {| w_pipeline := w_pipeline w; w_events := w_events w;
       w_log := w_log w ++ [{| level := lvl; text := msg |}];
       w_uuids := w_uuids w; w_ext := w_ext w |}).

(** [uuidv4()]: the next identifier of the generator. *)
Definition uuidv4 {Ext} (env : Env Ext) : M Ext string :=
  fun w =>
    (Ok (uuidv4_at env (w_uuids w)),
     {| w_pipeline := w_pipeline w; w_events := w_events w; w_log := w_log w;
        w_uuids := S (w_uuids w); w_ext := w_ext w |}).

Definition set_pipeline {Ext} (f : PublishingPipeline -> PublishingPipeline) : M Ext unit :=
  modify_world (fun w =>
    {| w_pipeline := f (w_pipeline w); w_events := w_events w; w_log := w_log w;
       w_uuids := w_uuids w; w_ext := w_ext w |}).

(** [EventEmitter.emit]: the event reaches the listeners; an ['error'] event
    with no listener registered makes [emit] throw instead (Node's rule). *)
Definition emit {Ext} (env : Env Ext) (ev : PublishingEvent) : M Ext unit :=
  modify_world (fun w =>
    {| w_pipeline := w_pipeline w; w_events := w_events w ++ [ev]; w_log := w_log w;
       w_uuids := w_uuids w; w_ext := w_ext w |}) ;;;
  match ev with
  | ErrorEvent _ _ _ =>
      if has_error_listener env then ret tt
      else throw ("Unhandled error. (" +:+ inspect env ev +:+ ")")
  | ProgressEvent _ _ _ _ => ret tt
  end.

(** [buffer.length]. *)
Definition Buffer_length {Ext} (env : Env Ext) (b : Buffer) : Z :=
  match b with
  | Blob n => n
  | ZipBuffer entries => zipByteLength env entries
  end.

(* ===================================================================== *)
(** ** JSZip, as [FormatConverter] uses it *)
(* ===================================================================== *)

(** An entry of the zip object, as [zip.file(name, data, options)] and
    [zip.folder(name)] keep it; [zf_compression] is its own [compression]
    option when it has one.  A directory is an entry without data whose name
    ends in [/].  The entries are kept in insertion order, which is the order
    [generateAsync] writes them in. *)
Record ZipFile := {
  zf_name : string;
  zf_data : Content;
  zf_compression : option Compression;
}.

Definition JSZip := list ZipFile.

(** [!data || data.length === 0], the library's test for an entry without
    data. *)
Definition contentEmpty (data : Content) : bool :=
  match data with
  | Text EmptyString => true
  | Text (String _ _) => false
  | Binary byteLength => byteLength =? 0
  | Package _ => false
  | Ncx _ => false
  end.

(** The entry the library makes of a name, its data and its options: an
    entry without data, a directory among them, is given the option [STORE]
    whatever was asked for. *)
Definition zipObject (name : string) (data : Content) (opt : option Compression)
    : ZipFile :=
  {| zf_name := name; zf_data := data;
     zf_compression := if contentEmpty data then Some STORE else opt |}.

(** [zip.file(name, data, options)]: a new name is appended, an existing one
    is overwritten in place. *)
Fixpoint zip_file (name : string) (data : Content) (opt : option Compression)
    (zip : JSZip) : JSZip :=
  match zip with
  | [] => [zipObject name data opt]
  | f :: rest =>
      if String.eqb (zf_name f) name
      then zipObject name data opt :: rest
      else f :: zip_file name data opt rest
  end.

(** [zip.folder(dir)]: the directory entry [dir/] is added unless the zip
    object has it. *)
Definition zip_folder (dir : string) (zip : JSZip) : JSZip :=
  if existsb (fun f => String.eqb (zf_name f) (dir +:+ "/")) zip then zip
  else zip ++ [zipObject (dir +:+ "/") (Text EmptyString) None].

(** [folder.file(name, data)] on the object [zip.folder(dir)] returned: the
    entry is [dir/name], and its directory is added when it is missing (the
    library's default [createFolders]). *)
Definition folder_file (dir name : string) (data : Content) (zip : JSZip) : JSZip :=
  zip_file (dir +:+ "/" +:+ name) data None (zip_folder dir zip).

(** [zip.generateAsync({ compression })]: every entry of the zip object is
    written, directories included; an entry's own option wins over the
    archive's. *)
Definition generateAsync (compression : Compression) (zip : JSZip) : list ArchiveEntry :=
  map (fun f => {| arc_name := zf_name f; arc_data := zf_data f;
                   arc_method := default compression (zf_compression f) |}) zip.

(* ===================================================================== *)
(** ** FormatConverter: EPUB generation helpers *)
(* ===================================================================== *)

(** [`chapter${i + 1}`] for the array index [i]. *)
Definition chapterId (i : nat) : string := "chapter" +:+ pretty (Z.of_nat i + 1).

Definition chapterHref (i : nat) : string := chapterId i +:+ ".xhtml".

Definition generateContainerXML : string :=
  join nl [
    "<?xml" +:+ attr "version" "1.0" +:+ attr "encoding" "UTF-8" +:+ "?>";
    "<container" +:+ attr "version" "1.0"
      +:+ attr "xmlns" "urn:oasis:names:tc:opendocument:xmlns:container" +:+ ">";
    "  <rootfiles>";
    "    <rootfile" +:+ attr "full-path" "OEBPS/content.opf"
      +:+ attr "media-type" "application/oebps-package+xml" +:+ "/>";
    "  </rootfiles>";
    "</container>" ].

(** The five [item] lines the template of [generateContentOPF] always has. *)
Definition fixedManifest : list ManifestItem := [
  {| item_id := "nav"; item_href := "nav.xhtml";
     item_media_type := "application/xhtml+xml"; item_properties := Some "nav" |};
  {| item_id := "ncx"; item_href := "toc.ncx";
     item_media_type := "application/x-dtbncx+xml"; item_properties := None |};
  {| item_id := "cover-image"; item_href := "cover.jpg";
     item_media_type := "image/jpeg"; item_properties := Some "cover-image" |};
  {| item_id := "cover"; item_href := "cover.xhtml";
     item_media_type := "application/xhtml+xml"; item_properties := None |};
  {| item_id := "css"; item_href := "styles.css";
     item_media_type := "text/css"; item_properties := None |} ].

(** [chapters.map((_, i) => <item id="chapter{i+1}" .../>)]. *)
Definition chapterManifest (chapters : list Chapter) : list ManifestItem :=
  imap (fun i _ => {| item_id := chapterId i; item_href := chapterHref i;
                      item_media_type := "application/xhtml+xml";
                      item_properties := None |}) chapters.

(** [chapters.map((_, i) => <itemref idref="chapter{i+1}"/>)]. *)
Definition chapterSpine (chapters : list Chapter) : list string :=
  imap (fun i _ => chapterId i) chapters.

(** What the template of [generateContentOPF] is filled with, for the
    identifier [uuid]. *)
Definition contentOPF {Ext} (env : Env Ext) (metadata : BookMetadata)
    (chapters : list Chapter) (uuid : string) : PackageDocument :=
  {| opf_identifier := "urn:uuid:" +:+ uuid;
     opf_title := escapeXML (meta_title metadata);
     opf_creator := escapeXML (meta_author metadata);
     opf_language := meta_language metadata;
     opf_publisher := escapeXML (meta_publisher metadata);
     opf_date := meta_publication_date metadata;
     opf_description := escapeXML (meta_description metadata);
     opf_modified := now_iso env;
     opf_manifest := fixedManifest ++ chapterManifest chapters;
     opf_spine := "cover" :: chapterSpine chapters |}.

(** [FormatConverter.generateContentOPF]. *)
Definition generateContentOPF {Ext} (env : Env Ext) (metadata : BookMetadata)
    (chapters : list Chapter) : M Ext PackageDocument :=
  uuid <- uuidv4 env ;;
  ret (contentOPF env metadata chapters uuid).

Definition render_item (it : ManifestItem) : string :=
  "    <item" +:+ attr "id" (item_id it) +:+ attr "href" (item_href it)
    +:+ attr "media-type" (item_media_type it)
    +:+ match item_properties it with
        | Some p => attr "properties" p
        | None => EmptyString
        end
    +:+ "/>".

Definition render_itemref (idref : string) : string :=
  "    <itemref" +:+ attr "idref" idref +:+ "/>".

(** The text of [content.opf]: the five fixed items and the cover [itemref]
    are lines of the template, the chapter items and chapter [itemref]s are
    each one interpolated block (an empty line when there is no chapter). *)
Definition render_opf (doc : PackageDocument) : string :=
  join nl ([
    "<?xml" +:+ attr "version" "1.0" +:+ attr "encoding" "UTF-8" +:+ "?>";
    "<package" +:+ attr "xmlns" "http://www.idpf.org/2007/opf" +:+ attr "version" "3.0"
      +:+ attr "unique-identifier" "BookID" +:+ ">";
    "  <metadata" +:+ attr "xmlns:dc" "http://purl.org/dc/elements/1.1/" +:+ ">";
    "    <dc:identifier" +:+ attr "id" "BookID" +:+ ">" +:+ opf_identifier doc
      +:+ "</dc:identifier>";
    "    <dc:title>" +:+ opf_title doc +:+ "</dc:title>";
    "    <dc:creator>" +:+ opf_creator doc +:+ "</dc:creator>";
    "    <dc:language>" +:+ opf_language doc +:+ "</dc:language>";
    "    <dc:publisher>" +:+ opf_publisher doc +:+ "</dc:publisher>";
    "    <dc:date>" +:+ opf_date doc +:+ "</dc:date>";
    "    <dc:description>" +:+ opf_description doc +:+ "</dc:description>";
    "    <meta" +:+ attr "property" "dcterms:modified" +:+ ">" +:+ opf_modified doc
      +:+ "</meta>";
    "  </metadata>";
    "  <manifest>" ]
    ++ map render_item (take 5 (opf_manifest doc))
    ++ [ join nl (map render_item (drop 5 (opf_manifest doc)));
         "  </manifest>";
         "  <spine" +:+ attr "toc" "ncx" +:+ ">" ]
    ++ map render_itemref (take 1 (opf_spine doc))
    ++ [ join nl (map render_itemref (drop 1 (opf_spine doc)));
         "  </spine>";
         "</package>" ]).

(** What the template of [generateTocNCX] is filled with, for the
    identifier [uuid]. *)
Definition tocNCX (metadata : BookMetadata) (chapters : list Chapter) (uuid : string)
    : NcxDocument :=
  let navPoints :=
    imap (fun i chapter =>
            {| np_id := chapterId i; np_playOrder := Z.of_nat i + 1;
               np_label := escapeXML (chapter_title chapter);
               np_src := chapterHref i |}) chapters in
  {| ncx_uid := "urn:uuid:" +:+ uuid;
     ncx_depth := "1";
     ncx_docTitle := escapeXML (meta_title metadata);
     ncx_docAuthor := escapeXML (meta_author metadata);
     ncx_navMap := navPoints |}.

(** [FormatConverter.generateTocNCX]: the [uuidv4()] in its template is a
    call of its own. *)
Definition generateTocNCX {Ext} (env : Env Ext) (metadata : BookMetadata)
    (chapters : list Chapter) : M Ext NcxDocument :=
  uuid <- uuidv4 env ;;
  ret (tocNCX metadata chapters uuid).

Definition render_navPoint (np : NavPoint) : string :=
  join nl [
    "    <navPoint" +:+ attr "id" (np_id np)
      +:+ attr "playOrder" (pretty (np_playOrder np)) +:+ ">";
    "      <navLabel><text>" +:+ np_label np +:+ "</text></navLabel>";
    "      <content" +:+ attr "src" (np_src np) +:+ "/>";
    "    </navPoint>" ].

(** The text of [toc.ncx]. *)
Definition render_ncx (doc : NcxDocument) : string :=
  join nl ([
    "<?xml" +:+ attr "version" "1.0" +:+ attr "encoding" "UTF-8" +:+ "?>";
    "<ncx" +:+ attr "xmlns" "http://www.daisy.org/z3986/2005/ncx/"
      +:+ attr "version" "2005-1" +:+ ">";
    "  <head>";
    "    <meta" +:+ attr "name" "dtb:uid" +:+ attr "content" (ncx_uid doc) +:+ "/>";
    "    <meta" +:+ attr "name" "dtb:depth" +:+ attr "content" (ncx_depth doc) +:+ "/>";
    "  </head>";
    "  <docTitle><text>" +:+ ncx_docTitle doc +:+ "</text></docTitle>";
    "  <docAuthor><text>" +:+ ncx_docAuthor doc +:+ "</text></docAuthor>";
    "  <navMap>" ]
    ++ [ join nl (map render_navPoint (ncx_navMap doc));
         "  </navMap>";
         "</ncx>" ]).

(** The bytes of an archive entry that is text. *)
Definition content_text (c : Content) : option string :=
  match c with
  | Text s => Some s
  | Package doc => Some (render_opf doc)
  | Ncx doc => Some (render_ncx doc)
  | Binary _ => None
  end.

(** [FormatConverter.generateNavXHTML]. *)
Definition generateNavXHTML (chapters : list Chapter) : string :=
  let navItems :=
    imap (fun i chapter =>
            "      <li><a" +:+ attr "href" (chapterHref i) +:+ ">"
              +:+ escapeXML (chapter_title chapter) +:+ "</a></li>") chapters in
  join nl ([
    "<?xml" +:+ attr "version" "1.0" +:+ attr "encoding" "UTF-8" +:+ "?>";
    "<!DOCTYPE html>";
    "<html" +:+ attr "xmlns" "http://www.w3.org/1999/xhtml"
      +:+ attr "xmlns:epub" "http://www.idpf.org/2007/ops" +:+ ">";
    "  <head>";
    "    <title>Table of Contents</title>";
    "  </head>";
    "  <body>";
    "    <nav" +:+ attr "epub:type" "toc" +:+ ">";
    "      <h1>Table of Contents</h1>";
    "      <ol>";
    join nl navItems;
    "      </ol>";
    "    </nav>";
    "  </body>";
    "</html>" ]).

(** [FormatConverter.generateCoverXHTML]. *)
Definition generateCoverXHTML : string :=
  join nl [
    "<?xml" +:+ attr "version" "1.0" +:+ attr "encoding" "UTF-8" +:+ "?>";
    "<!DOCTYPE html>";
    "<html" +:+ attr "xmlns" "http://www.w3.org/1999/xhtml" +:+ ">";
    "  <head>";
    "    <title>Cover</title>";
    "    <style>body { margin: 0; padding: 0; text-align: center; }</style>";
    "  </head>";
    "  <body>";
    "    <img" +:+ attr "src" "cover.jpg" +:+ attr "alt" "Cover"
      +:+ attr "style" "max-width: 100%; max-height: 100%;" +:+ "/>";
    "  </body>";
    "</html>" ].

(** [content.split('\n\n')]. *)
Fixpoint splitParagraphs (s : string) (cur : string) : list string :=
  match s with
  | EmptyString => [cur]
  | String a s' =>
      match s' with
      | String b rest =>
          if Ascii.eqb a (ascii_of_nat 10) && Ascii.eqb b (ascii_of_nat 10)
          then cur :: splitParagraphs rest EmptyString
          else splitParagraphs s' (cur +:+ String a EmptyString)
      | EmptyString => [cur +:+ String a EmptyString]
      end
  end.

Fixpoint trimStart (s : string) : string :=
  match s with
  | EmptyString => EmptyString
  | String a rest => if isSpace a then trimStart rest else s
  end.

Fixpoint trimEnd (s : string) : string :=
  match s with
  | EmptyString => EmptyString
  | String a rest =>
      match trimEnd rest with
      | EmptyString => if isSpace a then EmptyString else String a EmptyString
      | r => String a r
      end
  end.

(** [String.prototype.trim]. *)
Definition trim (s : string) : string := trimEnd (trimStart s).

Definition nonEmpty (s : string) : bool :=
  match s with EmptyString => false | String _ _ => true end.

(** [FormatConverter.formatChapterContent]. *)
Definition formatChapterContent (content : string) : string :=
  join (nl +:+ "    ")
    (map (fun para => "<p>" +:+ escapeXML (trim para) +:+ "</p>")
       (List.filter (fun para => nonEmpty (trim para))
          (splitParagraphs content EmptyString))).

(** [FormatConverter.generateChapterXHTML]. *)
Definition generateChapterXHTML (chapter : Chapter) : string :=
  join nl [
    "<?xml" +:+ attr "version" "1.0" +:+ attr "encoding" "UTF-8" +:+ "?>";
    "<!DOCTYPE html>";
    "<html" +:+ attr "xmlns" "http://www.w3.org/1999/xhtml" +:+ ">";
    "  <head>";
    "    <title>" +:+ escapeXML (chapter_title chapter) +:+ "</title>";
    "    <link" +:+ attr "rel" "stylesheet" +:+ attr "type" "text/css"
      +:+ attr "href" "styles.css" +:+ "/>";
    "  </head>";
    "  <body>";
    "    <h1>" +:+ escapeXML (chapter_title chapter) +:+ "</h1>";
    "    <div" +:+ attr "class" "chapter-content" +:+ ">";
    "      " +:+ formatChapterContent (chapter_content chapter);
    "    </div>";
    "  </body>";
    "</html>" ].

(** [FormatConverter.generateStylesheet]. *)
Definition generateStylesheet : string :=
  join nl [
    "/* EPUB Stylesheet */";
    "body {";
    "  font-family: Georgia, serif;";
    "  font-size: 1em;";
    "  line-height: 1.6;";
    "  margin: 1em;";
    "}";
    EmptyString;
    "h1 {";
    "  font-size: 1.8em;";
    "  margin-bottom: 1em;";
    "  text-align: center;";
    "}";
    EmptyString;
    ".chapter-content {";
    "  text-align: justify;";
    "}";
    EmptyString;
    "p {";
    "  margin-bottom: 1em;";
    "  text-indent: 1.5em;";
    "}";
    EmptyString;
    "p.first {";
    "  text-indent: 0;";
    "}" ].

(** The private [FormatConverter.validateEPUB]: a constant. *)
Definition converter_validateEPUB : EPUBValidation :=
  {| ev_valid := true; ev_errors := []; ev_warnings := [];
     ev_version := "3.0"; ev_accessibility_score := Some 85 |}.

(* ===================================================================== *)
(** ** FormatConverter: the conversions *)
(* ===================================================================== *)

(** Step 9 of [convertToEPUB]: [for (let i = 0; i < chapters.length; i++)]
    adds [chapter{i+1}.xhtml]; [i] is the index the remaining chapters
    start at. *)
Fixpoint addChapters (i : nat) (chapters : list Chapter) (zip : JSZip) : JSZip :=
  match chapters with
  | [] => zip
  | chapter :: rest =>
      addChapters (S i) rest
        (folder_file "OEBPS" (chapterHref i) (Text (generateChapterXHTML chapter)) zip)
  end.

(** Steps 1 to 9 of [convertToEPUB]: the zip object just before
    [generateAsync], given the two documents already generated. *)
Definition buildZip {Ext} (env : Env Ext) (chapters : list Chapter)
    (cover : option CoverDesign) (contentOPF : PackageDocument) (tocNCX : NcxDocument)
    : JSZip :=
  let zip : JSZip := [] in
  let zip := zip_file "mimetype" (Text "application/epub+zip") (Some STORE) zip in
  let zip := zip_folder "META-INF" zip in
  let zip := folder_file "META-INF" "container.xml" (Text generateContainerXML) zip in
  let zip := zip_folder "OEBPS" zip in
  let zip := folder_file "OEBPS" "content.opf" (Package contentOPF) zip in
  let zip := folder_file "OEBPS" "toc.ncx" (Ncx tocNCX) zip in
  let zip := folder_file "OEBPS" "nav.xhtml" (Text (generateNavXHTML chapters)) zip in
  let zip := folder_file "OEBPS" "styles.css" (Text generateStylesheet) zip in
  let zip :=
    match cover with
    | Some c =>
        folder_file "OEBPS" "cover.xhtml" (Text generateCoverXHTML)
          (folder_file "OEBPS" "cover.jpg"
             (Binary (Buffer_length env (cd_front_cover c))) zip)
    | None => zip
    end in
  addChapters 0 chapters zip.

(** The archive [convertToEPUB] generates when [n] identifiers were drawn
    before the call: the package document gets the next one, the NCX the one
    after. *)
Definition epubArchive {Ext} (env : Env Ext) (chapters : list Chapter)
    (metadata : BookMetadata) (cover : option CoverDesign) (n : nat) : list ArchiveEntry :=
  generateAsync DEFLATE
    (buildZip env chapters cover
       (contentOPF env metadata chapters (uuidv4_at env n))
       (tocNCX metadata chapters (uuidv4_at env (S n)))).

(** The path [convertToEPUB] writes the archive to. *)
Definition epubPath {Ext} (env : Env Ext) (project : string) : string :=
  formats_outputDir env +:+ "/" +:+ (project +:+ "_" +:+ pretty (now_ms env) +:+ ".epub").

(** The entry of an archive with the given name. *)
Definition archive_lookup (name : string) (archive : list ArchiveEntry) : option Content :=
  option_map arc_data (List.find (fun e => String.eqb (arc_name e) name) archive).

(** [FormatConverter.convertToEPUB]. *)
Definition convertToEPUB {Ext} (env : Env Ext) (project : string)
    (chapters : list Chapter) (metadata : BookMetadata) (cover : option CoverDesign)
    : M Ext EPUBFile :=
  logger info ("Converting project " +:+ project +:+ " to EPUB") ;;;
  try_catch
    (contentOPF <- generateContentOPF env metadata chapters ;;
     tocNCX <- generateTocNCX env metadata chapters ;;
     let zip := buildZip env chapters cover contentOPF tocNCX in
     let epubBuffer := ZipBuffer (generateAsync DEFLATE zip) in
     let validation := converter_validateEPUB in
     let filename := project +:+ "_" +:+ pretty (now_ms env) +:+ ".epub" in
     let filepath := formats_outputDir env +:+ "/" +:+ filename in
     call (fs_writeFile env filepath epubBuffer) ;;;
     logger info ("EPUB created successfully: " +:+ filepath) ;;;
     ret {| epub_file := epubBuffer;
            epub_size := Buffer_length env epubBuffer;
            epub_format := epub3;
            epub_validation := validation;
            epub_toc_depth := 1;
            epub_has_cover := match cover with Some _ => true | None => false end |})
    (fun msg =>
       logger log_error "EPUB conversion failed" ;;;
       throw ("EPUB conversion failed: " +:+ msg)).

(** [FormatConverter.convertToMOBI]: Calibre's [ebook-convert] does the work. *)
Definition convertToMOBI {Ext} (env : Env Ext) (epubBuffer : Buffer) (project : string)
    : M Ext MOBIFile :=
  logger info ("Converting EPUB to MOBI for project " +:+ project) ;;;
  try_catch
    (mobiBuffer <- call (ebook_convert env epubBuffer project) ;;
     let filepath := formats_outputDir env +:+ "/" +:+ project +:+ "_"
                       +:+ pretty (now_ms env) +:+ ".mobi" in
     call (fs_writeFile env filepath mobiBuffer) ;;;
     logger info ("MOBI created successfully: " +:+ filepath) ;;;
     ret {| mobi_file := mobiBuffer; mobi_size := Buffer_length env mobiBuffer |})
    (fun msg =>
       logger log_error "MOBI conversion failed" ;;;
       throw ("MOBI conversion failed: " +:+ msg)).

(** [FormatConverter.convertToPDF]: PDFKit renders the pages; the collaborator
    returns the bytes and the page count [countPDFPages] reads off them. *)
Definition convertToPDF {Ext} (env : Env Ext) (project : string)
    (chapters : list Chapter) (metadata : BookMetadata)
    (trim_size : option TrimSize) (include_bleed : option bool) : M Ext PDFFile :=
  logger info ("Converting project " +:+ project +:+ " to PDF") ;;;
  let trimSize := default trim_6x9 trim_size in
  try_catch
    (rendered <- call (pdfkit_render env chapters metadata trimSize) ;;
     let '(pdfBuffer, pages) := rendered in
     let filepath := formats_outputDir env +:+ "/" +:+ project +:+ "_"
                       +:+ pretty (now_ms env) +:+ ".pdf" in
     call (fs_writeFile env filepath pdfBuffer) ;;;
     logger info ("PDF created successfully: " +:+ filepath) ;;;
     ret {| pdf_file := pdfBuffer;
            pdf_size := Buffer_length env pdfBuffer;
            pdf_trim_size := trimSize;
            pdf_page_count := pages;
            pdf_bleed := default false include_bleed;
            pdf_color_profile := RGB |})
    (fun msg =>
       logger log_error "PDF conversion failed" ;;;
       throw ("PDF conversion failed: " +:+ msg)).

(* ===================================================================== *)
(** ** QualityValidator *)
(* ===================================================================== *)

Definition MB : Z := 1024 * 1024.

(** [errors.filter(e => e.severity === s).length]. *)
Definition countSeverity (s : Severity) (errs : list ValidationError) : Z :=
  Z.of_nat (length (List.filter (fun e => bool_decide (err_severity e = s)) errs)).

(** [warnings.filter(w => w.impact === i).length]. *)
Definition countImpact (i : Impact) (warns : list ValidationWarning) : Z :=
  Z.of_nat (length (List.filter (fun w => bool_decide (warn_impact w = i)) warns)).

(** [QualityValidator.calculateQualityScore]. *)
Definition calculateQualityScore (errs : list ValidationError)
    (warns : list ValidationWarning) : Z :=
  let score := 100 in
  let criticalErrors := countSeverity critical errs in
  let regularErrors := countSeverity error errs in
  let score := score - criticalErrors * 20 in
  let score := score - regularErrors * 10 in
  let highImpactWarnings := countImpact high warns in
  let mediumImpactWarnings := countImpact medium warns in
  let lowImpactWarnings := countImpact low warns in
  let score := score - highImpactWarnings * 5 in
  let score := score - mediumImpactWarnings * 3 in
  let score := score - lowImpactWarnings * 1 in
  Z.max 0 score.

(** [errors.filter(e => e.severity === 'critical').length === 0]. *)
Definition noCritical (errs : list ValidationError) : bool :=
  countSeverity critical errs =? 0.

(** The result object the three validators of [QualityValidator] return. *)
Definition verdict (format : string) (errs : list ValidationError)
    (warns : list ValidationWarning) : ValidationResult :=
  {| valid := noCritical errs;
     vr_format := format;
     errors := errs;
     warnings := warns;
     quality_score := calculateQualityScore errs warns |}.

(** [if (cond) list.push(x)] as the pushed elements. *)
Definition when {A} (cond : bool) (x : A) : list A := if cond then [x] else [].

(** [QualityValidator.validateMetadata]. *)
Definition validateMetadata (metadata : BookMetadata)
    : list ValidationError * list ValidationWarning :=
  let errs :=
    when (trimsToEmpty (meta_title metadata))
      {| err_code := "MISSING_TITLE"; err_message := "Book title is required";
         err_severity := critical |}
    ++ when (trimsToEmpty (meta_author metadata))
      {| err_code := "MISSING_AUTHOR"; err_message := "Author name is required";
         err_severity := critical |} in
  let warns :=
    when (strlen (meta_description metadata) <? 150)
      {| warn_code := "SHORT_DESCRIPTION";
         warn_message := "Book description should be at least 150 characters";
         warn_impact := high |}
    ++ when (4000 <? strlen (meta_description metadata))
      {| warn_code := "LONG_DESCRIPTION";
         warn_message := "Description exceeds 4000 characters (Amazon limit)";
         warn_impact := medium |}
    ++ when (Z.of_nat (length (meta_bisac_categories metadata)) =? 0)
      {| warn_code := "NO_CATEGORIES";
         warn_message := "No BISAC categories assigned";
         warn_impact := high |}
    ++ when (Z.of_nat (length (meta_keywords metadata)) <? 7)
      {| warn_code := "FEW_KEYWORDS";
         warn_message := "Less than 7 keywords (Amazon allows 7)";
         warn_impact := medium |} in
  (errs, warns).

(** The verdict [validateEPUB] computes: steps 1 to 5 and the result object.
    Step 6, [runEpubCheck], adds nothing to it: it returns two empty lists
    whenever it returns. *)
Definition epubVerdict (epub : EPUBFile) (metadata : BookMetadata) : ValidationResult :=
  let errs :=
    when (650 * MB <? epub_size epub)
      {| err_code := "EPUB_TOO_LARGE";
         err_message := "EPUB file exceeds 650 MB limit";
         err_severity := critical |} in
  let warns :=
    when (bool_decide (epub_format epub = epub2))
      {| warn_code := "EPUB_OLD_VERSION";
         warn_message := "EPUB2 is deprecated, EPUB3 recommended";
         warn_impact := medium |} in
  let errs := errs ++
    when (negb (epub_has_cover epub))
      {| err_code := "MISSING_COVER";
         err_message := "EPUB does not contain a cover image";
         err_severity := critical |} in
  let warns := warns ++
    when (epub_toc_depth epub =? 0)
      {| warn_code := "NO_TOC";
         warn_message := "EPUB does not have a table of contents";
         warn_impact := high |} in
  let metadataValidation := validateMetadata metadata in
  let errs := errs ++ fst metadataValidation in
  let warns := warns ++ snd metadataValidation in
  verdict "EPUB" errs warns.

(** [QualityValidator.validateEPUB]: the log line, the call of [runEpubCheck]
    whose throw is caught and logged, and the verdict. *)
Definition validateEPUB {Ext} (env : Env Ext) (epub : EPUBFile) (metadata : BookMetadata)
    : M Ext ValidationResult :=
  logger info "Validating EPUB file" ;;;
  try_catch
    (try_catch (call (epubcheck env (epub_file epub)))
       (fun _ => logger warn "epubcheck not available, skipping detailed validation") ;;;
     ret (epubVerdict epub metadata))
    (fun msg =>
       logger log_error "EPUB validation failed" ;;;
       throw ("EPUB validation failed: " +:+ msg)).

Record PDFRequirements := {
  maxFileSize : Z;
  minPages : Z;
  colorProfile : ColorProfile;
}.

(** The table of [getPDFRequirements]. *)
Definition pdfRequirementsTable : gmap string PDFRequirements :=
  list_to_map [
    ("ingram_spark", {| maxFileSize := 500 * MB; minPages := 24; colorProfile := CMYK |});
    ("amazon_kdp", {| maxFileSize := 650 * MB; minPages := 24; colorProfile := RGB |}) ].

Definition pdfRequirements_amazon_kdp : PDFRequirements :=
  {| maxFileSize := 650 * MB; minPages := 24; colorProfile := RGB |}.

(** [requirements[channel] || requirements.amazon_kdp]. *)
Definition getPDFRequirements (channel : DistributionChannel) : PDFRequirements :=
  default (default pdfRequirements_amazon_kdp (pdfRequirementsTable !! "amazon_kdp"))
    (pdfRequirementsTable !! channel_key channel).

(** The verdict [validatePDF] computes for a channel. *)
Definition pdfVerdict (pdf : PDFFile) (channel : DistributionChannel) : ValidationResult :=
  let requirements := getPDFRequirements channel in
  let errs :=
    when (maxFileSize requirements <? pdf_size pdf)
      {| err_code := "PDF_TOO_LARGE";
         err_message := "PDF exceeds " +:+ pretty (maxFileSize requirements / MB)
                          +:+ " MB limit for " +:+ channel_key channel;
         err_severity := critical |} in
  let warns :=
    when (bool_decide (channel = ingram_spark)
          && negb (bool_decide (pdf_color_profile pdf = CMYK)))
      {| warn_code := "WRONG_COLOR_PROFILE";
         warn_message := "IngramSpark recommends CMYK color profile for print";
         warn_impact := medium |} in
  let errs := errs ++
    when (pdf_page_count pdf <? minPages requirements)
      {| err_code := "TOO_FEW_PAGES";
         err_message := "PDF has " +:+ pretty (pdf_page_count pdf) +:+ " pages, minimum "
                          +:+ pretty (minPages requirements) +:+ " required";
         err_severity := error |} in
  let warns := warns ++
    when (bool_decide (channel = ingram_spark) && negb (pdf_bleed pdf))
      {| warn_code := "NO_BLEED";
         warn_message := "PDF does not include bleed (0.125" +:+ dq +:+ " recommended)";
         warn_impact := high |} in
  verdict "PDF" errs warns.

(** [QualityValidator.validatePDF]. *)
Definition validatePDF {Ext} (pdf : PDFFile) (channel : DistributionChannel)
    : M Ext ValidationResult :=
  logger info ("Validating PDF for " +:+ channel_key channel) ;;;
  ret (pdfVerdict pdf channel).

Record CoverRequirements := {
  minWidth : Z;
  minHeight : Z;
  allowedFormats : list ImageFormat;
}.

Definition coverRequirements_amazon_kdp : CoverRequirements :=
  {| minWidth := 2560; minHeight := 1600; allowedFormats := [jpg; tiff] |}.

(** The table of [getCoverRequirements]. *)
Definition coverRequirementsTable : gmap string CoverRequirements :=
  list_to_map [
    ("amazon_kdp", coverRequirements_amazon_kdp);
    ("ingram_spark", {| minWidth := 2550; minHeight := 3300;
                        allowedFormats := [jpg; png; tiff] |});
    ("draft2digital", {| minWidth := 1600; minHeight := 2400;
                         allowedFormats := [jpg; png] |}) ].

(** [requirements[channel] || requirements.amazon_kdp]. *)
Definition getCoverRequirements (channel : DistributionChannel) : CoverRequirements :=
  default (default coverRequirements_amazon_kdp (coverRequirementsTable !! "amazon_kdp"))
    (coverRequirementsTable !! channel_key channel).

Definition image_format_key (f : ImageFormat) : string :=
  match f with jpg => "jpg" | png => "png" | tiff => "tiff" end.

(** [aspectRatio < 0.6 || aspectRatio > 0.7] for [width / height], decided on
    the integers (the same answer as the floating-point test for every pixel
    count below 2^50; a zero height gives [Infinity] or [NaN], and under a
    negative height the two comparisons turn round). *)
Definition unusualAspectRatio (width height : Z) : bool :=
  if height <? 0
  then (6 * height <? 10 * width) || (10 * width <? 7 * height)
  else (10 * width <? 6 * height) || (7 * height <? 10 * width).

(** What [validateCover] computes for a channel: a verdict, or the
    [TypeError] of reading [cover.dimensions.width] on an object that has no
    [dimensions]. *)
Definition coverVerdict {Ext} (env : Env Ext) (cover : CoverObject)
    (channel : DistributionChannel) : Result ValidationResult :=
  let requirements := getCoverRequirements channel in
  match dimensions cover with
  | None => Throw "Cannot read properties of undefined (reading 'width')"
  | Some (width, height) =>
      let errs :=
        when ((width <? minWidth requirements) || (height <? minHeight requirements))
          {| err_code := "COVER_TOO_SMALL";
             err_message := "Cover dimensions " +:+ pretty width +:+ "x" +:+ pretty height
                              +:+ " below minimum " +:+ pretty (minWidth requirements)
                              +:+ "x" +:+ pretty (minHeight requirements);
             err_severity := critical |} in
      let warns :=
        when (unusualAspectRatio width height)
          {| warn_code := "UNUSUAL_ASPECT_RATIO";
             warn_message := "Cover aspect ratio " +:+ toFixed2 env width height
                               +:+ " is unusual for books";
             warn_impact := low |} in
      let errs := errs ++
        when (bool_decide (channel = ingram_spark)
              && match cover_dpi cover with Some dpi => dpi <? 300 | None => false end)
          {| err_code := "LOW_DPI";
             err_message := "Cover DPI "
                              +:+ match cover_dpi cover with
                                  | Some dpi => pretty dpi
                                  | None => "undefined"
                                  end
                              +:+ " is below 300 DPI required for print";
             err_severity := critical |} in
      let errs := errs ++
        when (negb match cover_format cover with
                   | Some f => bool_decide (f ∈ allowedFormats requirements)
                   | None => false
                   end)
          {| err_code := "INVALID_FORMAT";
             err_message := "Cover format "
                              +:+ match cover_format cover with
                                  | Some f => image_format_key f
                                  | None => "undefined"
                                  end
                              +:+ " not accepted by " +:+ channel_key channel;
             err_severity := error |} in
      let warns := warns ++
        when (bool_decide (channel = ingram_spark)
              && negb (bool_decide (cover_color_mode cover = Some CMYK)))
          {| warn_code := "WRONG_COLOR_MODE";
             warn_message := "IngramSpark recommends CMYK for print covers";
             warn_impact := medium |} in
      Ok (verdict "Cover Image" errs warns)
  end.

(** [QualityValidator.validateCover]; nothing in it catches the [TypeError]. *)
Definition validateCover {Ext} (env : Env Ext) (cover : CoverObject)
    (channel : DistributionChannel) : M Ext ValidationResult :=
  logger info ("Validating cover for " +:+ channel_key channel) ;;;
  match coverVerdict env cover channel with
  | Ok v => ret v
  | Throw msg => throw msg
  end.

(* ===================================================================== *)
(** ** Platform adapters *)
(* ===================================================================== *)

(** [request.manuscript.length]: a [TypeError] when the request carries no
    manuscript. *)
Definition manuscript_length {Ext} (env : Env Ext) (request : SubmissionRequest) : M Ext Z :=
  match req_manuscript request with
  | Some m => ret (Buffer_length env m)
  | None => throw "Cannot read properties of undefined (reading 'length')"
  end.

(** The result object of the adapters' own [validateFiles]: its score is
    [100 - errors.length * 10 - warnings.length * 5]. *)
Definition adapterVerdict (format : string) (errs : list ValidationError)
    (warns : list ValidationWarning) : ValidationResult :=
  {| valid := noCritical errs;
     vr_format := format;
     errors := errs;
     warnings := warns;
     quality_score := 100 - Z.of_nat (length errs) * 10 - Z.of_nat (length warns) * 5 |}.

(** [AmazonKDPPublisher.validateFiles]. *)
Definition kdp_validateFiles {Ext} (env : Env Ext) (request : SubmissionRequest)
    : M Ext ValidationResult :=
  logger info "Validating files for Amazon KDP" ;;;
  len <- manuscript_length env request ;;
  let errs :=
    when (650 * MB <? len)
      {| err_code := "MANUSCRIPT_TOO_LARGE";
         err_message := "Manuscript exceeds 650 MB limit"; err_severity := critical |}
    ++ when (Buffer_length env (req_cover request) =? 0)
      {| err_code := "MISSING_COVER";
         err_message := "Cover image is required"; err_severity := critical |}
    ++ when (strlen (req_title request) =? 0)
      {| err_code := "MISSING_TITLE";
         err_message := "Title is required"; err_severity := critical |}
    ++ when (strlen (req_author request) =? 0)
      {| err_code := "MISSING_AUTHOR";
         err_message := "Author is required"; err_severity := critical |} in
  let warns :=
    when (2 <? Z.of_nat (length (req_categories request)))
      {| warn_code := "TOO_MANY_CATEGORIES";
         warn_message := "Amazon KDP allows only 2 categories"; warn_impact := medium |}
    ++ when (7 <? Z.of_nat (length (req_keywords request)))
      {| warn_code := "TOO_MANY_KEYWORDS";
         warn_message := "Amazon KDP allows only 7 keywords"; warn_impact := low |} in
  ret (adapterVerdict "KDP Submission" errs warns).

(** The early return of [submitBook] when the adapter's own check found a
    critical error: a result with status ['error'], not a throw. *)
Definition rejectedSubmission (channel : DistributionChannel)
    (validation : ValidationResult) : option SubmissionResult :=
  if valid validation then None
  else
    match List.filter (fun e => bool_decide (err_severity e = critical)) (errors validation) with
    | first :: _ =>
        Some {| submission_id := EmptyString; platform := channel;
                sub_status := submission_error;
                instructions := Some ("Validation failed: " +:+ err_message first) |}
    | [] => None
    end.

(** [AmazonKDPPublisher.submitBook]. *)
Definition kdp_submitBook {Ext} (env : Env Ext) (request : SubmissionRequest)
    : M Ext SubmissionResult :=
  logger info ("Preparing submission to Amazon KDP: " +:+ req_title request) ;;;
  try_catch
    (validation <- kdp_validateFiles env request ;;
     match rejectedSubmission amazon_kdp validation with
     | Some rejected => ret rejected
     | None =>
         submissionId <- call (kdp_prepareSubmissionPackage env request) ;;
         let instructions_text := uploadInstructions env amazon_kdp request in
         call (kdp_saveSubmissionRecord env submissionId request) ;;;
         logger info ("KDP submission prepared: " +:+ submissionId) ;;;
         ret {| submission_id := submissionId; platform := amazon_kdp;
                sub_status := ready_for_upload;
                instructions := Some instructions_text |}
     end)
    (fun msg =>
       logger log_error "KDP submission failed" ;;;
       throw ("KDP submission failed: " +:+ msg)).

(** [IngramSparkPublisher.validateFiles]. *)
Definition ingram_validateFiles {Ext} (env : Env Ext) (request : SubmissionRequest)
    : M Ext ValidationResult :=
  logger info "Validating files for IngramSpark" ;;;
  let errs :=
    when (strlen (req_isbn request) =? 0)
      {| err_code := "MISSING_ISBN";
         err_message := "ISBN is required for IngramSpark"; err_severity := critical |} in
  len <- manuscript_length env request ;;
  let errs := errs ++
    when (500 * MB <? len)
      {| err_code := "PDF_TOO_LARGE";
         err_message := "PDF exceeds 500 MB limit"; err_severity := critical |} in
  ret (adapterVerdict "IngramSpark Submission" errs []).

(** [IngramSparkPublisher.submitBook]; [ingram_deliver] is the API or the
    manual path, whichever the configuration selects, and yields the
    identifier, status and instructions of the result. *)
Definition ingram_submitBook {Ext} (env : Env Ext) (request : SubmissionRequest)
    : M Ext SubmissionResult :=
  logger info ("Preparing submission to IngramSpark: " +:+ req_title request) ;;;
  try_catch
    (validation <- ingram_validateFiles env request ;;
     match rejectedSubmission ingram_spark validation with
     | Some rejected => ret rejected
     | None =>
         delivered <- call (ingram_deliver env request) ;;
         let '(submissionId, state, instructions_text) := delivered in
         ret {| submission_id := submissionId; platform := ingram_spark;
                sub_status := state; instructions := instructions_text |}
     end)
    (fun msg =>
       logger log_error "IngramSpark submission failed" ;;;
       throw ("IngramSpark submission failed: " +:+ msg)).

(** [Draft2DigitalPublisher.submitBook]. *)
Definition d2d_submitBook {Ext} (env : Env Ext) (request : SubmissionRequest)
    : M Ext SubmissionResult :=
  logger info ("Preparing Draft2Digital submission: " +:+ req_title request) ;;;
  ret {| submission_id := "d2d_" +:+ pretty (now_ms env); platform := draft2digital;
         sub_status := ready_for_upload;
         instructions := Some (uploadInstructions env draft2digital request) |}.

(** [FindawayVoicesPublisher.submitBook]. *)
Definition findaway_submitBook {Ext} (env : Env Ext) (request : SubmissionRequest)
    : M Ext SubmissionResult :=
  logger info ("Preparing Findaway Voices submission: " +:+ req_title request) ;;;
  ret {| submission_id := "findaway_" +:+ pretty (now_ms env); platform := findaway_voices;
         sub_status := ready_for_upload;
         instructions := Some (uploadInstructions env findaway_voices request) |}.

(** The classes that implement [PlatformPublisher]. *)
Inductive PlatformPublisher :=
  | AmazonKDPPublisher
  | IngramSparkPublisher
  | Draft2DigitalPublisher
  | FindawayVoicesPublisher.

(** [publisher.submitBook(request)]. *)
Definition submitBook {Ext} (env : Env Ext) (publisher : PlatformPublisher)
    (request : SubmissionRequest) : M Ext SubmissionResult :=
  match publisher with
  | AmazonKDPPublisher => kdp_submitBook env request
  | IngramSparkPublisher => ingram_submitBook env request
  | Draft2DigitalPublisher => d2d_submitBook env request
  | FindawayVoicesPublisher => findaway_submitBook env request
  end.

(* ===================================================================== *)
(** ** PublishingOrchestrator *)
(* ===================================================================== *)

(** [this.publishers], the object the constructor builds. *)
Definition publishers : gmap string PlatformPublisher :=
  list_to_map [
    ("amazon_kdp", AmazonKDPPublisher);
    ("ingram_spark", IngramSparkPublisher);
    ("draft2digital", Draft2DigitalPublisher);
    ("findaway_voices", FindawayVoicesPublisher) ].

(** The table of [getPhasePercentage]. *)
Definition percentages : gmap string Z :=
  list_to_map [
    ("isbn_acquisition", 10); ("copyright_registration", 20);
    ("lccn_application", 30); ("format_conversion", 50);
    ("cover_generation", 65); ("metadata_optimization", 75);
    ("quality_validation", 85); ("platform_submission", 100) ].

(** [percentages[phase] || 0]. *)
Definition getPhasePercentage (phase : PhaseName) : Z :=
  default 0 (percentages !! phase_key phase).

Definition with_phases (f : list PublishingPhaseStatus -> list PublishingPhaseStatus)
    (p : PublishingPipeline) : PublishingPipeline :=
  {| project_id := project_id p; current_phase := current_phase p;
     progress_percentage := progress_percentage p; phases := f (phases p) |}.

Definition with_current_phase (c : PublishingPhase) (p : PublishingPipeline)
    : PublishingPipeline :=
  {| project_id := project_id p; current_phase := c;
     progress_percentage := progress_percentage p; phases := phases p |}.

Definition with_progress_percentage (n : Z) (p : PublishingPipeline) : PublishingPipeline :=
  {| project_id := project_id p; current_phase := current_phase p;
     progress_percentage := n; phases := phases p |}.

(** [phaseStatus.status = 'completed'; phaseStatus.progress = 100]. *)
Definition mark_completed (s : PublishingPhaseStatus) : PublishingPhaseStatus :=
  {| phase := phase s; status := completed; progress := 100; message := message s |}.

(** [phaseStatus.status = 'failed'; phaseStatus.message = error.message]. *)
Definition mark_failed (msg : string) (s : PublishingPhaseStatus) : PublishingPhaseStatus :=
  {| phase := phase s; status := failed; progress := progress s; message := Some msg |}.

(** [PublishingOrchestrator.runPhase].  [phaseStatus] is the object pushed
    onto [pipeline.phases]; the later writes to it go to that element of the
    array, found again by the index it was pushed at. *)
Definition runPhase {Ext A} (env : Env Ext) (phase : PhaseName) (handler : M Ext A)
    : M Ext A :=
  w <- get_world ;;
  let slot := length (phases (w_pipeline w)) in
  let phaseStatus :=
    {| phase := phase; status := in_progress; progress := 0; message := None |} in
  set_pipeline (with_phases (fun ps => ps ++ [phaseStatus])) ;;;
  set_pipeline (with_current_phase
    {| name := phase_key phase; order := 0; phase_status := in_progress;
       phase_progress := 0 |}) ;;;
  emit env (ProgressEvent (project_id (w_pipeline w)) phase (getPhasePercentage phase)
              ("Starting " +:+ phase_key phase +:+ "...")) ;;;
  try_catch
    (result <- handler ;;
     set_pipeline (with_phases (alter mark_completed slot)) ;;;
     set_pipeline (with_progress_percentage (getPhasePercentage phase)) ;;;
     w' <- get_world ;;
     emit env (ProgressEvent (project_id (w_pipeline w')) phase
                 (progress_percentage (w_pipeline w'))
                 ("Completed " +:+ phase_key phase)) ;;;
     ret result)
    (fun msg =>
       set_pipeline (with_phases (alter (mark_failed msg) slot)) ;;;
       w' <- get_world ;;
       emit env (ErrorEvent (project_id (w_pipeline w')) phase msg) ;;;
       throw msg).

(** The argument of [publishBook]. *)
Record PublishParams := {
  p_project_id : string;
  p_title : string;
  p_author : string;
  p_chapters : list Chapter;
  p_metadata : BookMetadata;
  p_formats : list PublishingFormat;
  p_distribution_channels : list DistributionChannel;
}.

(** The local object [formatOutputs]. *)
Record FormatOutputs := {
  fo_epub : option EPUBFile;
  fo_mobi : option MOBIFile;
  fo_pdf : option PDFFile;
}.

(** [params.formats.includes(f)]. *)
Definition includes (f : PublishingFormat) (fs : list PublishingFormat) : bool :=
  bool_decide (f ∈ fs).

(** Phase 1: an ISBN for each format, in order. *)
Fixpoint isbnAcquisitionPhase {Ext} (env : Env Ext) (project : string)
    (fs : list PublishingFormat) : M Ext unit :=
  match fs with
  | [] => ret tt
  | format :: rest =>
      call (assignISBN env project format) ;;;
      isbnAcquisitionPhase env project rest
  end.

(** Phase 2. *)
Definition copyrightRegistrationPhase {Ext} (env : Env Ext) (params : PublishParams)
    : M Ext unit :=
  let manuscriptBuffer :=
    Blob (strlen (join (nl +:+ nl) (map chapter_content (p_chapters params)))) in
  call (registerCopyright env (p_project_id params) (p_metadata params) manuscriptBuffer).

(** Phase 3. *)
Definition lccnApplicationPhase {Ext} (env : Env Ext) (params : PublishParams)
    : M Ext unit :=
  call (applyForLCCN env (p_metadata params) (head (p_formats params))).

(** Phase 4. *)
Definition formatConversionPhase {Ext} (env : Env Ext) (params : PublishParams)
    : M Ext FormatOutputs :=
  formatOutputs <-
    (if includes ebook (p_formats params) then
       epub <- convertToEPUB env (p_project_id params) (p_chapters params)
                 (p_metadata params) None ;;
       mobi <- convertToMOBI env (epub_file epub) (p_project_id params) ;;
       ret {| fo_epub := Some epub; fo_mobi := Some mobi; fo_pdf := None |}
     else ret {| fo_epub := None; fo_mobi := None; fo_pdf := None |}) ;;
  if includes print (p_formats params) then
    pdf <- convertToPDF env (p_project_id params) (p_chapters params)
             (p_metadata params) (Some trim_6x9) (Some true) ;;
    ret {| fo_epub := fo_epub formatOutputs; fo_mobi := fo_mobi formatOutputs;
           fo_pdf := Some pdf |}
  else ret formatOutputs.

(** Phase 5: the orchestrator keeps whatever [generateCover] returned. *)
Definition coverGenerationPhase {Ext} (env : Env Ext) (params : PublishParams)
    : M Ext CoverObject :=
  r <- call (generateCover env (p_project_id params) (p_metadata params)
               (if includes print (p_formats params) then Some trim_6x9 else None)) ;;
  ret (GeneratedCover r).

(** Phase 6. *)
Definition metadataOptimizationPhase {Ext} (env : Env Ext) (params : PublishParams)
    : M Ext BookMetadata :=
  call (optimizeMetadata env (p_metadata params)).

(** [if (x) { validations.key = await validate(x) }]: the properties added. *)
Definition validateIfPresent {Ext A} (key : string) (x : option A)
    (validate : A -> M Ext ValidationResult) : M Ext (list (string * ValidationResult)) :=
  match x with
  | Some a => v <- validate a ;; ret [(key, v)]
  | None => ret []
  end.

(** Phase 7.  The channels are the two literals of the source; the requested
    distribution channels are not an input of this phase. *)
Definition qualityValidationPhase {Ext} (env : Env Ext) (formatOutputs : FormatOutputs)
    (coverDesign : option CoverObject) (optimizedMetadata : BookMetadata)
    : M Ext (list (string * ValidationResult)) :=
  v_epub <- validateIfPresent "epub" (fo_epub formatOutputs)
              (fun epub => validateEPUB env epub optimizedMetadata) ;;
  v_pdf <- validateIfPresent "pdf" (fo_pdf formatOutputs)
             (fun pdf => validatePDF pdf ingram_spark) ;;
  v_cover <- validateIfPresent "cover" coverDesign
               (fun cover => validateCover env cover amazon_kdp) ;;
  let validations := v_epub ++ v_pdf ++ v_cover in
  let hasCriticalErrors := existsb (fun kv => negb (valid (snd kv))) validations in
  if hasCriticalErrors
  then throw "Quality validation failed with critical errors"
  else ret validations.

(** [formatOutputs.epub?.file || formatOutputs.pdf?.file]. *)
Definition manuscriptOf (formatOutputs : FormatOutputs) : option Buffer :=
  match fo_epub formatOutputs with
  | Some epub => Some (epub_file epub)
  | None => option_map pdf_file (fo_pdf formatOutputs)
  end.

Definition submissionRequest (params : PublishParams) (optimizedMetadata : BookMetadata)
    (coverDesign : CoverObject) (formatOutputs : FormatOutputs) : SubmissionRequest :=
  {| req_isbn := EmptyString;
     req_title := meta_title optimizedMetadata;
     req_author := meta_author optimizedMetadata;
     req_description := meta_description optimizedMetadata;
     req_categories := meta_bisac_categories optimizedMetadata;
     req_keywords := meta_keywords optimizedMetadata;
     req_cover := front_cover coverDesign;
     req_manuscript := manuscriptOf formatOutputs;
     req_price := meta_price_usd (p_metadata params);
     req_territories := ["US"; "CA"; "UK"; "AU"];
     req_drm_enabled := false |}.

(** Phase 8: the loop [for (const channel of params.distribution_channels)],
    [submissions] being what was pushed so far. *)
Fixpoint submitToChannels {Ext} (env : Env Ext) (request : SubmissionRequest)
    (channels : list DistributionChannel) (submissions : list SubmissionResult)
    : M Ext (list SubmissionResult) :=
  match channels with
  | [] => ret submissions
  | channel :: rest =>
      match publishers !! channel_key channel with
      | None =>
          logger warn ("No publisher available for channel: " +:+ channel_key channel) ;;;
          submitToChannels env request rest submissions
      | Some publisher =>
          submission <- submitBook env publisher request ;;
          submitToChannels env request rest (submissions ++ [submission])
      end
  end.

Definition platformSubmissionPhase {Ext} (env : Env Ext) (params : PublishParams)
    (optimizedMetadata : BookMetadata) (coverDesign : CoverObject)
    (formatOutputs : FormatOutputs) : M Ext (list SubmissionResult) :=
  submitToChannels env
    (submissionRequest params optimizedMetadata coverDesign formatOutputs)
    (p_distribution_channels params) [].

(** [PublishingOrchestrator.calculateCosts]: [total] is the sum of the values
    of the object, its own initial [0] included. *)
Definition calculateCosts {Ext} (env : Env Ext) (fs : list PublishingFormat) : Z :=
  let isbn_costs := Z.of_nat (length fs) * cost_isbn_single env in
  let values := [isbn_costs; cost_copyright_registration env; cost_lccn env;
                 cost_cover_generation env; 0; 0; 0] in
  fold_left Z.add values 0.

Definition initialPipeline (project : string) : PublishingPipeline :=
  {| project_id := project;
     current_phase := {| name := "Initializing"; order := 0; phase_status := pending;
                         phase_progress := 0 |};
     progress_percentage := 0;
     phases := [] |}.

(** The [try] block of [publishBook]: the eight phases, then the project
    record and its insertion. *)
Definition publishPhases {Ext} (env : Env Ext) (params : PublishParams)
    : M Ext PublishingProject :=
  runPhase env isbn_acquisition
    (isbnAcquisitionPhase env (p_project_id params) (p_formats params)) ;;;
  runPhase env copyright_registration (copyrightRegistrationPhase env params) ;;;
  runPhase env lccn_application (lccnApplicationPhase env params) ;;;
  formatOutputs <- runPhase env format_conversion (formatConversionPhase env params) ;;
  coverDesign <- runPhase env cover_generation (coverGenerationPhase env params) ;;
  optimizedMetadata <-
    runPhase env metadata_optimization (metadataOptimizationPhase env params) ;;
  runPhase env quality_validation
    (qualityValidationPhase env formatOutputs (Some coverDesign) optimizedMetadata) ;;;
  runPhase env platform_submission
    (platformSubmissionPhase env params optimizedMetadata coverDesign formatOutputs) ;;;
  let project :=
    {| prose_project_id := p_project_id params;
       project_title := meta_title (p_metadata params);
       project_author := meta_author (p_metadata params);
       formats := p_formats params;
       distribution_channels := p_distribution_channels params;
       project_status := published;
       total_cost := calculateCosts env (p_formats params) |} in
  call (db_saveProject env project) ;;;
  logger info ("Publishing pipeline completed for project " +:+ p_project_id params) ;;;
  ret project.

(** [PublishingOrchestrator.publishBook]. *)
Definition publishBook {Ext} (env : Env Ext) (params : PublishParams)
    : M Ext PublishingProject :=
  logger info ("Starting publishing pipeline for project " +:+ p_project_id params) ;;;
  set_pipeline (fun _ => initialPipeline (p_project_id params)) ;;;
  try_catch (publishPhases env params)
    (fun msg =>
       logger log_error "Publishing pipeline failed" ;;;
       w <- get_world ;;
       throw ("Publishing failed at " +:+ name (current_phase (w_pipeline w)) +:+ ": "
                +:+ msg)).

(* ===================================================================== *)
(** ** A concrete environment and concrete inputs *)
(* ===================================================================== *)

(** An outside world with no state in which every collaborator succeeds. *)
Definition quietEnv : Env unit :=
  {| now_iso := "2024-01-01T00:00:00.000Z";
     now_ms := 1704067200000;
     uuidv4_at := fun n => "00000000-0000-4000-8000-" +:+ pretty n;
     zipByteLength := fun entries => 1024 * Z.of_nat (length entries);
     formats_outputDir := "/app/outputs/formats";
     fs_writeFile := fun _ _ e => (Ok tt, e);
     assignISBN := fun _ _ e => (Ok tt, e);
     registerCopyright := fun _ _ _ e => (Ok tt, e);
     applyForLCCN := fun _ _ e => (Ok tt, e);
     ebook_convert := fun _ _ e => (Ok (Blob 2048), e);
     pdfkit_render := fun chapters _ _ e => (Ok (Blob 4096, 2 + Z.of_nat (length chapters)), e);
     epubcheck := fun _ e => (Ok tt, e);
     toFixed2 := fun _ _ => "0.00";
     generateCover := fun _ _ _ e =>
       (Ok {| cg_concept_description := "concept"; cg_ai_prompt := "prompt";
              cg_front_cover := Blob 1000; cg_full_cover := None;
              cg_thumbnail := Blob 100; cg_design_notes := "notes" |}, e);
     optimizeMetadata := fun m e => (Ok m, e);
     kdp_prepareSubmissionPackage := fun _ e => (Ok "kdp_1704067200000", e);
     kdp_saveSubmissionRecord := fun _ _ e => (Ok tt, e);
     ingram_deliver := fun _ e =>
       (Ok ("ingram_1704067200000", ready_for_upload, Some "instructions"), e);
     uploadInstructions := fun _ _ => "instructions";
     db_saveProject := fun _ e => (Ok tt, e);
     has_error_listener := true;
     inspect := fun _ => "[event]";
     cost_isbn_single := 12500;
     cost_copyright_registration := 6500;
     cost_lccn := 0;
     cost_cover_generation := 40 |}.

(** The same environment for an orchestrator nobody listens to for
    ['error'] events (the one of the HTTP routes). *)
Definition deafEnv : Env unit :=
  {| now_iso := now_iso quietEnv; now_ms := now_ms quietEnv;
     uuidv4_at := uuidv4_at quietEnv; zipByteLength := zipByteLength quietEnv;
     formats_outputDir := formats_outputDir quietEnv;
     fs_writeFile := fs_writeFile quietEnv; assignISBN := assignISBN quietEnv;
     registerCopyright := registerCopyright quietEnv;
     applyForLCCN := applyForLCCN quietEnv; ebook_convert := ebook_convert quietEnv;
     pdfkit_render := pdfkit_render quietEnv; epubcheck := epubcheck quietEnv;
     toFixed2 := toFixed2 quietEnv; generateCover := generateCover quietEnv;
     optimizeMetadata := optimizeMetadata quietEnv;
     kdp_prepareSubmissionPackage := kdp_prepareSubmissionPackage quietEnv;
     kdp_saveSubmissionRecord := kdp_saveSubmissionRecord quietEnv;
     ingram_deliver := ingram_deliver quietEnv;
     uploadInstructions := uploadInstructions quietEnv;
     db_saveProject := db_saveProject quietEnv;
     has_error_listener := false;
     inspect := inspect quietEnv;
     cost_isbn_single := cost_isbn_single quietEnv;
     cost_copyright_registration := cost_copyright_registration quietEnv;
     cost_lccn := cost_lccn quietEnv;
     cost_cover_generation := cost_cover_generation quietEnv |}.

(** The same environment with the ISBN inventory exhausted. *)
Definition exhaustedEnv : Env unit :=
  {| now_iso := now_iso quietEnv; now_ms := now_ms quietEnv;
     uuidv4_at := uuidv4_at quietEnv; zipByteLength := zipByteLength quietEnv;
     formats_outputDir := formats_outputDir quietEnv;
     fs_writeFile := fs_writeFile quietEnv;
     assignISBN := fun _ _ e =>
       (Throw "No available ISBNs. Please purchase more ISBNs before publishing.", e);
     registerCopyright := registerCopyright quietEnv;
     applyForLCCN := applyForLCCN quietEnv; ebook_convert := ebook_convert quietEnv;
     pdfkit_render := pdfkit_render quietEnv; epubcheck := epubcheck quietEnv;
     toFixed2 := toFixed2 quietEnv; generateCover := generateCover quietEnv;
     optimizeMetadata := optimizeMetadata quietEnv;
     kdp_prepareSubmissionPackage := kdp_prepareSubmissionPackage quietEnv;
     kdp_saveSubmissionRecord := kdp_saveSubmissionRecord quietEnv;
     ingram_deliver := ingram_deliver quietEnv;
     uploadInstructions := uploadInstructions quietEnv;
     db_saveProject := db_saveProject quietEnv;
     has_error_listener := true;
     inspect := inspect quietEnv;
     cost_isbn_single := cost_isbn_single quietEnv;
     cost_copyright_registration := cost_copyright_registration quietEnv;
     cost_lccn := cost_lccn quietEnv;
     cost_cover_generation := cost_cover_generation quietEnv |}.

Definition emptyWorld : World unit :=
  {| w_pipeline := initialPipeline EmptyString; w_events := []; w_log := [];
     w_uuids := 0%nat; w_ext := tt |}.

Definition sampleMetadata : BookMetadata :=
  {| meta_title := "Sample Book"; meta_subtitle := None; meta_author := "John Doe";
     meta_publisher := "Self-Published"; meta_publication_date := "2024-01-01";
     meta_language := "en"; meta_genre := "fiction";
     meta_description := "A compelling story...";
     meta_bisac_categories := []; meta_keywords := []; meta_price_usd := 999 |}.

Definition chapterAt (position : Z) : Chapter :=
  {| chapter_number := position; chapter_title := "Chapter " +:+ pretty position;
     chapter_content := "Text of chapter " +:+ pretty position; word_count := 4 |}.

Definition sampleParams (fs : list PublishingFormat) (channels : list DistributionChannel)
    : PublishParams :=
  {| p_project_id := "proj"; p_title := "Sample Book Title"; p_author := "John Doe";
     p_chapters := [chapterAt 1; chapterAt 2]; p_metadata := sampleMetadata;
     p_formats := fs; p_distribution_channels := channels |}.

(** A cover of the declared [CoverDesign] shape that passes both cover rules
    of Amazon KDP. *)
Definition sampleCover : CoverDesign :=
  {| cd_front_cover := Blob 1000; cd_width := 2560; cd_height := 4096;
     cd_format := jpg; cd_dpi := 300; cd_color_mode := RGB |}.

Definition samplePDF : PDFFile :=
  {| pdf_file := Blob 4096; pdf_size := 4096; pdf_trim_size := trim_6x9;
     pdf_page_count := 120; pdf_bleed := true; pdf_color_profile := RGB |}.

(** A PDF of 600 MB: above the limit of IngramSpark, below that of Amazon KDP. *)
Definition oversizedPDF : PDFFile :=
  {| pdf_file := Blob (600 * MB); pdf_size := 600 * MB; pdf_trim_size := trim_6x9;
     pdf_page_count := 120; pdf_bleed := true; pdf_color_profile := RGB |}.

(* ===================================================================== *)
(** ** Notions the statements below use *)
(* ===================================================================== *)

(** The quality score as the specification words it: 100, minus 20 per
    critical, 10 per error, 5, 3 and 1 per high, medium and low impact
    warning, floored at 0. *)
Definition scoreFormula (errs : list ValidationError) (warns : list ValidationWarning) : Z :=
  Z.max 0
    (100 - 20 * countSeverity critical errs - 10 * countSeverity error errs
       - 5 * countImpact high warns - 3 * countImpact medium warns
       - 1 * countImpact low warns).

(** Ordinal positions 1, 2, ..., n in list order. *)
Definition contiguous (chapters : list Chapter) : bool :=
  forallb id (imap (fun i chapter => chapter_number chapter =? Z.of_nat i + 1) chapters).

(** The sentinel entry of an EPUB archive. *)
Definition mimetypeEntry : ArchiveEntry :=
  {| arc_name := "mimetype"; arc_data := Text "application/epub+zip";
     arc_method := STORE |}.

(** The artifact [convertToEPUB] returns around a generated archive. *)
Definition epubOf {Ext} (env : Env Ext) (archive : list ArchiveEntry)
    (cover : option CoverDesign) : EPUBFile :=
  {| epub_file := ZipBuffer archive;
     epub_size := zipByteLength env archive;
     epub_format := epub3;
     epub_validation := converter_validateEPUB;
     epub_toc_depth := 1;
     epub_has_cover := match cover with Some _ => true | None => false end |}.

(** The channel has an adapter in [this.publishers]. *)
Definition hasPublisher (channel : DistributionChannel) : bool :=
  bool_decide (is_Some (publishers !! channel_key channel)).

(** The log lines the validators of [QualityValidator] write when called. *)
Definition validatorCalls (log : list LogEntry) : list string :=
  List.filter (String.prefix "Validating ") (map text log).

(** The log lines the adapters write when [submitBook] is entered. *)
Definition submissionAttempts (log : list LogEntry) : list string :=
  List.filter (String.prefix "Preparing ") (map text log).

(** The world after the loop of phase 8 passed over a channel without
    adapter: the warning is in the log. *)
Definition warned {Ext} (w : World Ext) (channel : DistributionChannel) : World Ext :=
  {| w_pipeline := w_pipeline w; w_events := w_events w;
     w_log := w_log w ++ [{| level := warn;
                             text := "No publisher available for channel: "
                                       +:+ channel_key channel |}];
     w_uuids := w_uuids w; w_ext := w_ext w |}.

(** Submissions made one after the other.  [submittedInTurn env request channels w
    results w'] says that, from the world [w], the channels were taken in
    order: a channel without adapter left its warning in the log and nothing
    else, a channel with an adapter was submitted to this adapter in the world
    the channel before it had left, and every adapter returned; [results] are
    the results the adapters returned, in order, and [w'] is the world the
    last channel left. *)
Inductive submittedInTurn {Ext} (env : Env Ext) (request : SubmissionRequest)
    : list DistributionChannel -> World Ext -> list SubmissionResult -> World Ext
      -> Prop :=
  | inTurn_none (w : World Ext) : submittedInTurn env request [] w [] w
  | inTurn_skip (channel : DistributionChannel) rest w results w' :
      publishers !! channel_key channel = None ->
      submittedInTurn env request rest (warned w channel) results w' ->
      submittedInTurn env request (channel :: rest) w results w'
  | inTurn_next (channel : DistributionChannel) rest publisher w result w1 results w' :
      publishers !! channel_key channel = Some publisher ->
      submitBook env publisher request w = (Ok result, w1) ->
      submittedInTurn env request rest w1 results w' ->
      submittedInTurn env request (channel :: rest) w (result :: results) w'.

(** The order the eight phases run in. *)
Definition phaseOrder : list PhaseName :=
  [ isbn_acquisition; copyright_registration; lccn_application; format_conversion;
    cover_generation; metadata_optimization; quality_validation; platform_submission ].

(** A computation that leaves the pipeline object and the emitted events
    alone, whether it returns or throws. *)
Definition framed {Ext A} (c : M Ext A) : Prop :=
  forall w, w_pipeline (snd (c w)) = w_pipeline w /\ w_events (snd (c w)) = w_events w.

(** The records [runPhase] leaves in [pipeline.phases]. *)
Definition startedRecord (p : PhaseName) : PublishingPhaseStatus :=
  {| phase := p; status := in_progress; progress := 0; message := None |}.

Definition completedRecord (p : PhaseName) : PublishingPhaseStatus :=
  {| phase := p; status := completed; progress := 100; message := None |}.

Definition failedRecord (p : PhaseName) (msg : string) : PublishingPhaseStatus :=
  {| phase := p; status := failed; progress := 0; message := Some msg |}.

(** The records of the first [k] phases, all completed. *)
Definition completedRecords (k : nat) : list PublishingPhaseStatus :=
  map completedRecord (take k phaseOrder).

(** [pipeline.current_phase] while and after [runPhase] runs phase [p]. *)
Definition runningPhase (p : PhaseName) : PublishingPhase :=
  {| name := phase_key p; order := 0; phase_status := in_progress; phase_progress := 0 |}.

(** The error that leaves [runPhase] when the phase body threw [msg]: [msg]
    itself, or the error of [emit] when nobody listens for ['error'] events. *)
Definition raisedBy {Ext} (env : Env Ext) (project : string) (p : PhaseName)
    (msg : string) : string :=
  if has_error_listener env then msg
  else "Unhandled error. (" +:+ inspect env (ErrorEvent project p msg) +:+ ")".

(** The world in which the body of phase [p] starts. *)
Definition phaseStarted {Ext} (w : World Ext) (p : PhaseName) : World Ext :=
  {| w_pipeline :=
       {| project_id := project_id (w_pipeline w);
          current_phase := runningPhase p;
          progress_percentage := progress_percentage (w_pipeline w);
          phases := phases (w_pipeline w) ++ [startedRecord p] |};
     w_events := w_events w
                 ++ [ProgressEvent (project_id (w_pipeline w)) p (getPhasePercentage p)
                       ("Starting " +:+ phase_key p +:+ "...")];
     w_log := w_log w; w_uuids := w_uuids w; w_ext := w_ext w |}.

(** The world [runPhase] leaves when the body returned in [w1]. *)
Definition phaseCompleted {Ext} (w w1 : World Ext) (p : PhaseName) : World Ext :=
  {| w_pipeline :=
       {| project_id := project_id (w_pipeline w);
          current_phase := runningPhase p;
          progress_percentage := getPhasePercentage p;
          phases := phases (w_pipeline w) ++ [completedRecord p] |};
     w_events := w_events w
                 ++ [ProgressEvent (project_id (w_pipeline w)) p (getPhasePercentage p)
                       ("Starting " +:+ phase_key p +:+ "...");
                     ProgressEvent (project_id (w_pipeline w)) p (getPhasePercentage p)
                       ("Completed " +:+ phase_key p)];
     w_log := w_log w1; w_uuids := w_uuids w1; w_ext := w_ext w1 |}.

(** The world [runPhase] leaves when the body threw [msg] in [w1]. *)
Definition phaseFailed {Ext} (w w1 : World Ext) (p : PhaseName) (msg : string)
    : World Ext :=
  {| w_pipeline :=
       {| project_id := project_id (w_pipeline w);
          current_phase := runningPhase p;
          progress_percentage := progress_percentage (w_pipeline w);
          phases := phases (w_pipeline w) ++ [failedRecord p msg] |};
     w_events := w_events w
                 ++ [ProgressEvent (project_id (w_pipeline w)) p (getPhasePercentage p)
                       ("Starting " +:+ phase_key p +:+ "...");
                     ErrorEvent (project_id (w_pipeline w)) p msg];
     w_log := w_log w1; w_uuids := w_uuids w1; w_ext := w_ext w1 |}.

(** A run that ended with one of the first seven phases failed: the records
    of the phases before it are completed, its own is the last one and failed
    with the message the body threw, the last event emitted is the error event
    of that phase, and the error that leaves is the one [runPhase] raised. *)
Definition endsFailed {Ext B} (env : Env Ext) (project : string)
    (x : Result B * World Ext) : Prop :=
  exists (k : nat) (p : PhaseName) (msg : string),
    (k <= 6)%nat
    /\ phaseOrder !! k = Some p
    /\ phases (w_pipeline (snd x)) = completedRecords k ++ [failedRecord p msg]
    /\ name (current_phase (w_pipeline (snd x))) = phase_key p
    /\ last (w_events (snd x)) = Some (ErrorEvent project p msg)
    /\ fst x = Throw (raisedBy env project p msg).

(** A request whose cover buffer is empty. *)
Definition coverlessRequest : SubmissionRequest :=
  {| req_isbn := EmptyString; req_title := "Sample Book"; req_author := "John Doe";
     req_description := "A compelling story..."; req_categories := [];
     req_keywords := []; req_cover := Blob 0; req_manuscript := Some (Blob 4096);
     req_price := 999; req_territories := ["US"]; req_drm_enabled := false |}.

(** The name of a chapter document inside the archive. *)
Definition chapterEntry (i : nat) : string := "OEBPS" +:+ "/" +:+ chapterHref i.

(** The file of a zip object with the given name. *)
Definition zip_find (name : string) (zip : JSZip) : option ZipFile :=
  List.find (fun f => String.eqb (zf_name f) name) zip.

(** The chapter documents the loop of step 9 adds, from index [i] on. *)
Definition chapterFiles (i : nat) (chapters : list Chapter) : JSZip :=
  imap (fun k chapter =>
          {| zf_name := chapterEntry (i + k);
             zf_data := Text (generateChapterXHTML chapter);
             zf_compression := None |}) chapters.

(** The entry of a directory. *)
Definition directoryFile (dir : string) : ZipFile :=
  {| zf_name := dir +:+ "/"; zf_data := Text EmptyString; zf_compression := Some STORE |}.

(** The entries of the zip object before the chapter loop. *)
Definition frontFiles {Ext} (env : Env Ext) (chapters : list Chapter)
    (cover : option CoverDesign) (contentOPF : PackageDocument) (tocNCX : NcxDocument)
    : JSZip :=
  [ {| zf_name := "mimetype"; zf_data := Text "application/epub+zip";
       zf_compression := Some STORE |};
    directoryFile "META-INF";
    {| zf_name := "META-INF/container.xml"; zf_data := Text generateContainerXML;
       zf_compression := None |};
    directoryFile "OEBPS";
    {| zf_name := "OEBPS/content.opf"; zf_data := Package contentOPF;
       zf_compression := None |};
    {| zf_name := "OEBPS/toc.ncx"; zf_data := Ncx tocNCX; zf_compression := None |};
    {| zf_name := "OEBPS/nav.xhtml"; zf_data := Text (generateNavXHTML chapters);
       zf_compression := None |};
    {| zf_name := "OEBPS/styles.css"; zf_data := Text generateStylesheet;
       zf_compression := None |} ]
  ++ match cover with
     | Some c =>
         [ zipObject "OEBPS/cover.jpg" (Binary (Buffer_length env (cd_front_cover c)))
             None;
           {| zf_name := "OEBPS/cover.xhtml"; zf_data := Text generateCoverXHTML;
              zf_compression := None |} ]
     | None => []
     end.

(** The validator calls phase 7 makes for the artifacts it is given. *)
Definition expectedValidatorCalls (formatOutputs : FormatOutputs)
    (coverDesign : option CoverObject) : list string :=
  match fo_epub formatOutputs with Some _ => ["Validating EPUB file"] | None => [] end
  ++ match fo_pdf formatOutputs with
     | Some _ => ["Validating PDF for ingram_spark"]
     | None => []
     end
  ++ match coverDesign with Some _ => ["Validating cover for amazon_kdp"] | None => [] end.

(** The verdicts phase 7 collects, when the cover evaluation returns one. *)
Definition expectedValidations {Ext} (env : Env Ext) (formatOutputs : FormatOutputs)
    (coverDesign : option CoverObject) (optimizedMetadata : BookMetadata)
    : list (string * ValidationResult) :=
  match fo_epub formatOutputs with
  | Some epub => [("epub", epubVerdict epub optimizedMetadata)]
  | None => []
  end
  ++ match fo_pdf formatOutputs with
     | Some pdf => [("pdf", pdfVerdict pdf ingram_spark)]
     | None => []
     end
  ++ match coverDesign with
     | Some cover =>
         match coverVerdict env cover amazon_kdp with
         | Ok v => [("cover", v)]
         | Throw _ => []
         end
     | None => []
     end.

(** The world in which the [try] block of [publishBook] starts. *)
Definition publishStart {Ext} (params : PublishParams) (w : World Ext) : World Ext :=
  {| w_pipeline := initialPipeline (p_project_id params);
     w_events := w_events w;
     w_log := w_log w
              ++ [{| level := info;
                     text := "Starting publishing pipeline for project "
                               +:+ p_project_id params |}];
     w_uuids := w_uuids w; w_ext := w_ext w |}.

(* ===================================================================== *)
(** ** The route that publishes *)
(* ===================================================================== *)

(** [s.split(c)[0]]: the text before the first [c]. *)
Fixpoint beforeChar (c : ascii) (s : string) : string :=
  match s with
  | EmptyString => EmptyString
  | String a rest => if Ascii.eqb a c then EmptyString else String a (beforeChar c rest)
  end.

Inductive ResponseBody :=
  | JsonProject (project : PublishingProject)
  | JsonError (error : string).

Record HttpResponse := { http_status : Z; http_body : ResponseBody }.

Definition mockData {Ext} (env : Env Ext) (prose_project_id : string)
    (fs : list PublishingFormat) (channels : list DistributionChannel) : PublishParams :=
  {| p_project_id := prose_project_id;
     p_title := "Sample Book Title";
     p_author := "John Doe";
     p_chapters := [];
     p_metadata :=
       {| meta_title := "Sample Book"; meta_subtitle := None; meta_author := "John Doe";
          meta_publisher := "Self-Published";
          meta_publication_date := beforeChar "T" (now_iso env);
          meta_language := "en"; meta_genre := "fiction";
          meta_description := "A compelling story...";
          meta_bisac_categories := []; meta_keywords := []; meta_price_usd := 999 |};
     p_formats := fs;
     p_distribution_channels := channels |}.

Definition postProjects {Ext} (env : Env Ext) (prose_project_id : string)
    (fs : list PublishingFormat) (channels : list DistributionChannel)
    : M Ext HttpResponse :=
  try_catch
    (logger info "Creating publishing project" ;;;
     project <- publishBook env (mockData env prose_project_id fs channels) ;;
     ret {| http_status := 200; http_body := JsonProject project |})
    (fun msg =>
       logger log_error "Failed to create project" ;;;
       ret {| http_status := 500; http_body := JsonError msg |}).


(* ===================================================================== *)
(** ** Numbers in text *)
(* ===================================================================== *)

(** [c.repeat(n)] for a one-character string. *)
Fixpoint repeatChar (n : nat) (c : ascii) : string :=
  match n with
  | O => EmptyString
  | S n' => String c (repeatChar n' c)
  end.

(** [s.padStart(targetLength, c)] for a one-character pad. *)
Definition padStart (targetLength : nat) (c : ascii) (s : string) : string :=
  repeatChar (targetLength - String.length s) c +:+ s.

(** [parseInt(s[j])]: the digit a one-character string denotes; [None] is
    [NaN], which is what a missing character or any other character gives. *)
Definition parseIntChar (c : option ascii) : option Z :=
  match c with
  | Some a =>
      let n := nat_of_ascii a in
      if (48 <=? n)%nat && (n <=? 57)%nat then Some (Z.of_nat n - 48) else None
  | None => None
  end.

(* ===================================================================== *)
(** ** ISBNManager *)
(* ===================================================================== *)

Module ISBNManager.

Inductive IsbnStatus := isbn_available | isbn_assigned | isbn_published.

#[global] Instance IsbnStatus_eq_dec : EqDecision IsbnStatus.
Proof. solve_decision. Defined.

(** A cost per ISBN is the quotient [cost / quantity]; it is kept as the two
    numbers divided. *)
Record Quotient := { dividend : Z; divisor : Z }.

(** A row of [prose.isbns].  [format_type] may be [NULL] in the table (the
    query of [assignISBN] asks for it). *)
Record ISBN := {
  id : string;
  isbn_13 : string;
  isbn_10 : string;
  project_id : option string;
  format_type : option PublishingFormat;
  status : IsbnStatus;
  purchased_at : Z;
  assigned_at : option Z;
  published_at : option Z;
  cost : Quotient;
}.

Record Address := {
  street : string;
  city : string;
  state : string;
  zip : string;
  country : string;
}.

Record ContactInfo := {
  contact_name : string;
  contact_email : string;
  contact_phone : string;
  contact_address : Address;
}.

Record ISBNPurchaseRequest := {
  quantity : Z;
  publisher_name : string;
  contact_info : ContactInfo;
}.

Record AssignedISBN := {
  assigned_isbn_13 : string;
  assigned_isbn_10 : string;
  assigned_format : PublishingFormat;
  barcode_image : option Buffer;
}.

(** An element of [response.data.isbns]. *)
Record IsbnData := { isbn13 : string; isbn10 : string }.

(** What is outside the manager: the table [prose.isbns], rows in insertion
    order, the state of Bowker's service, and the number of values drawn from
    [Math.random].  The database answers every [SELECT] and [UPDATE]; an
    [INSERT] it may reject. *)
Record Store (Net : Type) := {
  isbns : list ISBN;
  net : Net;
  draws : nat;
}.

Arguments isbns {Net} _.
Arguments net {Net} _.
Arguments draws {Net} _.

(** What the manager calls and reads: Bowker's endpoints, each a transition
    of the service that fulfils or rejects, the answer of the database to an
    [INSERT], and the configuration. *)
Record Bowker (Net : Type) := {
  post_purchase : ISBNPurchaseRequest -> Net -> Result (list IsbnData) * Net;
  get_barcode : string -> Net -> Result Buffer * Net;
  insert_error : ISBN -> Store Net -> option string;
                                    (* the error of an [INSERT] the database rejects *)
  nodeEnv : string;                 (* [serverConfig.nodeEnv] *)
  isbn_10pack : Z;                  (* [config.costs.isbn_10pack] *)
  isbn_100pack : Z;                 (* [config.costs.isbn_100pack] *)
  random_at : nat -> Z;             (* the n-th [Math.floor(Math.random() * 1000000000)] *)
}.

Arguments post_purchase {Net} _ _ _.
Arguments get_barcode {Net} _ _ _.
Arguments insert_error {Net} _ _ _.
Arguments nodeEnv {Net} _.
Arguments isbn_10pack {Net} _.
Arguments isbn_100pack {Net} _.
Arguments random_at {Net} _ _.

Definition format_key (f : PublishingFormat) : string :=
  match f with ebook => "ebook" | print => "print" | audiobook => "audiobook" end.

(** A request to Bowker moves the service and nothing else. *)
Definition request {Net A} (f : Net -> Result A * Net) : M (Store Net) A :=
  call (fun s =>
          let '(r, n) := f (net s) in
          (r, {| isbns := isbns s; net := n; draws := draws s |})).

(** [INSERT INTO prose.isbns ... VALUES (...)]: the row is appended, or the
    database rejects it and the table stays as it is. *)
Definition insert {Net} (bowker : Bowker Net) (row : ISBN) : M (Store Net) unit :=
  call (fun s =>
          match insert_error bowker row s with
          | Some msg => (Throw msg, s)
          | None => (Ok tt, {| isbns := isbns s ++ [row]; net := net s; draws := draws s |})
          end).

(** [Math.floor(Math.random() * 1000000000)]. *)
Definition random {Net} (bowker : Bowker Net) : M (Store Net) Z :=
  call (fun s => (Ok (random_at bowker (draws s)),
                  {| isbns := isbns s; net := net s; draws := S (draws s) |})).

(** [ISBNManager.calculateISBNCost]. *)
Definition calculateISBNCost {Net} (env : Env (Store Net)) (bowker : Bowker Net)
    (quantity : Z) : M (Store Net) Z :=
  match quantity with
  | 1 => ret (cost_isbn_single env)
  | 10 => ret (isbn_10pack bowker)
  | 100 => ret (isbn_100pack bowker)
  | _ => throw ("Invalid ISBN quantity: " +:+ pretty quantity)
  end.

(** The row [purchaseISBN] and [generatePlaceholderISBNs] store for an
    ISBN-13 and an ISBN-10. *)
Definition purchasedRow {Net} (env : Env (Store Net)) (uuid i13 i10 : string)
    (cost quantity : Z) : ISBN :=
  {| id := uuid; isbn_13 := i13; isbn_10 := i10; project_id := None;
     format_type := Some ebook; status := isbn_available;
     purchased_at := now_ms env; assigned_at := None; published_at := None;
     cost := {| dividend := cost; divisor := quantity |} |}.

(** [for (let j = 0; j < 12; j++) sum += parseInt(isbn13[j]) * (j % 2 === 0 ? 1 : 3)];
    [None] is [NaN]. *)
Definition checkDigitSum (isbn13 : string) : option Z :=
  foldl (fun sum j =>
           match sum, parseIntChar (String.get j isbn13) with
           | Some s, Some d => Some (s + d * (if Nat.even j then 1 else 3))
           | _, _ => None
           end)
        (Some 0) (seq 0 12).

(** The ISBN-13 [generatePlaceholderISBNs] builds from one random draw. *)
Definition placeholderISBN13 (r : Z) : string :=
  let randomDigits := padStart 9 "0" (pretty r) in
  let isbn13 := "978" +:+ randomDigits in
  let checkDigit :=
    match checkDigitSum isbn13 with
    | Some sum => pretty ((10 - sum mod 10) mod 10)
    | None => "NaN"
    end in
  isbn13 +:+ checkDigit.

(** The loop of [generatePlaceholderISBNs], [n] rounds left. *)
Fixpoint placeholderLoop {Net} (env : Env (Store Net)) (bowker : Bowker Net)
    (cost quantity : Z) (n : nat) (isbns : list ISBN) : M (Store Net) (list ISBN) :=
  match n with
  | O => ret isbns
  | S n' =>
      r <- random bowker ;;
      let finalIsbn13 := placeholderISBN13 r in
      uuid <- uuidv4 env ;;
      let isbn := purchasedRow env uuid finalIsbn13 EmptyString cost quantity in
      insert bowker isbn ;;;
      placeholderLoop env bowker cost quantity n' (isbns ++ [isbn])
  end.

(** [ISBNManager.generatePlaceholderISBNs]. *)
Definition generatePlaceholderISBNs {Net} (env : Env (Store Net)) (bowker : Bowker Net)
    (quantity : Z) : M (Store Net) (list ISBN) :=
  cost <- calculateISBNCost env bowker quantity ;;
  isbns <- placeholderLoop env bowker cost quantity (Z.to_nat quantity) [] ;;
  logger info ("Generated " +:+ pretty (Z.of_nat (length isbns))
                 +:+ " placeholder ISBN(s) for development") ;;;
  ret isbns.

(** The loop of [purchaseISBN] over [response.data.isbns]. *)
Fixpoint storePurchased {Net} (env : Env (Store Net)) (bowker : Bowker Net)
    (cost quantity : Z) (response : list IsbnData) (isbns : list ISBN)
    : M (Store Net) (list ISBN) :=
  match response with
  | [] => ret isbns
  | isbnData :: rest =>
      uuid <- uuidv4 env ;;
      let isbn := purchasedRow env uuid (isbn13 isbnData) (isbn10 isbnData) cost quantity in
      insert bowker isbn ;;;
      storePurchased env bowker cost quantity rest (isbns ++ [isbn])
  end.

(** [ISBNManager.purchaseISBN]. *)
Definition purchaseISBN {Net} (env : Env (Store Net)) (bowker : Bowker Net)
    (req : ISBNPurchaseRequest) : M (Store Net) (list ISBN) :=
  logger info ("Purchasing " +:+ pretty (quantity req) +:+ " ISBN(s) from Bowker") ;;;
  try_catch
    (cost <- calculateISBNCost env bowker (quantity req) ;;
     response <- request (post_purchase bowker req) ;;
     isbns <- storePurchased env bowker cost (quantity req) response [] ;;
     logger info ("Successfully purchased " +:+ pretty (Z.of_nat (length isbns))
                    +:+ " ISBN(s), total cost: $" +:+ pretty cost) ;;;
     ret isbns)
    (fun msg =>
       logger log_error "Failed to purchase ISBNs from Bowker" ;;;
       if String.eqb (nodeEnv bowker) "development" then
         logger warn "Bowker API unavailable, generating placeholder ISBNs for development" ;;;
         generatePlaceholderISBNs env bowker (quantity req)
       else throw ("Failed to purchase ISBNs: " +:+ msg)).

(** The [WHERE] clause of [assignISBN]'s query:
    [status = 'available' AND (format_type = $2 OR format_type IS NULL)]. *)
Definition assignable (format : PublishingFormat) (row : ISBN) : bool :=
  bool_decide (status row = isbn_available)
  && (bool_decide (format_type row = Some format) || bool_decide (format_type row = None)).

(** Its [ORDER BY CASE WHEN format_type = $2 THEN 0 ELSE 1 END, purchased_at ASC]:
    whether [row] sorts strictly before [other]. *)
Definition sortsBefore (format : PublishingFormat) (row other : ISBN) : bool :=
  let rank r := if bool_decide (format_type r = Some format) then 0 else 1 in
  (rank row <? rank other)
  || ((rank row =? rank other) && (purchased_at row <? purchased_at other)).

(** The query with its [LIMIT 1]: the first row of the sorted candidates.
    Among rows that sort equal, which SQL leaves open, the one stored first
    is taken. *)
Definition selectAvailable (format : PublishingFormat) (rows : list ISBN) : option ISBN :=
  foldl (fun best row =>
           match best with
           | None => Some row
           | Some b => if sortsBefore format row b then Some row else Some b
           end)
        None (List.filter (assignable format) rows).

(** [UPDATE prose.isbns SET project_id = $1, status = 'assigned',
    format_type = $3, assigned_at = $4 WHERE id = $5]. *)
Definition assignRow (project : string) (format : PublishingFormat) (now : Z)
    (row : ISBN) : ISBN :=
  {| id := id row; isbn_13 := isbn_13 row; isbn_10 := isbn_10 row;
     project_id := Some project; format_type := Some format; status := isbn_assigned;
     purchased_at := purchased_at row; assigned_at := Some now;
     published_at := published_at row; cost := cost row |}.

Definition updateAssigned {Net} (project : string) (format : PublishingFormat) (now : Z)
    (key : string) : M (Store Net) unit :=
  call (fun s =>
          (Ok tt,
           {| isbns := map (fun row => if String.eqb (id row) key
                                       then assignRow project format now row else row)
                         (isbns s);
              net := net s; draws := draws s |})).

(** [ISBNManager.generateBarcode]: a failure of the service is logged and
    gives [undefined]. *)
Definition generateBarcode {Net} (bowker : Bowker Net) (isbn : string)
    : M (Store Net) (option Buffer) :=
  try_catch
    (image <- request (get_barcode bowker isbn) ;; ret (Some image))
    (fun _ =>
       logger warn ("Failed to generate barcode for ISBN " +:+ isbn) ;;;
       ret None).

(** [ISBNManager.assignISBN]. *)
Definition assignISBN {Net} (env : Env (Store Net)) (bowker : Bowker Net)
    (project : string) (format : PublishingFormat) : M (Store Net) AssignedISBN :=
  logger info ("Assigning ISBN for project " +:+ project +:+ ", format: "
                 +:+ format_key format) ;;;
  w <- get_world ;;
  match selectAvailable format (isbns (w_ext w)) with
  | None => throw "No available ISBNs. Please purchase more ISBNs before publishing."
  | Some isbn =>
      updateAssigned project format (now_ms env) (id isbn) ;;;
      logger info ("ISBN " +:+ isbn_13 isbn +:+ " assigned to project " +:+ project) ;;;
      barcodeImage <- generateBarcode bowker (isbn_13 isbn) ;;
      ret {| assigned_isbn_13 := isbn_13 isbn; assigned_isbn_10 := isbn_10 isbn;
             assigned_format := format; barcode_image := barcodeImage |}
  end.

(** *** Notions the statements about the manager use *)

(** The rows a purchase stores: available, unassigned, of format [ebook],
    at the pack price divided by the quantity. *)
Definition freshRow (price count : Z) (row : ISBN) : Prop :=
  status row = isbn_available /\ project_id row = None
  /\ format_type row = Some ebook
  /\ cost row = {| dividend := price; divisor := count |}.

(** The first key of the [ORDER BY]. *)
Definition formatRank (format : PublishingFormat) (row : ISBN) : Z :=
  if bool_decide (format_type row = Some format) then 0 else 1.

(** The table after [assignISBN] took the row with identifier [key]. *)
Definition assignedTable (project : string) (format : PublishingFormat) (now : Z)
    (key : string) (rows : list ISBN) : list ISBN :=
  map (fun row => if String.eqb (id row) key then assignRow project format now row else row)
    rows.

End ISBNManager.

(* ===================================================================== *)
(** ** Further inputs and notions *)
(* ===================================================================== *)

(** An environment over any outside state in which every collaborator of
    the orchestrator succeeds and leaves that state alone. *)
Definition quietEnvOver (Ext : Type) : Env Ext :=
  {| now_iso := "2024-01-01T00:00:00.000Z";
     now_ms := 1704067200000;
     uuidv4_at := fun n => "00000000-0000-4000-8000-" +:+ pretty n;
     zipByteLength := fun entries => 1024 * Z.of_nat (length entries);
     formats_outputDir := "/app/outputs/formats";
     fs_writeFile := fun _ _ e => (Ok tt, e);
     assignISBN := fun _ _ e => (Ok tt, e);
     registerCopyright := fun _ _ _ e => (Ok tt, e);
     applyForLCCN := fun _ _ e => (Ok tt, e);
     ebook_convert := fun _ _ e => (Ok (Blob 2048), e);
     pdfkit_render := fun chapters _ _ e => (Ok (Blob 4096, 2 + Z.of_nat (length chapters)), e);
     epubcheck := fun _ e => (Ok tt, e);
     toFixed2 := fun _ _ => "0.00";
     generateCover := fun _ _ _ e =>
       (Ok {| cg_concept_description := "concept"; cg_ai_prompt := "prompt";
              cg_front_cover := Blob 1000; cg_full_cover := None;
              cg_thumbnail := Blob 100; cg_design_notes := "notes" |}, e);
     optimizeMetadata := fun m e => (Ok m, e);
     kdp_prepareSubmissionPackage := fun _ e => (Ok "kdp_1704067200000", e);
     kdp_saveSubmissionRecord := fun _ _ e => (Ok tt, e);
     ingram_deliver := fun _ e =>
       (Ok ("ingram_1704067200000", ready_for_upload, Some "instructions"), e);
     uploadInstructions := fun _ _ => "instructions";
     db_saveProject := fun _ e => (Ok tt, e);
     has_error_listener := true;
     inspect := fun _ => "[event]";
     cost_isbn_single := 12500;
     cost_copyright_registration := 6500;
     cost_lccn := 0;
     cost_cover_generation := 40 |}.

(** A development server whose Bowker account is out of reach, and a table
    of two purchased ISBNs. *)
Definition storeEnv : Env (ISBNManager.Store unit) := quietEnvOver (ISBNManager.Store unit).

Definition devBowker : ISBNManager.Bowker unit :=
  {| ISBNManager.post_purchase := fun _ n => (Throw "connect ECONNREFUSED", n);
     ISBNManager.get_barcode := fun _ n => (Throw "connect ECONNREFUSED", n);
     ISBNManager.insert_error := fun _ _ => None;
     ISBNManager.nodeEnv := "development";
     ISBNManager.isbn_10pack := 29500;
     ISBNManager.isbn_100pack := 150000;
     ISBNManager.random_at := fun n => 123456789 + Z.of_nat n |}.

(** A production server whose Bowker account sells one ISBN, in front of a
    database that rejects every row. *)
Definition fullBowker : ISBNManager.Bowker unit :=
  {| ISBNManager.post_purchase :=
       fun _ n => (Ok [{| ISBNManager.isbn13 := "9780306406157";
                          ISBNManager.isbn10 := "0306406152" |}], n);
     ISBNManager.get_barcode := fun _ n => (Throw "connect ECONNREFUSED", n);
     ISBNManager.insert_error := fun _ _ => Some "could not extend file";
     ISBNManager.nodeEnv := "production";
     ISBNManager.isbn_10pack := 29500;
     ISBNManager.isbn_100pack := 150000;
     ISBNManager.random_at := fun n => 123456789 + Z.of_nat n |}.

Definition storeWorld (rows : list ISBNManager.ISBN) : World (ISBNManager.Store unit) :=
  {| w_pipeline := initialPipeline EmptyString; w_events := []; w_log := [];
     w_uuids := 0%nat;
     w_ext := {| ISBNManager.isbns := rows; ISBNManager.net := tt;
                 ISBNManager.draws := 0%nat |} |}.

Definition purchaseOf (quantity : Z) : ISBNManager.ISBNPurchaseRequest :=
  {| ISBNManager.quantity := quantity; ISBNManager.publisher_name := "Self-Published";
     ISBNManager.contact_info :=
       {| ISBNManager.contact_name := "John Doe";
          ISBNManager.contact_email := "john@example.com";
          ISBNManager.contact_phone := "555-0100";
          ISBNManager.contact_address :=
            {| ISBNManager.street := "1 Main Street"; ISBNManager.city := "Springfield";
               ISBNManager.state := "IL"; ISBNManager.zip := "62701";
               ISBNManager.country := "US" |} |} |}.

Definition twoISBNs : list ISBNManager.ISBN :=
  [ ISBNManager.purchasedRow storeEnv "row-1" "9780306406157" "0306406152" 29500 10;
    ISBNManager.purchasedRow storeEnv "row-2" "9781861972712" "1861972717" 29500 10 ].

(** The ISBN-13 rule: thirteen digits whose sum, the digits at odd positions
    (counted from zero) weighted by three, is a multiple of ten. *)
Definition isbn13Sum (s : string) : option Z :=
  foldl (fun sum j =>
           match sum, parseIntChar (String.get j s) with
           | Some t, Some d => Some (t + d * (if Nat.even j then 1 else 3))
           | _, _ => None
           end)
        (Some 0) (seq 0 13).

Definition validISBN13 (s : string) : bool :=
  (String.length s =? 13)%nat
  && match isbn13Sum s with
     | Some t => t mod 10 =? 0
     | None => false
     end.

(** The [k] low decimal digits of [x], most significant first, before [acc]. *)
Fixpoint lowDigits (k : nat) (x : N) (acc : string) : string :=
  match k with
  | O => acc
  | S k' => lowDigits k' (x `div` 10)%N (String (pretty_N_char (x `mod` 10)%N) acc)
  end.

(** What [escapeXML] does to one character, were it applied character by
    character. *)
Definition escapeChar (a : ascii) : string :=
  if Ascii.eqb a "&" then "&amp;"
  else if Ascii.eqb a "<" then "&lt;"
  else if Ascii.eqb a ">" then "&gt;"
  else if Ascii.eqb a (ascii_of_nat 34) then "&quot;"
  else if Ascii.eqb a "'" then "&apos;"
  else String a EmptyString.

Fixpoint escapeEach (text : string) : string :=
  match text with
  | EmptyString => EmptyString
  | String a rest => escapeChar a +:+ escapeEach rest
  end.

Fixpoint occurs (c : ascii) (s : string) : bool :=
  match s with
  | EmptyString => false
  | String a rest => Ascii.eqb a c || occurs c rest
  end.


(** The names of the two cover files of an archive. *)
Definition coverEntries (cover : option CoverDesign) : list string :=
  match cover with
  | Some _ => ["OEBPS/cover.jpg"; "OEBPS/cover.xhtml"]
  | None => []
  end.

Definition wrongColorProfile : ValidationWarning :=
  {| warn_code := "WRONG_COLOR_PROFILE";
     warn_message := "IngramSpark recommends CMYK color profile for print";
     warn_impact := medium |}.
(* ===================================================================== *)
(** ** LCCNManager *)
(* ===================================================================== *)

Module LCCNManager.

Inductive LccnStatus := lccn_pending | lccn_assigned | lccn_published.

(** [LCCNApplication]; [format] is [params.formats[0]] in the orchestrator,
    [undefined] when no format was requested. *)
Record LCCNApplication := {
  title : string;
  author : string;
  publisher : string;
  publication_date : string;
  isbn : string;
  format : option PublishingFormat;
  cip_data : option bool;
}.

(** A row of [prose.lccns]. *)
Record LCCN := {
  id : string;
  project_id : string;
  lccn : string;
  status : LccnStatus;
  application_date : Z;
  assignment_date : option Z;
}.

(** What [applyForLCCN] returns: the stored row and the instructions. *)
Record Application := {
  row : LCCN;
  instructions : list string;
}.

(** The table [prose.lccns], rows in insertion order, and the number of
    values drawn from [Math.random].  As for the ISBNs, the database answers
    every [SELECT]; an [INSERT] it may reject. *)
Record Store := {
  lccns : list LCCN;
  draws : nat;
}.

(** The answer of the database to an [INSERT]: the error when it rejects
    the row. *)
Record Database := {
  insert_error : LCCN -> Store -> option string;
}.

(** The clock and the random source of the process. *)
Record Clock := {
  fullYear : Z;                     (* [new Date().getFullYear()] *)
  random_at : nat -> Z;             (* the n-th [Math.floor(Math.random() * 1000000)] *)
  dateText : string -> string;      (* [String(date)] of a date kept as its ISO day *)
}.

(** [LCCNManager.generatePlaceholderLCCN], for the draw [r]. *)
Definition placeholderLCCN (year r : Z) : string :=
  let sequence := padStart 6 "0" (pretty r) in
  pretty year +:+ "-" +:+ sequence.

Definition generatePlaceholderLCCN (clock : Clock) : M Store string :=
  r <- call (fun s => (Ok (random_at clock (draws s)),
                       {| lccns := lccns s; draws := S (draws s) |})) ;;
  ret (placeholderLCCN (fullYear clock) r).

Definition format_text (f : option PublishingFormat) : string :=
  match f with
  | Some ebook => "ebook"
  | Some print => "print"
  | Some audiobook => "audiobook"
  | None => "undefined"
  end.

(** [LCCNManager.generateApplicationInstructions]. *)
Definition generateApplicationInstructions (clock : Clock)
    (application : LCCNApplication) : list string :=
  [ "=== LCCN Application Instructions ===";
    EmptyString;
    "The Library of Congress offers free LCCNs to U.S. publishers.";
    EmptyString;
    "Steps to apply:";
    "1. Go to https://www.loc.gov/publish/pcn/";
    "2. Create a publisher account (if you don't have one)";
    "3. Submit a request for a Preassigned Control Number (PCN)";
    "4. Provide the following information:";
    "   - Title: " +:+ title application;
    "   - Author: " +:+ author application;
    "   - Publisher: " +:+ publisher application;
    "   - Publication Date: " +:+ dateText clock (publication_date application);
    "   - ISBN: " +:+ isbn application;
    "   - Format: " +:+ format_text (format application);
    "5. Submit the application (free, no payment required)";
    "6. You will receive the LCCN within 1-2 weeks";
    "7. Print the LCCN on the copyright page of your book";
    EmptyString;
    "Optional: Request CIP Data (Cataloging in Publication)";
    "- Provides professional cataloging data for libraries";
    "- Requires submitting galley proofs 3-4 months before publication";
    "- Visit: https://www.loc.gov/publish/cip/";
    EmptyString;
    "Note: After publication, you must send 2 copies of the book to:";
    "Library of Congress";
    "Copyright Office";
    "101 Independence Avenue SE";
    "Washington, DC 20559-6000" ].

(** [LCCNManager.applyForLCCN]: the row is stored under the ISBN of the
    application ("Using ISBN as project identifier").  The object of
    [generateApplicationData] is built and not used. *)
Definition applyForLCCN (env : Env Store) (clock : Clock) (db : Database)
    (application : LCCNApplication) : M Store Application :=
  logger info ("Applying for LCCN for book: " +:+ title application) ;;;
  try_catch
    (lccn <- generatePlaceholderLCCN clock ;;
     uuid <- uuidv4 env ;;
     let stored :=
       {| id := uuid; project_id := isbn application; lccn := lccn;
          status := lccn_pending; application_date := now_ms env;
          assignment_date := None |} in
     call (fun s =>
             match insert_error db stored s with
             | Some msg => (Throw msg, s)
             | None => (Ok tt, {| lccns := lccns s ++ [stored]; draws := draws s |})
             end) ;;;
     logger info ("LCCN application created: " +:+ lccn) ;;;
     ret {| row := stored;
            instructions := generateApplicationInstructions clock application |})
    (fun msg =>
       logger log_error "Failed to apply for LCCN" ;;;
       throw ("LCCN application failed: " +:+ msg)).

(** [LCCNManager.getByProjectId]:
    [SELECT * FROM prose.lccns WHERE project_id = $1], first row or [null]. *)
Definition getByProjectId (projectId : string) : M Store (option LCCN) :=
  w <- get_world ;;
  ret (head (List.filter (fun r => String.eqb (project_id r) projectId)
               (lccns (w_ext w)))).

(** The application phase 3 of [publishBook] makes. *)
Definition pipelineApplication (params : PublishParams) : LCCNApplication :=
  {| title := meta_title (p_metadata params);
     author := meta_author (p_metadata params);
     publisher := meta_publisher (p_metadata params);
     publication_date := meta_publication_date (p_metadata params);
     isbn := EmptyString;
     format := head (p_formats params);
     cip_data := None |}.

Record Eligibility := {
  eligible : bool;
  reasons : list string;
}.

(** [LCCNManager.validateLCCNEligibility].  A field of the metadata that is
    not set is the empty text: the publisher, and the publication date, which
    is kept as its ISO day. *)
Definition validateLCCNEligibility (metadata : BookMetadata) : Eligibility :=
  let reasons :=
    when (negb (nonEmpty (meta_publisher metadata))) "Publisher name is required"
    ++ when (negb (nonEmpty (meta_publication_date metadata)))
         "Publication date must be set"
    ++ when (negb (String.eqb (meta_language metadata) "en")
             && negb (String.eqb (meta_language metadata) "English"))
         "Note: Books in languages other than English may have longer processing times" in
  {| eligible :=
       (length (List.filter (fun r => negb (String.prefix "Note:" r)) reasons) =? 0)%nat;
     reasons := reasons |}.

End LCCNManager.

(** The value of a text of decimal digits; [None] when a character is not
    one. *)
Definition decimalValue (s : string) : option Z :=
  foldl (fun value a =>
           match value, parseIntChar (Some a) with
           | Some v, Some d => Some (10 * v + d)
           | _, _ => None
           end)
        (Some 0) (list_ascii_of_string s).

Definition lccnWorld (rows : list LCCNManager.LCCN) : World LCCNManager.Store :=
  {| w_pipeline := initialPipeline EmptyString; w_events := []; w_log := [];
     w_uuids := 0%nat;
     w_ext := {| LCCNManager.lccns := rows; LCCNManager.draws := 0%nat |} |}.

Definition lccnClock : LCCNManager.Clock :=
  {| LCCNManager.fullYear := 2024;
     LCCNManager.random_at := fun n => 4711 + Z.of_nat n;
     LCCNManager.dateText := fun day => day |}.

(* ===================================================================== *)
(** ** More of JavaScript's strings *)
(* ===================================================================== *)

(** [s.toLowerCase()], on the letters A to Z (a character outside ASCII is
    kept as it is). *)
Definition lowerChar (a : ascii) : ascii :=
  let n := nat_of_ascii a in
  if (65 <=? n)%nat && (n <=? 90)%nat then ascii_of_nat (n + 32) else a.

Fixpoint toLowerCase (s : string) : string :=
  match s with
  | EmptyString => EmptyString
  | String a rest => String (lowerChar a) (toLowerCase rest)
  end.

(** [hay.includes(needle)]. *)
Fixpoint includesText (needle hay : string) : bool :=
  String.prefix needle hay
  || match hay with
     | EmptyString => false
     | String _ rest => includesText needle rest
     end.

(** [s.split(c)] for a one-character separator; [cur] is the piece being
    read. *)
Fixpoint splitOn (c : ascii) (s : string) (cur : string) : list string :=
  match s with
  | EmptyString => [cur]
  | String a rest =>
      if Ascii.eqb a c then cur :: splitOn c rest EmptyString
      else splitOn c rest (cur +:+ String a EmptyString)
  end.

(** [s.split(/\s+/)]: a run of white space separates; [inRun] says the
    character before was white space. *)
Fixpoint splitSpaces (s : string) (cur : string) (inRun : bool) : list string :=
  match s with
  | EmptyString => [cur]
  | String a rest =>
      if isSpace a then
        if inRun then splitSpaces rest EmptyString true
        else cur :: splitSpaces rest EmptyString true
      else splitSpaces rest (cur +:+ String a EmptyString) false
  end.

(** [[...new Set(list)]], and [filter((x, i, self) => self.indexOf(x) === i)]:
    the first occurrence of each element, in order; [seen] are the elements
    met before. *)
Fixpoint dedupe (seen : list string) (l : list string) : list string :=
  match l with
  | [] => []
  | x :: rest =>
      if bool_decide (x ∈ seen) then dedupe seen rest
      else x :: dedupe (x :: seen) rest
  end.

(** [s.substring(0, n)]. *)
Definition substring0 (n : nat) (s : string) : string := String.substring 0 n s.

(* ===================================================================== *)
(** ** MetadataOptimizer *)
(* ===================================================================== *)

Module MetadataOptimizer.

(** A [BookMetadata] with the two further fields the optimizer reads. *)
Record Input := {
  metadata : BookMetadata;
  subgenres : list string;
  series : option string;           (* [metadata.series.name] *)
}.

Definition genre (input : Input) : string := meta_genre (metadata input).
Definition description (input : Input) : string := meta_description (metadata input).

(** [BISAC_CATEGORIES]. *)
Definition BISAC_CATEGORIES : gmap string (list string) :=
  list_to_map [
    ("fiction",
     [ "FIC000000 - FICTION / General";
       "FIC002000 - FICTION / Action & Adventure";
       "FIC009000 - FICTION / Fantasy / General";
       "FIC028000 - FICTION / Science Fiction / General";
       "FIC030000 - FICTION / Thriller / General";
       "FIC027000 - FICTION / Romance / General";
       "FIC022000 - FICTION / Mystery & Detective / General";
       "FIC015000 - FICTION / Horror" ]);
    ("non-fiction",
     [ "BUS000000 - BUSINESS & ECONOMICS / General";
       "SEL000000 - SELF-HELP / General";
       "HIS000000 - HISTORY / General";
       "BIO000000 - BIOGRAPHY & AUTOBIOGRAPHY / General";
       "SCI000000 - SCIENCE / General";
       "POL000000 - POLITICAL SCIENCE / General" ]) ].

(** [this.BISAC_CATEGORIES[key]]. *)
Definition categoriesOf (key : string) : list string :=
  default [] (BISAC_CATEGORIES !! key).

Definition stopWords : list string :=
  ["the"; "a"; "an"; "and"; "or"; "but"; "in"; "on"; "at"; "to"; "for"].

(** [MetadataOptimizer.extractMainKeywords]. *)
Definition extractMainKeywords (text genre : string) : list string :=
  let words := splitSpaces (toLowerCase text) EmptyString false in
  let keywords :=
    take 10
      (dedupe []
         (List.filter (fun word => (4 <? String.length word)%nat
                                   && negb (bool_decide (word ∈ stopWords)))
            words)) in
  genre :: keywords.

(** [MetadataOptimizer.optimizeDescription]. *)
Definition optimizeDescription (input : Input) : string :=
  let hook := default EmptyString (head (splitOn "." (description input) EmptyString)) in
  let mainKeywords := extractMainKeywords (description input) (genre input) in
  let optimized := hook +:+ ". " in
  let optimized :=
    optimized +:+ ("A gripping " +:+ genre input +:+ " story that combines "
                     +:+ join ", " (take 3 mainKeywords) +:+ ". ") in
  let restOfDescription :=
    trim (join "." (drop 1 (splitOn "." (description input) EmptyString))) in
  let optimized := optimized +:+ restOfDescription in
  let optimized :=
    if (String.length optimized <? 300)%nat
    then optimized +:+ (" Perfect for fans of " +:+ genre input +:+ " fiction.")
    else optimized in
  if (4000 <? String.length optimized)%nat
  then substring0 3997 optimized +:+ "..."
  else optimized.

(** [selectedCategories.includes(cat)]. *)
Definition selectedIncludes (selected : list string) (cat : string) : bool :=
  bool_decide (cat ∈ selected).

(** The loop over the subgenres of [selectBISACCategories]. *)
Fixpoint secondaryCategories (categoryList subgenres selected : list string) : list string :=
  match subgenres with
  | [] => selected
  | subgenre :: rest =>
      if (3 <=? length selected)%nat then selected
      else
        match List.find (fun cat => includesText subgenre (toLowerCase cat)
                                    && negb (selectedIncludes selected cat))
                categoryList with
        | Some secondary => secondaryCategories categoryList rest (selected ++ [secondary])
        | None => secondaryCategories categoryList rest selected
        end
  end.

(** Its [while] loop, which adds one category per round while fewer than
    three are selected: [rounds] bounds the rounds, and three are enough. *)
Fixpoint generalCategories (rounds : nat) (categoryList selected : list string)
    : list string :=
  match rounds with
  | O => selected
  | S rounds' =>
      if (length selected <? 3)%nat && (length selected <? length categoryList)%nat then
        match List.find (fun cat => negb (selectedIncludes selected cat)) categoryList with
        | Some general => generalCategories rounds' categoryList (selected ++ [general])
        | None => selected
        end
      else selected
  end.

(** [MetadataOptimizer.selectBISACCategories]. *)
Definition selectBISACCategories (input : Input) : list string :=
  let genre := toLowerCase (genre input) in
  let subgenres := map toLowerCase (subgenres input) in
  let isFiction :=
    includesText "fiction" genre
    || bool_decide (genre ∈ ["romance"; "thriller"; "mystery"; "fantasy"; "science fiction"]) in
  let categoryList := if isFiction then categoriesOf "fiction" else categoriesOf "non-fiction" in
  let selectedCategories :=
    match List.find (fun cat => includesText (toLowerCase genre) (toLowerCase cat))
            categoryList with
    | Some primary => [primary]
    | None => []
    end in
  let selectedCategories := secondaryCategories categoryList subgenres selectedCategories in
  generalCategories 3 categoryList selectedCategories.

(** [metadata.author.split(' ').pop() || metadata.author]. *)
Definition lastName (author : string) : string :=
  match last (splitOn " " author EmptyString) with
  | Some name => if nonEmpty name then name else author
  | None => author
  end.

(** [MetadataOptimizer.generateFallbackKeywords]. *)
Definition generateFallbackKeywords (input : Input) : list string :=
  take 7
    ([genre input] ++ subgenres input
     ++ [ genre input +:+ " books"; genre input +:+ " fiction"; "bestseller";
          "new release"; lastName (meta_author (metadata input)) ]).

(** The LearningAgent, a service that fulfils or rejects, and the year of
    the clock. *)
Record LearningAgent (Net : Type) := {
  research : string -> Net -> Result (list string) * Net;   (* [research.data.keywords || []] *)
  fullYear : Z;
}.

Arguments research {Net} _ _ _.
Arguments fullYear {Net} _.

(** [MetadataOptimizer.generateKeywords]. *)
Definition generateKeywords {Net} (agent : LearningAgent Net) (input : Input)
    : M Net (list string) :=
  logger info "Researching keywords for genre:" ;;;
  try_catch
    (trendingKeywords <-
       call (research agent ("trending keywords for " +:+ genre input +:+ " books in "
                               +:+ pretty (fullYear agent))) ;;
     let bookKeywords :=
       extractMainKeywords (description input) (genre input)
       ++ subgenres input ++ take 3 trendingKeywords in
     let uniqueKeywords := dedupe [] bookKeywords in
     ret (take 7 uniqueKeywords))
    (fun _ =>
       logger warn "LearningAgent unavailable, using fallback keywords" ;;;
       ret (generateFallbackKeywords input)).

(** [MetadataOptimizer.generateSearchTerms]: a [Set] filled in this order. *)
Definition generateSearchTerms (input : Input) : list string :=
  let titleWords :=
    List.filter (fun word => (3 <? String.length word)%nat
                             && negb (bool_decide (word ∈ ["the"; "and"; "for"])))
      (splitOn " " (toLowerCase (meta_title (metadata input))) EmptyString) in
  dedupe []
    ([genre input] ++ subgenres input ++ [meta_author (metadata input)] ++ titleWords
     ++ meta_keywords (metadata input)
     ++ match series input with Some name => [name] | None => [] end).

(** [MetadataOptimizer.optimizeTitle]. *)
Definition optimizeTitle (input : Input) : string * option string :=
  let title := meta_title (metadata input) in
  let subtitle := meta_subtitle (metadata input) in
  let noSubtitle :=
    match subtitle with
    | Some s => negb (nonEmpty s)
    | None => true
    end in
  if (60 <? String.length title)%nat && noSubtitle then
    match splitOn ":" title EmptyString with
    | [first; second] => (trim first, Some (trim second))
    | _ => (title, subtitle)
    end
  else (title, subtitle).

(** [Math.round], on the exact number. *)
Definition round (x : QArith_base.Q) : Z :=
  Qround.Qfloor (QArith_base.Qplus x (QArith_base.Qmake 1 2)).

(** [list.length] as a number. *)
Definition count (l : list string) : QArith_base.Q :=
  QArith_base.inject_Z (Z.of_nat (length l)).

Import QArith_base Qminmax.
Local Open Scope Q_scope.

(** [MetadataOptimizer.calculateSEOScore].  The source adds doubles; the sum
    here is the exact number.  It is a multiple of 1/21, so at least 1/42
    away from the next half, and the double, which is off by far less, is
    rounded to the same integer. *)
Definition calculateSEOScore (description : string)
    (categories keywords searchTerms : list string) : Z :=
  let len := String.length description in
  let score := 0 in
  let score :=
    if ((300 <=? len) && (len <=? 4000))%nat then score + 30
    else if (150 <=? len)%nat then score + 20
    else score + 10 in
  let score := score + (count categories / 3) * 25 in
  let score := score + (count keywords / 7) * 25 in
  let score := score + Qmin ((count searchTerms / 15) * 20) 20 in
  round score.

Local Close Scope Q_scope.

(** What [optimizeMetadata] returns: the metadata with the optimized fields,
    the search terms and the score.  Its two tables of market figures, which
    are random numbers nothing reads, are left out. *)
Record OptimizedMetadata := {
  optimized : BookMetadata;
  search_terms : list string;
  seo_score : Z;
}.

(** [MetadataOptimizer.optimizeMetadata]. *)
Definition optimizeMetadata {Net} (agent : LearningAgent Net) (input : Input)
    : M Net OptimizedMetadata :=
  logger info ("Optimizing metadata for: " +:+ meta_title (metadata input)) ;;;
  try_catch
    (let optimizedDesc := optimizeDescription input in
     let categories := selectBISACCategories input in
     keywords <- generateKeywords agent input ;;
     let searchTerms := generateSearchTerms input in
     let titleOptimization := optimizeTitle input in
     let seoScore := calculateSEOScore optimizedDesc categories keywords searchTerms in
     logger info ("Metadata optimized successfully, SEO score: " +:+ pretty seoScore) ;;;
     ret {| optimized :=
              {| meta_title := fst titleOptimization;
                 meta_subtitle := snd titleOptimization;
                 meta_author := meta_author (metadata input);
                 meta_publisher := meta_publisher (metadata input);
                 meta_publication_date := meta_publication_date (metadata input);
                 meta_language := meta_language (metadata input);
                 meta_genre := meta_genre (metadata input);
                 meta_description := optimizedDesc;
                 meta_bisac_categories := categories;
                 meta_keywords := keywords;
                 meta_price_usd := meta_price_usd (metadata input) |};
            search_terms := searchTerms;
            seo_score := seoScore |})
    (fun message =>
       logger log_error "Metadata optimization failed" ;;;
       throw ("Metadata optimization failed: " +:+ message)).

(** *** Notions the statements about the optimizer use *)

(** The points [calculateSEOScore] gives for the description. *)
Definition descriptionPoints (description : string) : Z :=
  let len := String.length description in
  if ((300 <=? len) && (len <=? 4000))%nat then 30
  else if (150 <=? len)%nat then 20 else 10.

(** Its sum before rounding, in units of 1/21. *)
Definition score21 (description : string) (categories keywords searchTerms : list string) : Z :=
  21 * descriptionPoints description
  + 175 * Z.of_nat (length categories)
  + 75 * Z.of_nat (length keywords)
  + Z.min (28 * Z.of_nat (length searchTerms)) 420.

(** What the loops of [selectBISACCategories] keep: distinct categories of
    the list, three at most. *)
Definition selection (categoryList selected : list string) : Prop :=
  NoDup selected /\ (forall c, c ∈ selected -> c ∈ categoryList)
  /\ (length selected <= 3)%nat.

End MetadataOptimizer.

(* ===================================================================== *)
(** ** Text without tags *)
(* ===================================================================== *)

(** [html.replace(/<[^>]*>/g, '')].  A match starts at a [<] and ends at the
    first [>] after it; [pending] is the text read since a [<] that no [>]
    has closed yet, which stays when none comes. *)
Fixpoint removeTags (html : string) (pending : option string) : string :=
  match html with
  | EmptyString => default EmptyString pending
  | String a rest =>
      match pending with
      | None =>
          if Ascii.eqb a "<" then removeTags rest (Some "<")
          else String a (removeTags rest None)
      | Some text =>
          if Ascii.eqb a ">" then removeTags rest None
          else removeTags rest (Some (text +:+ String a EmptyString))
      end
  end.

(** [FormatConverter.stripHTML]. *)
Definition stripHTML (html : string) : string := trim (removeTags html None).

(** Whether a text holds a tag, a [<] with a [>] somewhere after it;
    [opened] says a [<] was read. *)
Fixpoint hasTag (text : string) (opened : bool) : bool :=
  match text with
  | EmptyString => false
  | String a rest =>
      (opened && Ascii.eqb a ">") || hasTag rest (opened || Ascii.eqb a "<")
  end.

(* ===================================================================== *)
(** ** Inputs of the statements about the optimizer *)
(* ===================================================================== *)

(** A book of the genre Non-Fiction, and a LearningAgent that does not
    answer. *)
Definition nonFictionBook : MetadataOptimizer.Input :=
  {| MetadataOptimizer.metadata :=
       {| meta_title := "Sample Book"; meta_subtitle := None; meta_author := "John Doe";
          meta_publisher := "Self-Published"; meta_publication_date := "2024-01-01";
          meta_language := "en"; meta_genre := "Non-Fiction";
          meta_description := "A compelling story...";
          meta_bisac_categories := []; meta_keywords := []; meta_price_usd := 999 |};
     MetadataOptimizer.subgenres := ["History"];
     MetadataOptimizer.series := None |}.

Definition silentAgent : MetadataOptimizer.LearningAgent unit :=
  {| MetadataOptimizer.research := fun _ net => (Throw "connect ECONNREFUSED", net);
     MetadataOptimizer.fullYear := 2024 |}.

(* ===================================================================== *)
(** ** Quality score *)
(* ===================================================================== *)

Lemma countSeverity_nonneg s errs : 0 <= countSeverity s errs.
Proof. unfold countSeverity. lia. Qed.

Lemma countImpact_nonneg i warns : 0 <= countImpact i warns.
Proof. unfold countImpact. lia. Qed.

Lemma calculateQualityScore_formula errs warns :
  calculateQualityScore errs warns = scoreFormula errs warns.
Proof. unfold calculateQualityScore, scoreFormula. f_equal. lia. Qed.

Lemma calculateQualityScore_range errs warns :
  0 <= calculateQualityScore errs warns <= 100.
Proof.
  rewrite calculateQualityScore_formula. unfold scoreFormula.
  pose proof (countSeverity_nonneg critical errs).
  pose proof (countSeverity_nonneg error errs).
  pose proof (countImpact_nonneg high warns).
  pose proof (countImpact_nonneg medium warns).
  pose proof (countImpact_nonneg low warns).
  lia.
Qed.

Lemma length_when {A} (b : bool) (x : A) : (length (when b x) <= 1)%nat.
Proof. destruct b; simpl; lia. Qed.

(** Unfolding the monad on a hypothesis or on the goal. *)
Ltac run_in H :=
  unfold bind, ret, throw, try_catch, call, logger, emit, modify_world, get_world,
    set_pipeline, uuidv4 in H; simpl in H.

Ltac run :=
  unfold bind, ret, throw, try_catch, call, logger, emit, modify_world, get_world,
    set_pipeline, uuidv4; simpl.

Lemma verdict_score format errs warns :
  quality_score (verdict format errs warns) = scoreFormula errs warns
  /\ 0 <= quality_score (verdict format errs warns) <= 100.
Proof.
  simpl. split; [apply calculateQualityScore_formula | apply calculateQualityScore_range].
Qed.

Lemma validateEPUB_returns {Ext} (env : Env Ext) epub metadata w v w' :
  validateEPUB env epub metadata w = (Ok v, w') ->
  exists errs warns, v = verdict "EPUB" errs warns.
Proof.
  unfold validateEPUB. intros H. run_in H.
  destruct (epubcheck env (epub_file epub) (w_ext w)) as [[[]|msg] e];
    simpl in H; inversion H; subst; unfold epubVerdict; eauto.
Qed.

Lemma validatePDF_returns {Ext} pdf channel (w : World Ext) v w' :
  validatePDF pdf channel w = (Ok v, w') ->
  exists errs warns, v = verdict "PDF" errs warns.
Proof.
  unfold validatePDF. intros H. run_in H. inversion H; subst.
  unfold pdfVerdict. eauto.
Qed.

Lemma validateCover_returns {Ext} (env : Env Ext) cover channel w v w' :
  validateCover env cover channel w = (Ok v, w') ->
  exists errs warns, v = verdict "Cover Image" errs warns.
Proof.
  unfold validateCover, coverVerdict. intros H. run_in H.
  destruct (dimensions cover) as [[width height]|]; simpl in H; inversion H; subst; eauto.
Qed.

Lemma kdp_validateFiles_returns {Ext} (env : Env Ext) request w v w' :
  kdp_validateFiles env request w = (Ok v, w') ->
  exists errs warns,
    v = adapterVerdict "KDP Submission" errs warns
    /\ (length errs <= 4)%nat /\ (length warns <= 2)%nat.
Proof.
  unfold kdp_validateFiles, manuscript_length. intros H. run_in H.
  destruct (req_manuscript request) as [m|]; simpl in H; inversion H; subst.
  eexists _, _. split; [reflexivity|].
  rewrite !length_app.
  repeat match goal with
         | |- context [length (when ?b ?x)] =>
             let L := fresh "L" in
             pose proof (length_when b x) as L;
             generalize dependent (length (when b x)); intros
         end.
  lia.
Qed.

Lemma ingram_validateFiles_returns {Ext} (env : Env Ext) request w v w' :
  ingram_validateFiles env request w = (Ok v, w') ->
  exists errs,
    v = adapterVerdict "IngramSpark Submission" errs [] /\ (length errs <= 2)%nat.
Proof.
  unfold ingram_validateFiles, manuscript_length. intros H. run_in H.
  destruct (req_manuscript request) as [m|]; simpl in H; inversion H; subst.
  eexists. split; [reflexivity|].
  rewrite !length_app.
  pose proof (length_when (strlen (req_isbn request) =? 0)
    {| err_code := "MISSING_ISBN"; err_message := "ISBN is required for IngramSpark";
       err_severity := critical |}).
  pose proof (length_when (500 * MB <? Buffer_length env m)
    {| err_code := "PDF_TOO_LARGE"; err_message := "PDF exceeds 500 MB limit";
       err_severity := critical |}).
  lia.
Qed.

(** C9, counterexample: the verdict of the Amazon KDP adapter for a request
    with an empty cover holds one critical diagnostic and nothing else, and
    its score is 90 where the formula gives 80. *)
Lemma kdp_verdict_score_is_not_the_formula :
  exists v,
    fst (kdp_validateFiles quietEnv coverlessRequest emptyWorld) = Ok v
    /\ countSeverity critical (errors v) = 1
    /\ countSeverity error (errors v) = 0
    /\ warnings v = []
    /\ quality_score v = 90
    /\ scoreFormula (errors v) (warnings v) = 80.
Proof. eexists. vm_compute. repeat split; reflexivity. Qed.

(** C9, as amended: every verdict of [QualityValidator] ([validateEPUB],
    [validatePDF], [validateCover]) scores 100 minus 20 per critical, 10 per
    error and 5, 3, 1 per high, medium, low impact warning, floored at 0; the
    verdicts of the Amazon KDP and IngramSpark adapters score 100 minus 10 per
    error entry and 5 per warning; every one of these scores lies in
    [0, 100]. *)
Theorem quality_score_by_producer {Ext} (env : Env Ext) :
  (forall epub metadata w v w',
      validateEPUB env epub metadata w = (Ok v, w') ->
      quality_score v = scoreFormula (errors v) (warnings v)
      /\ 0 <= quality_score v <= 100)
  /\ (forall pdf channel (w : World Ext) v w',
        validatePDF pdf channel w = (Ok v, w') ->
        quality_score v = scoreFormula (errors v) (warnings v)
        /\ 0 <= quality_score v <= 100)
  /\ (forall cover channel w v w',
        validateCover env cover channel w = (Ok v, w') ->
        quality_score v = scoreFormula (errors v) (warnings v)
        /\ 0 <= quality_score v <= 100)
  /\ (forall request w v w',
        kdp_validateFiles env request w = (Ok v, w') ->
        quality_score v
          = 100 - 10 * Z.of_nat (length (errors v)) - 5 * Z.of_nat (length (warnings v))
        /\ 0 <= quality_score v <= 100)
  /\ (forall request w v w',
        ingram_validateFiles env request w = (Ok v, w') ->
        quality_score v
          = 100 - 10 * Z.of_nat (length (errors v)) - 5 * Z.of_nat (length (warnings v))
        /\ 0 <= quality_score v <= 100).
Proof.
  split; [|split; [|split; [|split]]].
  - intros epub metadata w v w' H.
    apply validateEPUB_returns in H as (errs & warns & ->). apply verdict_score.
  - intros pdf channel w v w' H.
    apply validatePDF_returns in H as (errs & warns & ->). apply verdict_score.
  - intros cover channel w v w' H.
    apply validateCover_returns in H as (errs & warns & ->). apply verdict_score.
  - intros request w v w' H.
    apply kdp_validateFiles_returns in H as (errs & warns & -> & He & Hw).
    simpl. lia.
  - intros request w v w' H.
    apply ingram_validateFiles_returns in H as (errs & -> & He). simpl. lia.
Qed.

(** C9, a run: the verdict of [validatePDF] for the sample PDF and
    IngramSpark. *)
Lemma quality_score_by_producer_witness :
  validatePDF samplePDF ingram_spark emptyWorld
  = (Ok (pdfVerdict samplePDF ingram_spark),
     snd (validatePDF samplePDF ingram_spark emptyWorld))
  /\ quality_score (pdfVerdict samplePDF ingram_spark)
     = scoreFormula (errors (pdfVerdict samplePDF ingram_spark))
         (warnings (pdfVerdict samplePDF ingram_spark))
  /\ 0 <= quality_score (pdfVerdict samplePDF ingram_spark) <= 100.
Proof.
  split; [reflexivity|].
  exact (proj1 (proj2 (quality_score_by_producer quietEnv))
           samplePDF ingram_spark emptyWorld _ _ eq_refl).
Defined.

(* ===================================================================== *)
(** ** Strings: cancellation *)
(* ===================================================================== *)

Lemma length_append (s t : string) :
  String.length (s +:+ t) = (String.length s + String.length t)%nat.
Proof. induction s as [|a s IH]; simpl; [reflexivity | now rewrite IH]. Qed.

Lemma append_cancel_r (t s1 s2 : string) : s1 +:+ t = s2 +:+ t -> s1 = s2.
Proof.
  revert s2. induction s1 as [|a s1 IH]; intros [|b s2] H; simpl in H.
  - reflexivity.
  - apply (f_equal String.length) in H. rewrite !length_append in H. simpl in H. lia.
  - apply (f_equal String.length) in H. rewrite !length_append in H. simpl in H. lia.
  - injection H as -> H. f_equal. now apply IH.
Qed.

Lemma chapterId_inj (i j : nat) : chapterId i = chapterId j -> i = j.
Proof.
  unfold chapterId. intros H. apply String.app_inj in H.
  apply pretty_Z_inj in H. lia.
Qed.

Lemma chapterHref_inj (i j : nat) : chapterHref i = chapterHref j -> i = j.
Proof. unfold chapterHref. intros H. apply append_cancel_r in H. now apply chapterId_inj. Qed.

Lemma chapterEntry_inj (i j : nat) : chapterEntry i = chapterEntry j -> i = j.
Proof.
  unfold chapterEntry. intros H.
  apply chapterHref_inj. now do 2 apply String.app_inj in H.
Qed.

(* ===================================================================== *)
(** ** The zip object *)
(* ===================================================================== *)

Lemma zip_find_zip_file name name' data opt zip :
  zip_find name' (zip_file name data opt zip)
  = if String.eqb name name'
    then Some (zipObject name data opt)
    else zip_find name' zip.
Proof.
  induction zip as [|f zip IH]; simpl.
  - destruct (String.eqb name name'); reflexivity.
  - destruct (String.eqb (zf_name f) name) eqn:E; simpl.
    + apply String.eqb_eq in E. rewrite E.
      destruct (String.eqb name name'); reflexivity.
    + destruct (String.eqb (zf_name f) name') eqn:E'.
      * apply String.eqb_eq in E'. subst name'.
        rewrite String.eqb_sym, E. reflexivity.
      * exact IH.
Qed.

Lemma zip_file_fresh name data opt zip :
  name ∉ map zf_name zip ->
  zip_file name data opt zip = zip ++ [zipObject name data opt].
Proof.
  induction zip as [|f zip IH]; simpl; intros H; [reflexivity|].
  apply not_elem_of_cons in H as [Hne Hin].
  destruct (String.eqb (zf_name f) name) eqn:E.
  - apply String.eqb_eq in E. congruence.
  - now rewrite IH.
Qed.

(** A directory the zip object has is not added again. *)
Lemma zip_folder_present dir zip :
  dir +:+ "/" ∈ map zf_name zip -> zip_folder dir zip = zip.
Proof.
  intros H. unfold zip_folder.
  assert (existsb (fun f => String.eqb (zf_name f) (dir +:+ "/")) zip = true) as ->;
    [|reflexivity].
  apply list_elem_of_fmap in H as (f & Hname & Hf).
  apply existsb_exists. exists f. split; [apply list_elem_of_In; exact Hf|].
  rewrite <- Hname. apply String.eqb_refl.
Qed.

Lemma chapterObject (name : string) (chapter : Chapter) :
  zipObject name (Text (generateChapterXHTML chapter)) None
  = {| zf_name := name; zf_data := Text (generateChapterXHTML chapter);
       zf_compression := None |}.
Proof. reflexivity. Qed.

Lemma archive_lookup_generateAsync name compression zip :
  archive_lookup name (generateAsync compression zip)
  = option_map zf_data (zip_find name zip).
Proof.
  unfold archive_lookup, zip_find, generateAsync.
  induction zip as [|f zip IH]; simpl; [reflexivity|].
  destruct (String.eqb (zf_name f) name); [reflexivity | exact IH].
Qed.

Lemma addChapters_fresh (i : nat) (chapters : list Chapter) (zip : JSZip) :
  "OEBPS" +:+ "/" ∈ map zf_name zip ->
  (forall j, (i <= j)%nat -> chapterEntry j ∉ map zf_name zip) ->
  addChapters i chapters zip = zip ++ chapterFiles i chapters.
Proof.
  revert i zip. induction chapters as [|chapter rest IH]; intros i zip Hdir Hfresh;
    cbn [addChapters].
  - now rewrite app_nil_r.
  - unfold folder_file. fold (chapterEntry i).
    rewrite (zip_folder_present "OEBPS" zip Hdir).
    rewrite zip_file_fresh by (apply Hfresh; lia).
    rewrite chapterObject.
    rewrite IH.
    + unfold chapterFiles. rewrite imap_cons. rewrite <- app_assoc. simpl.
      rewrite Nat.add_0_r. do 2 f_equal.
      apply imap_ext. intros k x _. simpl. do 2 f_equal. lia.
    + rewrite map_app. apply elem_of_app. left. exact Hdir.
    + intros j Hj. rewrite map_app. simpl.
      rewrite elem_of_app, list_elem_of_singleton.
      intros [Hin | Heq].
      * apply (Hfresh j); [lia | exact Hin].
      * apply chapterEntry_inj in Heq. lia.
Qed.

Lemma chapterEntry_not_front {Ext} (env : Env Ext) chapters cover opf ncx (j : nat) :
  chapterEntry j ∉ map zf_name (frontFiles env chapters cover opf ncx).
Proof.
  unfold frontFiles. rewrite map_app. rewrite elem_of_app.
  intros [H | H].
  - simpl in H. cbv [chapterEntry chapterHref chapterId String.append] in H.
    repeat (apply elem_of_cons in H as [H | H]; [discriminate H|]).
    inversion H.
  - destruct cover; simpl in H;
      cbv [chapterEntry chapterHref chapterId String.append] in H.
    + repeat (apply elem_of_cons in H as [H | H]; [discriminate H|]). inversion H.
    + inversion H.
Qed.

(** The zip object [convertToEPUB] hands to [generateAsync], file by file. *)
Lemma buildZip_files {Ext} (env : Env Ext) chapters cover opf ncx :
  buildZip env chapters cover opf ncx
  = frontFiles env chapters cover opf ncx ++ chapterFiles 0 chapters.
Proof.
  unfold buildZip. cbv zeta.
  match goal with
  | |- addChapters 0 chapters ?front = _ =>
      assert (Hfront : front = frontFiles env chapters cover opf ncx)
        by (destruct cover; reflexivity);
      rewrite Hfront
  end.
  apply addChapters_fresh.
  - unfold frontFiles. rewrite map_app. apply elem_of_app. left.
    cbn [map zf_name directoryFile]. set_solver.
  - intros j _. apply chapterEntry_not_front.
Qed.

Lemma chapterFiles_cons (i : nat) (chapter : Chapter) (rest : list Chapter) :
  chapterFiles i (chapter :: rest)
  = {| zf_name := chapterEntry i; zf_data := Text (generateChapterXHTML chapter);
       zf_compression := None |} :: chapterFiles (S i) rest.
Proof.
  unfold chapterFiles. rewrite imap_cons. simpl. rewrite Nat.add_0_r. f_equal.
  apply imap_ext. intros k x _. simpl. do 2 f_equal. lia.
Qed.

Lemma zip_find_cons name (f : ZipFile) (zip : JSZip) :
  zip_find name (f :: zip)
  = if String.eqb (zf_name f) name then Some f else zip_find name zip.
Proof. reflexivity. Qed.

Lemma zip_find_app name (zip1 zip2 : JSZip) :
  zip_find name (zip1 ++ zip2)
  = match zip_find name zip1 with
    | Some f => Some f
    | None => zip_find name zip2
    end.
Proof.
  unfold zip_find. induction zip1 as [|f zip1 IH]; simpl; [reflexivity|].
  destruct (String.eqb (zf_name f) name); [reflexivity | exact IH].
Qed.

Lemma zip_find_absent name (zip : JSZip) :
  name ∉ map zf_name zip -> zip_find name zip = None.
Proof.
  unfold zip_find. induction zip as [|f zip IH]; simpl; intros H; [reflexivity|].
  apply not_elem_of_cons in H as [Hne Hin].
  destruct (String.eqb (zf_name f) name) eqn:E.
  - apply String.eqb_eq in E. congruence.
  - now apply IH.
Qed.

Lemma zip_find_chapterFiles (i k : nat) (chapters : list Chapter) (chapter : Chapter) :
  chapters !! k = Some chapter ->
  zip_find (chapterEntry (i + k)) (chapterFiles i chapters)
  = Some {| zf_name := chapterEntry (i + k);
            zf_data := Text (generateChapterXHTML chapter);
            zf_compression := None |}.
Proof.
  revert i k. induction chapters as [|c rest IH]; intros i k H; [inversion H|].
  rewrite chapterFiles_cons, zip_find_cons. cbn [zf_name].
  destruct k as [|k]; simpl in H.
  - injection H as ->. rewrite Nat.add_0_r, String.eqb_refl. reflexivity.
  - destruct (String.eqb (chapterEntry i) (chapterEntry (i + S k))) eqn:E.
    + apply String.eqb_eq, chapterEntry_inj in E. lia.
    + replace (i + S k)%nat with (S i + k)%nat by lia. now apply IH.
Qed.

Lemma chapterFiles_names (i : nat) (chapters : list Chapter) (name : string) :
  name ∈ map zf_name (chapterFiles i chapters) -> exists k, name = chapterEntry (i + k).
Proof.
  unfold chapterFiles. intros H.
  apply list_elem_of_fmap in H as (f & -> & Hf).
  apply elem_of_lookup_imap in Hf as (k & c & -> & _). now exists k.
Qed.

Lemma chapterFiles_compression (i : nat) (chapters : list Chapter) :
  Forall (fun f => zf_compression f = None) (chapterFiles i chapters).
Proof.
  apply Forall_forall. intros f Hf.
  apply elem_of_lookup_imap in Hf as (k & c & -> & _). reflexivity.
Qed.

(** The chapter document of the chapter at list position [i]. *)
Lemma archive_lookup_chapter {Ext} (env : Env Ext) chapters metadata cover n i chapter :
  chapters !! i = Some chapter ->
  archive_lookup (chapterEntry i) (epubArchive env chapters metadata cover n)
  = Some (Text (generateChapterXHTML chapter)).
Proof.
  intros H. unfold epubArchive.
  rewrite archive_lookup_generateAsync, buildZip_files, zip_find_app.
  rewrite (zip_find_absent _ (frontFiles _ _ _ _ _)) by apply chapterEntry_not_front.
  change (chapterEntry i) with (chapterEntry (0 + i)).
  now rewrite (zip_find_chapterFiles 0 i chapters chapter H).
Qed.

Lemma archive_lookup_front {Ext} (env : Env Ext) chapters metadata cover n :
  let archive := epubArchive env chapters metadata cover n in
  archive_lookup "OEBPS/content.opf" archive
  = Some (Package (contentOPF env metadata chapters (uuidv4_at env n)))
  /\ archive_lookup "OEBPS/toc.ncx" archive
     = Some (Ncx (tocNCX metadata chapters (uuidv4_at env (S n)))).
Proof.
  simpl. unfold epubArchive.
  rewrite !archive_lookup_generateAsync, buildZip_files, !zip_find_app.
  split; reflexivity.
Qed.

Lemma convertToEPUB_run {Ext} (env : Env Ext) project chapters metadata cover w :
  let archive := epubArchive env chapters metadata cover (w_uuids w) in
  fst (convertToEPUB env project chapters metadata cover w)
  = match fst (fs_writeFile env (epubPath env project) (ZipBuffer archive) (w_ext w)) with
    | Ok _ => Ok (epubOf env archive cover)
    | Throw msg => Throw ("EPUB conversion failed: " +:+ msg)
    end.
Proof.
  simpl. unfold convertToEPUB, generateContentOPF, generateTocNCX, epubPath. run.
  fold (epubArchive env chapters metadata cover (w_uuids w)).
  destruct (fs_writeFile env _ _ (w_ext w)) as [[[]|msg] e]; reflexivity.
Qed.

(** How every call of [convertToEPUB] ends: with the artifact around the
    archive, or, when the write of the output file threw, with that error. *)
Lemma convertToEPUB_cases {Ext} (env : Env Ext) project chapters metadata cover w :
  let archive := epubArchive env chapters metadata cover (w_uuids w) in
  match convertToEPUB env project chapters metadata cover w with
  | (Ok epub, _) => epub = epubOf env archive cover
  | (Throw msg, _) =>
      exists reason,
        fst (fs_writeFile env (epubPath env project) (ZipBuffer archive) (w_ext w))
        = Throw reason
        /\ msg = "EPUB conversion failed: " +:+ reason
  end.
Proof.
  simpl. unfold convertToEPUB, generateContentOPF, generateTocNCX, epubPath. run.
  fold (epubArchive env chapters metadata cover (w_uuids w)).
  destruct (fs_writeFile env _ _ (w_ext w)) as [[[]|msg] e]; simpl; [reflexivity|].
  exists msg. split; reflexivity.
Qed.

(** A property of the archive is a property of the file of every artifact
    [convertToEPUB] returns; and the call returns unless the write of the
    output file threw. *)
Lemma through_convertToEPUB {Ext} (env : Env Ext) project chapters metadata cover w
    (P : list ArchiveEntry -> Prop) :
  P (epubArchive env chapters metadata cover (w_uuids w)) ->
  match convertToEPUB env project chapters metadata cover w with
  | (Ok epub, _) => exists archive, epub_file epub = ZipBuffer archive /\ P archive
  | (Throw msg, _) =>
      exists buffer reason,
        fst (fs_writeFile env (epubPath env project) buffer (w_ext w)) = Throw reason
        /\ msg = "EPUB conversion failed: " +:+ reason
  end.
Proof.
  intros HP.
  pose proof (convertToEPUB_cases env project chapters metadata cover w) as H.
  cbv zeta in H.
  destruct (convertToEPUB env project chapters metadata cover w) as [[epub|msg] w'].
  - subst epub. eexists. split; [reflexivity|exact HP].
  - destruct H as (reason & Hw & ->). eexists _, reason. split; [exact Hw|reflexivity].
Qed.

Lemma generateContentOPF_run {Ext} (env : Env Ext) metadata chapters (w : World Ext) :
  fst (generateContentOPF env metadata chapters w)
  = Ok (contentOPF env metadata chapters (uuidv4_at env (w_uuids w))).
Proof. reflexivity. Qed.

(** The archive, entry by entry. *)
Lemma epubArchive_entries {Ext} (env : Env Ext) chapters metadata cover n :
  epubArchive env chapters metadata cover n
  = generateAsync DEFLATE
      (frontFiles env chapters cover
         (contentOPF env metadata chapters (uuidv4_at env n))
         (tocNCX metadata chapters (uuidv4_at env (S n)))
       ++ chapterFiles 0 chapters).
Proof. unfold epubArchive. now rewrite buildZip_files. Qed.

(* ===================================================================== *)
(** ** The EPUB archive: sentinel entry, manifest, spine, identifiers *)
(* ===================================================================== *)

(** C6, counterexample: the archive of a build with one chapter and no cover
    has ten entries, and three of them are stored without compression: the
    sentinel and the two directories. *)
Lemma epub_archive_stores_directories :
  exists epub archive,
    fst (convertToEPUB quietEnv "proj" [chapterAt 1] sampleMetadata None emptyWorld) = Ok epub
    /\ epub_file epub = ZipBuffer archive
    /\ map (fun e => (arc_name e, arc_method e)) archive
       = [ ("mimetype", STORE); ("META-INF/", STORE);
           ("META-INF/container.xml", DEFLATE); ("OEBPS/", STORE);
           ("OEBPS/content.opf", DEFLATE); ("OEBPS/toc.ncx", DEFLATE);
           ("OEBPS/nav.xhtml", DEFLATE); ("OEBPS/styles.css", DEFLATE);
           ("OEBPS/chapter1.xhtml", DEFLATE) ]
    /\ ~ Forall (fun e => arc_method e = DEFLATE) (tail archive).
Proof.
  eexists _, _. split; [vm_compute; reflexivity|]. split; [reflexivity|].
  split; [vm_compute; reflexivity|].
  intros H. apply Forall_cons in H as [H _]. vm_compute in H. discriminate H.
Qed.

(** C6, as amended: whenever [convertToEPUB] returns, the archive starts
    with the [mimetype] entry, stored without compression.  Of the other
    entries, those that hold data are deflated, and those without data are
    stored: the two directories [META-INF/] and [OEBPS/], which every archive
    has, and the cover image when its buffer is empty.  The call returns
    unless the output file cannot be written. *)
Theorem epub_archive_sentinel_first {Ext} (env : Env Ext) project chapters metadata cover w :
  match convertToEPUB env project chapters metadata cover w with
  | (Ok epub, _) =>
      exists archive,
        epub_file epub = ZipBuffer archive
        /\ exists rest,
             archive = mimetypeEntry :: rest
             /\ length rest = (7 + length (coverEntries cover) + length chapters)%nat
             /\ Forall (fun e => arc_method e
                                 = if contentEmpty (arc_data e) then STORE else DEFLATE) rest
             /\ Forall (fun e => contentEmpty (arc_data e) = true ->
                                 arc_name e = "META-INF/" \/ arc_name e = "OEBPS/"
                                 \/ arc_name e = "OEBPS/cover.jpg") rest
             /\ archive_lookup "META-INF/" rest = Some (Text EmptyString)
             /\ archive_lookup "OEBPS/" rest = Some (Text EmptyString)
  | (Throw msg, _) =>
      exists buffer reason,
        fst (fs_writeFile env (epubPath env project) buffer (w_ext w)) = Throw reason
        /\ msg = "EPUB conversion failed: " +:+ reason
  end.
Proof.
  apply (through_convertToEPUB env project chapters metadata cover w
           (fun archive =>
              exists rest,
                archive = mimetypeEntry :: rest
                /\ length rest = (7 + length (coverEntries cover) + length chapters)%nat
                /\ Forall (fun e => arc_method e
                                    = if contentEmpty (arc_data e) then STORE else DEFLATE)
                     rest
                /\ Forall (fun e => contentEmpty (arc_data e) = true ->
                                    arc_name e = "META-INF/" \/ arc_name e = "OEBPS/"
                                    \/ arc_name e = "OEBPS/cover.jpg") rest
                /\ archive_lookup "META-INF/" rest = Some (Text EmptyString)
                /\ archive_lookup "OEBPS/" rest = Some (Text EmptyString))).
  rewrite epubArchive_entries. unfold frontFiles, generateAsync.
  rewrite <- app_assoc, !map_app. cbn [app map].
  eexists. split; [reflexivity|].
  split; [|split; [|split; [|split; reflexivity]]].
  - cbn [length]. rewrite length_app, !length_map.
    unfold chapterFiles. rewrite length_imap.
    destruct cover; cbn [length coverEntries]; lia.
  - repeat (apply Forall_cons; split; [reflexivity|]).
    apply Forall_app. split.
    + apply Forall_fmap. destruct cover as [c|]; [|apply Forall_nil_2].
      repeat (apply Forall_cons; split); [| reflexivity | apply Forall_nil_2].
      cbn. destruct (Buffer_length env (cd_front_cover c) =? 0); reflexivity.
    + apply Forall_fmap, Forall_forall. intros f Hf.
      apply elem_of_lookup_imap in Hf as (k & c & -> & _). reflexivity.
  - repeat (apply Forall_cons; split;
            [cbn; first [intros _; tauto | intros H; discriminate H]|]).
    apply Forall_app. split.
    + apply Forall_fmap. destruct cover as [c|]; [|apply Forall_nil_2].
      repeat (apply Forall_cons; split); [| | apply Forall_nil_2].
      * cbn. intros _. tauto.
      * cbn. intros H. discriminate H.
    + apply Forall_fmap, Forall_forall. intros f Hf.
      apply elem_of_lookup_imap in Hf as (k & c & -> & _).
      cbn. intros H. discriminate H.
Qed.



Lemma length_manifest {Ext} (env : Env Ext) metadata chapters uuid :
  length (opf_manifest (contentOPF env metadata chapters uuid))
  = (length chapters + 5)%nat.
Proof.
  simpl. unfold chapterManifest. rewrite length_imap. lia.
Qed.

Lemma cover_entry_not_chapter (k : nat) :
  "OEBPS/cover.jpg" <> chapterEntry k /\ "OEBPS/cover.xhtml" <> chapterEntry k.
Proof.
  cbv [chapterEntry chapterHref chapterId String.append]. split; discriminate.
Qed.

Lemma manifest_without_cover {Ext} (env : Env Ext) metadata chapters n :
  let archive := epubArchive env chapters metadata None n in
  exists doc,
    archive_lookup "OEBPS/content.opf" archive = Some (Package doc)
    /\ length (opf_manifest doc) = (length chapters + 5)%nat
    /\ "cover.jpg" ∈ map item_href (opf_manifest doc)
    /\ "cover.xhtml" ∈ map item_href (opf_manifest doc)
    /\ archive_lookup "OEBPS/cover.jpg" archive = None
    /\ archive_lookup "OEBPS/cover.xhtml" archive = None.
Proof.
  simpl. eexists. split; [apply archive_lookup_front|].
  split; [apply length_manifest|].
  split; [simpl; set_solver|]. split; [simpl; set_solver|].
  unfold epubArchive.
  rewrite !archive_lookup_generateAsync, buildZip_files, !zip_find_app.
  split.
  - rewrite (zip_find_absent "OEBPS/cover.jpg" (chapterFiles 0 chapters)); [reflexivity|].
    intros H. apply chapterFiles_names in H as (k & Hk).
    now apply (cover_entry_not_chapter (0 + k)).
  - rewrite (zip_find_absent "OEBPS/cover.xhtml" (chapterFiles 0 chapters)); [reflexivity|].
    intros H. apply chapterFiles_names in H as (k & Hk).
    now apply (cover_entry_not_chapter (0 + k)).
Qed.

(** C3, the defect: the package manifest always has the five fixed items,
    the cover image and the cover page among them, so it has chapter count
    plus five entries whether or not a cover was supplied; for a build without
    a cover the two cover items name files the archive does not contain.
    This holds of the archive as built, and of the file of every artifact
    [convertToEPUB] returns for a call without cover; the call returns unless
    the output file cannot be written. *)
Theorem manifest_lists_cover_without_cover {Ext} (env : Env Ext) metadata chapters n :
  (let archive := epubArchive env chapters metadata None n in
   exists doc,
     archive_lookup "OEBPS/content.opf" archive = Some (Package doc)
     /\ length (opf_manifest doc) = (length chapters + 5)%nat
     /\ "cover.jpg" ∈ map item_href (opf_manifest doc)
     /\ "cover.xhtml" ∈ map item_href (opf_manifest doc)
     /\ archive_lookup "OEBPS/cover.jpg" archive = None
     /\ archive_lookup "OEBPS/cover.xhtml" archive = None)
  /\ forall project w,
       match convertToEPUB env project chapters metadata None w with
       | (Ok epub, _) =>
           exists archive,
             epub_file epub = ZipBuffer archive
             /\ exists doc,
                  archive_lookup "OEBPS/content.opf" archive = Some (Package doc)
                  /\ length (opf_manifest doc) = (length chapters + 5)%nat
                  /\ "cover.jpg" ∈ map item_href (opf_manifest doc)
                  /\ "cover.xhtml" ∈ map item_href (opf_manifest doc)
                  /\ archive_lookup "OEBPS/cover.jpg" archive = None
                  /\ archive_lookup "OEBPS/cover.xhtml" archive = None
       | (Throw msg, _) =>
           exists buffer reason,
             fst (fs_writeFile env (epubPath env project) buffer (w_ext w)) = Throw reason
             /\ msg = "EPUB conversion failed: " +:+ reason
       end.
Proof.
  split; [apply manifest_without_cover|].
  intros project w.
  apply (through_convertToEPUB env project chapters metadata None w
           (fun archive =>
              exists doc,
                archive_lookup "OEBPS/content.opf" archive = Some (Package doc)
                /\ length (opf_manifest doc) = (length chapters + 5)%nat
                /\ "cover.jpg" ∈ map item_href (opf_manifest doc)
                /\ "cover.xhtml" ∈ map item_href (opf_manifest doc)
                /\ archive_lookup "OEBPS/cover.jpg" archive = None
                /\ archive_lookup "OEBPS/cover.xhtml" archive = None)).
  apply manifest_without_cover.
Qed.

(** With a cover supplied every manifest item names a file of the archive. *)
Lemma manifest_resolves_with_cover {Ext} (env : Env Ext) metadata chapters c n :
  let archive := epubArchive env chapters metadata (Some c) n in
  forall href,
    href ∈ map item_href (opf_manifest (contentOPF env metadata chapters (uuidv4_at env n))) ->
    is_Some (archive_lookup ("OEBPS" +:+ "/" +:+ href) archive).
Proof.
  cbv zeta. intros href H. cbn [contentOPF opf_manifest] in H.
  rewrite map_app, elem_of_app in H. destruct H as [H | H].
  - unfold epubArchive.
    rewrite archive_lookup_generateAsync, buildZip_files, zip_find_app.
    simpl in H.
    repeat (apply elem_of_cons in H as [-> | H]; [eexists; reflexivity|]).
    inversion H.
  - apply list_elem_of_fmap in H as (it & -> & Hit).
    unfold chapterManifest in Hit.
    apply elem_of_lookup_imap in Hit as (i & chapter & -> & Hi). simpl.
    fold (chapterEntry i). erewrite archive_lookup_chapter by eassumption.
    now eexists.
Qed.

Lemma contiguous_lookup (chapters : list Chapter) (i : nat) (chapter : Chapter) :
  contiguous chapters = true ->
  chapters !! i = Some chapter ->
  chapter_number chapter = Z.of_nat i + 1.
Proof.
  unfold contiguous. intros H Hi.
  rewrite forallb_forall in H.
  specialize (H (chapter_number chapter =? Z.of_nat i + 1)).
  apply Z.eqb_eq, H, list_elem_of_In.
  apply (elem_of_lookup_imap_2 (fun i c => chapter_number c =? Z.of_nat i + 1) _ _ _ Hi).
Qed.

Lemma chapterSpine_NoDup (chapters : list Chapter) :
  NoDup ("cover" :: chapterSpine chapters).
Proof.
  apply NoDup_cons. split.
  - unfold chapterSpine. intros H.
    apply elem_of_lookup_imap in H as (i & c & Heq & _).
    cbv [chapterId String.append] in Heq. discriminate Heq.
  - unfold chapterSpine. rewrite imap_seq_0.
    apply NoDup_fmap_2; [|apply NoDup_seq].
    intros i j. apply chapterId_inj.
Qed.

(** The spine of the package document in the archive, by list position. *)
Lemma spine_by_position {Ext} (env : Env Ext) metadata chapters cover n :
  let archive := epubArchive env chapters metadata cover n in
  let doc := contentOPF env metadata chapters (uuidv4_at env n) in
  archive_lookup "OEBPS/content.opf" archive = Some (Package doc)
  /\ opf_spine doc = "cover" :: imap (fun i _ => chapterId i) chapters
  /\ NoDup (opf_spine doc)
  /\ forall (i : nat) (c : Chapter),
       chapters !! i = Some c ->
       opf_spine doc !! S i = Some (chapterId i)
       /\ (exists item,
             opf_manifest doc !! (5 + i)%nat = Some item
             /\ item_id item = chapterId i
             /\ item_href item = chapterId i +:+ ".xhtml")
       /\ archive_lookup ("OEBPS" +:+ "/" +:+ chapterId i +:+ ".xhtml") archive
          = Some (Text (generateChapterXHTML c)).
Proof.
  cbv zeta. split; [apply archive_lookup_front|].
  split; [reflexivity|]. split; [apply chapterSpine_NoDup|].
  intros i c Hi. split; [|split].
  - cbn [contentOPF opf_spine]. unfold chapterSpine.
    change (imap (fun i _ => chapterId i) chapters !! i = Some (chapterId i)).
    rewrite list_lookup_imap, Hi. reflexivity.
  - cbn [contentOPF opf_manifest]. unfold chapterManifest.
    eexists. split.
    + change (5 + i)%nat with (length fixedManifest + i)%nat.
      rewrite lookup_app_r by lia.
      replace (length fixedManifest + i - length fixedManifest)%nat with i by lia.
      rewrite list_lookup_imap, Hi. reflexivity.
    + split; reflexivity.
  - apply (archive_lookup_chapter env chapters metadata cover n i c Hi).
Qed.

(** C4: for a chapter list whose ordinal positions are 1, 2, ..., n in list
    order, whenever [convertToEPUB] returns, the package document of the
    archive is the one [generateContentOPF] made, and its spine is the cover
    reference followed by one reference per chapter, in the order of the
    input: the reference at place [i] is [chapter{p}] for the chapter of
    ordinal [p] at place [i] of the input, the manifest gives it the file
    [chapter{p}.xhtml], and that file of the archive is the document
    generated from this chapter.  No reference occurs twice and there are as
    many chapter references as chapters.  The call returns unless the output
    file cannot be written. *)
Theorem spine_follows_chapter_ordinals {Ext} (env : Env Ext) project chapters metadata
    cover w :
  contiguous chapters = true ->
  match convertToEPUB env project chapters metadata cover w with
  | (Ok epub, _) =>
      exists archive,
        epub_file epub = ZipBuffer archive
        /\ exists doc,
             fst (generateContentOPF env metadata chapters w) = Ok doc
             /\ archive_lookup "OEBPS/content.opf" archive = Some (Package doc)
             /\ opf_spine doc
                = "cover" :: map (fun c => "chapter" +:+ pretty (chapter_number c)) chapters
             /\ NoDup (opf_spine doc)
             /\ forall (i : nat) (c : Chapter),
                  chapters !! i = Some c ->
                  opf_spine doc !! S i = Some ("chapter" +:+ pretty (chapter_number c))
                  /\ (exists item,
                        item ∈ opf_manifest doc
                        /\ item_id item = "chapter" +:+ pretty (chapter_number c)
                        /\ item_href item
                           = "chapter" +:+ pretty (chapter_number c) +:+ ".xhtml")
                  /\ archive_lookup
                       ("OEBPS" +:+ "/" +:+ "chapter" +:+ pretty (chapter_number c)
                          +:+ ".xhtml") archive
                     = Some (Text (generateChapterXHTML c))
  | (Throw msg, _) =>
      exists buffer reason,
        fst (fs_writeFile env (epubPath env project) buffer (w_ext w)) = Throw reason
        /\ msg = "EPUB conversion failed: " +:+ reason
  end.
Proof.
  intros Hc.
  apply (through_convertToEPUB env project chapters metadata cover w
           (fun archive =>
              exists doc,
                fst (generateContentOPF env metadata chapters w) = Ok doc
                /\ archive_lookup "OEBPS/content.opf" archive = Some (Package doc)
                /\ opf_spine doc
                   = "cover"
                     :: map (fun c => "chapter" +:+ pretty (chapter_number c)) chapters
                /\ NoDup (opf_spine doc)
                /\ forall (i : nat) (c : Chapter),
                     chapters !! i = Some c ->
                     opf_spine doc !! S i = Some ("chapter" +:+ pretty (chapter_number c))
                     /\ (exists item,
                           item ∈ opf_manifest doc
                           /\ item_id item = "chapter" +:+ pretty (chapter_number c)
                           /\ item_href item
                              = "chapter" +:+ pretty (chapter_number c) +:+ ".xhtml")
                     /\ archive_lookup
                          ("OEBPS" +:+ "/" +:+ "chapter" +:+ pretty (chapter_number c)
                             +:+ ".xhtml") archive
                        = Some (Text (generateChapterXHTML c)))).
  destruct (spine_by_position env metadata chapters cover (w_uuids w))
    as (Hdoc & Hspine & Hnodup & Heach).
  eexists. split; [apply generateContentOPF_run|].
  split; [exact Hdoc|]. split; [|split; [exact Hnodup|]].
  - rewrite Hspine. f_equal.
    rewrite (imap_ext _ (fun _ c => "chapter" +:+ pretty (chapter_number c))).
    + exact (imap_const (fun c => "chapter" +:+ pretty (chapter_number c)) chapters).
    + intros i c Hi. unfold chapterId.
      now rewrite (contiguous_lookup chapters i c Hc Hi).
  - intros i c Hi.
    destruct (Heach i c Hi) as (Hat & (item & Hitem & Hid & Hhref) & Hfile).
    unfold chapterId in Hat, Hid, Hhref, Hfile.
    rewrite <- (contiguous_lookup chapters i c Hc Hi) in Hat, Hid, Hhref, Hfile.
    split; [exact Hat|]. split; [|exact Hfile].
    exists item. split; [|split; assumption].
    apply list_elem_of_lookup. eexists. exact Hitem.
Qed.

(** C4, witness: two chapters at positions 1 and 2. *)
Lemma spine_follows_chapter_ordinals_witness :
  contiguous [chapterAt 1; chapterAt 2] = true
  /\ exists epub archive doc,
       fst (convertToEPUB quietEnv "proj" [chapterAt 1; chapterAt 2] sampleMetadata None
              emptyWorld) = Ok epub
       /\ epub_file epub = ZipBuffer archive
       /\ archive_lookup "OEBPS/content.opf" archive = Some (Package doc)
       /\ opf_spine doc = ["cover"; "chapter1"; "chapter2"].
Proof.
  split; [reflexivity|].
  pose proof (spine_follows_chapter_ordinals quietEnv "proj" [chapterAt 1; chapterAt 2]
                sampleMetadata None emptyWorld eq_refl) as H.
  destruct (convertToEPUB quietEnv "proj" [chapterAt 1; chapterAt 2] sampleMetadata None
              emptyWorld) as [[epub|msg] w'] eqn:Hrun.
  - destruct H as (archive & Hfile & doc & _ & Hdoc & Hspine & _).
    exists epub, archive, doc. split; [reflexivity|]. split; [exact Hfile|].
    split; [exact Hdoc|]. exact Hspine.
  - vm_compute in Hrun. discriminate Hrun.
Defined.

(** The two identifiers of a build are consecutive draws of the generator. *)
Lemma epub_identifiers {Ext} (env : Env Ext) chapters metadata cover n :
  let archive := epubArchive env chapters metadata cover n in
  exists opf ncx,
    archive_lookup "OEBPS/content.opf" archive = Some (Package opf)
    /\ archive_lookup "OEBPS/toc.ncx" archive = Some (Ncx ncx)
    /\ opf_identifier opf = "urn:uuid:" +:+ uuidv4_at env n
    /\ ncx_uid ncx = "urn:uuid:" +:+ uuidv4_at env (S n).
Proof.
  simpl. destruct (archive_lookup_front env chapters metadata cover n) as [Ho Hn].
  eexists _, _. repeat split; eauto.
Qed.

(** C5, the defect: in the artifact of a build the identifier of the package
    document and the [dtb:uid] of the NCX are two different identifiers. *)
Theorem epub_identifiers_disagree :
  exists epub entries opf ncx,
    fst (convertToEPUB quietEnv "proj" [chapterAt 1] sampleMetadata None emptyWorld)
    = Ok epub
    /\ epub_file epub = ZipBuffer entries
    /\ archive_lookup "OEBPS/content.opf" entries = Some (Package opf)
    /\ archive_lookup "OEBPS/toc.ncx" entries = Some (Ncx ncx)
    /\ opf_identifier opf = "urn:uuid:00000000-0000-4000-8000-0"
    /\ ncx_uid ncx = "urn:uuid:00000000-0000-4000-8000-1"
    /\ opf_identifier opf <> ncx_uid ncx.
Proof.
  eexists _, _, _, _. vm_compute. repeat split; try reflexivity. discriminate.
Qed.

(** Whenever the generator does not repeat itself, no build has agreeing
    identifiers. *)
Lemma fresh_uuids_never_agree {Ext} (env : Env Ext) chapters metadata n :
  uuidv4_at env n <> uuidv4_at env (S n) ->
  opf_identifier (contentOPF env metadata chapters (uuidv4_at env n))
  <> ncx_uid (tocNCX metadata chapters (uuidv4_at env (S n))).
Proof. intros H. simpl. intros E. apply String.app_inj in E. auto. Qed.

(* ===================================================================== *)
(** ** The quality-validation phase *)
(* ===================================================================== *)

Lemma validatorCalls_app (l1 l2 : list LogEntry) :
  validatorCalls (l1 ++ l2) = validatorCalls l1 ++ validatorCalls l2.
Proof. unfold validatorCalls. now rewrite map_app, List.filter_app. Qed.

Lemma validateEPUB_run {Ext} (env : Env Ext) epub metadata w :
  exists w',
    validateEPUB env epub metadata w = (Ok (epubVerdict epub metadata), w')
    /\ validatorCalls (w_log w') = validatorCalls (w_log w) ++ ["Validating EPUB file"].
Proof.
  unfold validateEPUB. run.
  destruct (epubcheck env (epub_file epub) (w_ext w)) as [[[]|msg] e]; simpl;
    eexists; (split; [reflexivity|]); simpl;
    rewrite !validatorCalls_app, <- ?app_assoc; reflexivity.
Qed.

Lemma validatePDF_run {Ext} pdf channel (w : World Ext) :
  exists w',
    validatePDF pdf channel w = (Ok (pdfVerdict pdf channel), w')
    /\ validatorCalls (w_log w')
       = validatorCalls (w_log w) ++ ["Validating PDF for " +:+ channel_key channel].
Proof.
  unfold validatePDF. run. eexists. split; [reflexivity|]. simpl.
  rewrite validatorCalls_app. reflexivity.
Qed.

Lemma validateCover_run {Ext} (env : Env Ext) cover channel w :
  exists w',
    validateCover env cover channel w = (coverVerdict env cover channel, w')
    /\ validatorCalls (w_log w')
       = validatorCalls (w_log w) ++ ["Validating cover for " +:+ channel_key channel].
Proof.
  unfold validateCover. run.
  destruct (coverVerdict env cover channel) as [v|msg]; simpl;
    eexists; (split; [reflexivity|]); simpl;
    rewrite validatorCalls_app; reflexivity.
Qed.

(** What [qualityValidationPhase] returns, as a function of its arguments. *)
Lemma qualityValidationPhase_run {Ext} (env : Env Ext) formatOutputs coverDesign
    optimizedMetadata w :
  let validations := expectedValidations env formatOutputs coverDesign optimizedMetadata in
  exists w',
    qualityValidationPhase env formatOutputs coverDesign optimizedMetadata w
    = (match coverDesign with
       | Some cover =>
           match coverVerdict env cover amazon_kdp with
           | Ok _ =>
               if existsb (fun kv => negb (valid (snd kv))) validations
               then Throw "Quality validation failed with critical errors"
               else Ok validations
           | Throw msg => Throw msg
           end
       | None =>
           if existsb (fun kv => negb (valid (snd kv))) validations
           then Throw "Quality validation failed with critical errors"
           else Ok validations
       end, w')
    /\ validatorCalls (w_log w')
       = validatorCalls (w_log w) ++ expectedValidatorCalls formatOutputs coverDesign.
Proof.
  cbv zeta. unfold qualityValidationPhase, expectedValidations, expectedValidatorCalls,
    validateIfPresent.
  unfold bind at 1.
  destruct (fo_epub formatOutputs) as [epub|].
  - destruct (validateEPUB_run env epub optimizedMetadata w) as (w1 & E1 & L1).
    unfold bind at 1. rewrite E1. unfold ret at 1. unfold bind at 1.
    destruct (fo_pdf formatOutputs) as [pdf|].
    + destruct (validatePDF_run pdf ingram_spark w1) as (w2 & E2 & L2).
      unfold bind at 1. rewrite E2. unfold ret at 1. unfold bind at 1.
      destruct coverDesign as [cover|].
      * destruct (validateCover_run env cover amazon_kdp w2) as (w3 & E3 & L3).
        unfold bind at 1. rewrite E3.
        exists w3. rewrite L3, L2, L1, <- !app_assoc. split; [|reflexivity].
        destruct (coverVerdict env cover amazon_kdp) as [v|msg]; [|reflexivity].
        unfold ret at 1. cbv beta iota.
        destruct (existsb _ _); reflexivity.
      * unfold ret at 1. exists w2. rewrite L2, L1, <- !app_assoc.
        split; [|reflexivity]. cbv beta iota. destruct (existsb _ _); reflexivity.
    + unfold ret at 1. unfold bind at 1.
      destruct coverDesign as [cover|].
      * destruct (validateCover_run env cover amazon_kdp w1) as (w3 & E3 & L3).
        unfold bind at 1. rewrite E3.
        exists w3. rewrite L3, L1, <- !app_assoc. split; [|reflexivity].
        destruct (coverVerdict env cover amazon_kdp) as [v|msg]; [|reflexivity].
        unfold ret at 1. cbv beta iota. destruct (existsb _ _); reflexivity.
      * unfold ret at 1. exists w1. rewrite L1. split; [|reflexivity]. cbv beta iota.
        destruct (existsb _ _); reflexivity.
  - unfold ret at 1. unfold bind at 1.
    destruct (fo_pdf formatOutputs) as [pdf|].
    + destruct (validatePDF_run pdf ingram_spark w) as (w2 & E2 & L2).
      unfold bind at 1. rewrite E2. unfold ret at 1. unfold bind at 1.
      destruct coverDesign as [cover|].
      * destruct (validateCover_run env cover amazon_kdp w2) as (w3 & E3 & L3).
        unfold bind at 1. rewrite E3.
        exists w3. rewrite L3, L2, <- !app_assoc. split; [|reflexivity].
        destruct (coverVerdict env cover amazon_kdp) as [v|msg]; [|reflexivity].
        unfold ret at 1. cbv beta iota. destruct (existsb _ _); reflexivity.
      * unfold ret at 1. exists w2. rewrite L2. split; [|reflexivity]. cbv beta iota.
        destruct (existsb _ _); reflexivity.
    + unfold ret at 1. unfold bind at 1.
      destruct coverDesign as [cover|].
      * destruct (validateCover_run env cover amazon_kdp w) as (w3 & E3 & L3).
        unfold bind at 1. rewrite E3.
        exists w3. rewrite L3. split; [|reflexivity].
        destruct (coverVerdict env cover amazon_kdp) as [v|msg]; [|reflexivity].
        unfold ret at 1. cbv beta iota. destruct (existsb _ _); reflexivity.
      * unfold ret at 1. exists w. simpl. rewrite app_nil_r. split; reflexivity.
Qed.

Lemma existsb_invalid (validations : list (string * ValidationResult)) key v :
  (key, v) ∈ validations -> valid v = false ->
  existsb (fun kv => negb (valid (snd kv))) validations = true.
Proof.
  intros Hin Hv. apply existsb_exists. exists (key, v). split.
  - now apply list_elem_of_In.
  - simpl. now rewrite Hv.
Qed.

Lemma existsb_all_valid (validations : list (string * ValidationResult)) :
  existsb (fun kv => negb (valid (snd kv))) validations = false ->
  Forall (fun kv => valid (snd kv) = true) validations.
Proof.
  intros H. apply Forall_forall. intros kv Hin.
  destruct (valid (snd kv)) eqn:E; [reflexivity|].
  rewrite (existsb_invalid validations (fst kv) (snd kv)) in H; [discriminate| |exact E].
  now destruct kv.
Qed.

(** C1, counterexample: a publish call for the print format whose only
    requested channel is Amazon KDP evaluates the PDF against IngramSpark and
    never against Amazon KDP; and the two evaluations of that PDF differ. *)
Lemma validation_ignores_requested_channels :
  validatorCalls
    (w_log (snd (publishBook quietEnv (sampleParams [print] [amazon_kdp]) emptyWorld)))
  = ["Validating PDF for ingram_spark"; "Validating cover for amazon_kdp"]
  /\ pdfVerdict samplePDF ingram_spark <> pdfVerdict samplePDF amazon_kdp.
Proof. split; [vm_compute; reflexivity | vm_compute; discriminate]. Qed.

(** C1, as amended: in the quality-validation phase the EPUB, when one was
    packaged, is evaluated with the optimized metadata, the PDF, when one was
    packaged, against the requirements of IngramSpark, and the cover against
    those of Amazon KDP; these are the only evaluations, the requested
    distribution channels play no part and the MOBI is not evaluated.  If any
    of these evaluations yields a non-passing verdict the phase throws; when
    it returns, every verdict it collected is passing. *)
Theorem quality_validation_fixed_channels {Ext} (env : Env Ext) formatOutputs coverDesign
    optimizedMetadata w :
  let run := qualityValidationPhase env formatOutputs coverDesign optimizedMetadata w in
  validatorCalls (w_log (snd run))
  = validatorCalls (w_log w) ++ expectedValidatorCalls formatOutputs coverDesign
  /\ (forall epub,
        fo_epub formatOutputs = Some epub ->
        valid (epubVerdict epub optimizedMetadata) = false ->
        is_ok (fst run) = false)
  /\ (forall pdf,
        fo_pdf formatOutputs = Some pdf ->
        valid (pdfVerdict pdf ingram_spark) = false ->
        is_ok (fst run) = false)
  /\ (forall cover v,
        coverDesign = Some cover ->
        coverVerdict env cover amazon_kdp = Ok v ->
        valid v = false ->
        is_ok (fst run) = false)
  /\ (forall validations,
        fst run = Ok validations ->
        validations = expectedValidations env formatOutputs coverDesign optimizedMetadata
        /\ Forall (fun kv => valid (snd kv) = true) validations).
Proof.
  cbv zeta.
  destruct (qualityValidationPhase_run env formatOutputs coverDesign optimizedMetadata w)
    as (w' & E & L).
  rewrite E. cbn [fst snd]. split; [exact L|].
  set (validations := expectedValidations env formatOutputs coverDesign optimizedMetadata)
    in *.
  assert (Hany : forall key v,
             (key, v) ∈ validations -> valid v = false ->
             is_ok (match coverDesign with
                    | Some cover =>
                        match coverVerdict env cover amazon_kdp with
                        | Ok _ =>
                            if existsb (fun kv => negb (valid (snd kv))) validations
                            then Throw "Quality validation failed with critical errors"
                            else Ok validations
                        | Throw msg => Throw msg
                        end
                    | None =>
                        if existsb (fun kv => negb (valid (snd kv))) validations
                        then Throw "Quality validation failed with critical errors"
                        else Ok validations
                    end) = false).
  { intros key v Hin Hv. rewrite (existsb_invalid validations key v Hin Hv).
    destruct coverDesign as [cover|]; [|reflexivity].
    destruct (coverVerdict env cover amazon_kdp); reflexivity. }
  split; [|split; [|split]].
  - intros epub He Hv. apply (Hany "epub" (epubVerdict epub optimizedMetadata)); [|exact Hv].
    unfold validations, expectedValidations. rewrite He. set_solver.
  - intros pdf Hp Hv. apply (Hany "pdf" (pdfVerdict pdf ingram_spark)); [|exact Hv].
    unfold validations, expectedValidations. rewrite Hp. set_solver.
  - intros cover v Hc Hcv Hv. apply (Hany "cover" v); [|exact Hv].
    unfold validations, expectedValidations. rewrite Hc, Hcv. set_solver.
  - intros vs Hvs.
    assert (Hok : existsb (fun kv => negb (valid (snd kv))) validations = false
                  /\ vs = validations).
    { destruct coverDesign as [cover|].
      - destruct (coverVerdict env cover amazon_kdp); [|discriminate Hvs].
        destruct (existsb _ validations); [discriminate Hvs|].
        injection Hvs as <-. auto.
      - destruct (existsb _ validations); [discriminate Hvs|].
        injection Hvs as <-. auto. }
    destruct Hok as [Hex ->]. split; [reflexivity|]. now apply existsb_all_valid.
Qed.

(** C1, a run: a PDF of 600 MB makes the phase throw, whatever the
    destination it is meant for. *)
Lemma quality_validation_fixed_channels_witness :
  fo_pdf {| fo_epub := None; fo_mobi := None; fo_pdf := Some oversizedPDF |}
  = Some oversizedPDF
  /\ valid (pdfVerdict oversizedPDF ingram_spark) = false
  /\ is_ok (fst (qualityValidationPhase quietEnv
                   {| fo_epub := None; fo_mobi := None; fo_pdf := Some oversizedPDF |}
                   (Some (DesignedCover sampleCover)) sampleMetadata emptyWorld)) = false.
Proof.
  split; [reflexivity|]. split; [reflexivity|].
  exact (proj1 (proj2 (proj2 (quality_validation_fixed_channels quietEnv
           {| fo_epub := None; fo_mobi := None; fo_pdf := Some oversizedPDF |}
           (Some (DesignedCover sampleCover)) sampleMetadata emptyWorld)))
           oversizedPDF eq_refl eq_refl).
Defined.

(* ===================================================================== *)
(** ** The platform-submission phase *)
(* ===================================================================== *)

Lemma publisher_of (channel : DistributionChannel) :
  publishers !! channel_key channel
  = match channel with
    | amazon_kdp => Some AmazonKDPPublisher
    | ingram_spark => Some IngramSparkPublisher
    | draft2digital => Some Draft2DigitalPublisher
    | findaway_voices => Some FindawayVoicesPublisher
    | _ => None
    end.
Proof. destruct channel; vm_compute; reflexivity. Qed.

Lemma hasPublisher_lookup (channel : DistributionChannel) :
  hasPublisher channel = match publishers !! channel_key channel with
                         | Some _ => true
                         | None => false
                         end.
Proof. rewrite publisher_of. destruct channel; vm_compute; reflexivity. Qed.

Lemma rejectedSubmission_platform channel validation s :
  rejectedSubmission channel validation = Some s -> platform s = channel.
Proof.
  unfold rejectedSubmission. destruct (valid validation); [discriminate|].
  destruct (List.filter _ _); [discriminate|]. intros H. injection H as <-. reflexivity.
Qed.

(** An adapter's result names the channel the adapter is registered for. *)
Lemma submitBook_platform {Ext} (env : Env Ext) channel publisher request w s w' :
  publishers !! channel_key channel = Some publisher ->
  submitBook env publisher request w = (Ok s, w') ->
  platform s = channel.
Proof.
  rewrite publisher_of. intros Hp H.
  destruct channel; inversion Hp; subst publisher; simpl in H.
  - unfold kdp_submitBook, kdp_validateFiles, manuscript_length in H. run_in H.
    destruct (req_manuscript request) as [m|]; simpl in H; [|discriminate H].
    match type of H with
    | context [rejectedSubmission ?c ?v] =>
        destruct (rejectedSubmission c v) as [r|] eqn:Er
    end; simpl in H.
    + injection H as <- _. now apply rejectedSubmission_platform in Er.
    + destruct (kdp_prepareSubmissionPackage env request (w_ext w)) as [[sid|msg] e];
        simpl in H; [|discriminate H].
      destruct (kdp_saveSubmissionRecord env sid request e) as [[[]|msg] e'];
        simpl in H; [|discriminate H].
      injection H as <- _. reflexivity.
  - unfold ingram_submitBook, ingram_validateFiles, manuscript_length in H. run_in H.
    destruct (req_manuscript request) as [m|]; simpl in H; [|discriminate H].
    match type of H with
    | context [rejectedSubmission ?c ?v] =>
        destruct (rejectedSubmission c v) as [r|] eqn:Er
    end; simpl in H.
    + injection H as <- _. now apply rejectedSubmission_platform in Er.
    + destruct (ingram_deliver env request (w_ext w)) as [[[[sid state] ins]|msg] e];
        simpl in H; [|discriminate H].
      injection H as <- _. reflexivity.
  - unfold d2d_submitBook in H. run_in H. injection H as <- _. reflexivity.
  - unfold findaway_submitBook in H. run_in H. injection H as <- _. reflexivity.
Qed.

(** A channel without an adapter is passed over: a warning is logged, no
    [submitBook] runs, nothing is pushed, and the loop goes on. *)
Lemma submitToChannels_skip {Ext} (env : Env Ext) request channel rest submissions w :
  hasPublisher channel = false ->
  submitToChannels env request (channel :: rest) submissions w
  = submitToChannels env request rest submissions
      {| w_pipeline := w_pipeline w; w_events := w_events w;
         w_log := w_log w ++ [{| level := warn;
                                 text := "No publisher available for channel: "
                                           +:+ channel_key channel |}];
         w_uuids := w_uuids w; w_ext := w_ext w |}.
Proof.
  rewrite hasPublisher_lookup. intros H. simpl.
  destruct (publishers !! channel_key channel); [discriminate H|]. reflexivity.
Qed.

Lemma submissionAttempts_app (l1 l2 : list LogEntry) :
  submissionAttempts (l1 ++ l2) = submissionAttempts l1 ++ submissionAttempts l2.
Proof. unfold submissionAttempts. now rewrite map_app, List.filter_app. Qed.

(** When no requested channel has an adapter the loop returns what it was
    given, calls no collaborator and attempts no submission. *)
Lemma submitToChannels_unregistered {Ext} (env : Env Ext) request channels submissions w :
  forallb (fun c => negb (hasPublisher c)) channels = true ->
  exists w',
    submitToChannels env request channels submissions w = (Ok submissions, w')
    /\ w_ext w' = w_ext w
    /\ w_pipeline w' = w_pipeline w
    /\ w_events w' = w_events w
    /\ submissionAttempts (w_log w') = submissionAttempts (w_log w).
Proof.
  revert w. induction channels as [|channel rest IH]; intros w H.
  - exists w. simpl. auto.
  - simpl in H. apply andb_true_iff in H as [Hc Hrest].
    apply negb_true_iff in Hc.
    rewrite (submitToChannels_skip env request channel rest submissions w Hc).
    match goal with
    | |- context [submitToChannels env request rest submissions ?w0] =>
        destruct (IH w0 Hrest) as (w' & E & He & Hp & Hev & Hl)
    end.
    exists w'. split; [exact E|]. simpl in *. repeat split; try assumption.
    rewrite Hl, submissionAttempts_app.
    replace (submissionAttempts [_]) with (@nil string)
      by (destruct channel; reflexivity).
    now rewrite app_nil_r.
Qed.

(** C7, counterexample: with no file produced (audiobook only) the Amazon KDP
    adapter throws.  Requested before Findaway Voices, it ends the phase with
    Findaway Voices never attempted; requested after it, the phase still
    throws and the result Findaway Voices had returned is lost with it. *)
Lemma submission_throw_fails_whole_phase :
  let cover :=
    GeneratedCover {| cg_concept_description := "concept"; cg_ai_prompt := "prompt";
                      cg_front_cover := Blob 1000; cg_full_cover := None;
                      cg_thumbnail := Blob 100; cg_design_notes := "notes" |} in
  let outputs := {| fo_epub := None; fo_mobi := None; fo_pdf := None |} in
  let kdp_first :=
    platformSubmissionPhase quietEnv
      (sampleParams [audiobook] [amazon_kdp; findaway_voices])
      sampleMetadata cover outputs emptyWorld in
  let kdp_last :=
    platformSubmissionPhase quietEnv
      (sampleParams [audiobook] [findaway_voices; amazon_kdp])
      sampleMetadata cover outputs emptyWorld in
  fst kdp_first
  = Throw "KDP submission failed: Cannot read properties of undefined (reading 'length')"
  /\ submissionAttempts (w_log (snd kdp_first))
     = ["Preparing submission to Amazon KDP: Sample Book"]
  /\ fst kdp_last
     = Throw "KDP submission failed: Cannot read properties of undefined (reading 'length')"
  /\ submissionAttempts (w_log (snd kdp_last))
     = ["Preparing Findaway Voices submission: Sample Book";
        "Preparing submission to Amazon KDP: Sample Book"].
Proof. vm_compute. repeat split; reflexivity. Qed.

(** An adapter that rejects the files by its own check returns a result with
    status ['error'] and does not throw: IngramSpark does so for every request
    of the orchestrator that carries a manuscript, since the ISBN it is sent
    is empty. *)
Lemma ingram_rejection_is_a_result {Ext} (env : Env Ext) request manuscript w :
  req_isbn request = EmptyString ->
  req_manuscript request = Some manuscript ->
  exists w',
    ingram_submitBook env request w
    = (Ok {| submission_id := EmptyString; platform := ingram_spark;
             sub_status := submission_error;
             instructions := Some "Validation failed: ISBN is required for IngramSpark" |},
       w').
Proof.
  intros Hisbn Hm. unfold ingram_submitBook, ingram_validateFiles, manuscript_length.
  run. rewrite Hm, Hisbn. simpl. eexists.
  destruct (500 * MB <? Buffer_length env manuscript); reflexivity.
Qed.

Lemma submitToChannels_none {Ext} (env : Env Ext) request channel rest submissions w :
  publishers !! channel_key channel = None ->
  submitToChannels env request (channel :: rest) submissions w
  = submitToChannels env request rest submissions (warned w channel).
Proof. intros H. cbn [submitToChannels]. rewrite H. reflexivity. Qed.

Lemma submitToChannels_some {Ext} (env : Env Ext) request channel rest publisher
    submissions w :
  publishers !! channel_key channel = Some publisher ->
  submitToChannels env request (channel :: rest) submissions w
  = match submitBook env publisher request w with
    | (Ok result, w1) => submitToChannels env request rest (submissions ++ [result]) w1
    | (Throw msg, w1) => (Throw msg, w1)
    end.
Proof. intros H. cbn [submitToChannels]. rewrite H. reflexivity. Qed.

(** What the loop does, read off its result. *)
Lemma submitToChannels_result {Ext} (env : Env Ext) request channels :
  forall submissions w,
    match submitToChannels env request channels submissions w with
    | (Ok results, w') =>
        exists added,
          results = submissions ++ added
          /\ submittedInTurn env request channels w added w'
          /\ map platform added = List.filter hasPublisher channels
    | (Throw msg, w') =>
        exists before channel after publisher added w1,
          channels = before ++ channel :: after
          /\ submittedInTurn env request before w added w1
          /\ publishers !! channel_key channel = Some publisher
          /\ submitBook env publisher request w1 = (Throw msg, w')
    end.
Proof.
  induction channels as [|channel rest IH]; intros submissions w.
  - simpl. unfold ret. exists []. rewrite app_nil_r.
    split; [reflexivity|]. split; [constructor|reflexivity].
  - destruct (publishers !! channel_key channel) as [publisher|] eqn:Hp.
    + assert (Hc : hasPublisher channel = true)
        by (rewrite hasPublisher_lookup, Hp; reflexivity).
      rewrite (submitToChannels_some env request channel rest publisher submissions w Hp).
      destruct (submitBook env publisher request w) as [[s|msg] w1] eqn:Es.
      * specialize (IH (submissions ++ [s]) w1).
        destruct (submitToChannels env request rest (submissions ++ [s]) w1)
          as [[results|msg] w2].
        -- destruct IH as (added & -> & Hsub & Hadded).
           exists (s :: added). rewrite <- app_assoc. split; [reflexivity|].
           split; [exact (inTurn_next env request channel rest publisher w s w1
                            added w2 Hp Es Hsub)|].
           cbn [map List.filter]. rewrite Hc, Hadded.
           now rewrite (submitBook_platform env channel publisher request w s w1 Hp Es).
        -- destruct IH as (before & c & after & p & added & w0 & -> & Hsub & Hcp & Hthrow).
           exists (channel :: before), c, after, p, (s :: added), w0.
           split; [reflexivity|].
           split; [exact (inTurn_next env request channel before publisher w s w1
                            added w0 Hp Es Hsub)|].
           split; assumption.
      * exists [], channel, rest, publisher, [], w.
        split; [reflexivity|]. split; [constructor|]. split; assumption.
    + assert (Hc : hasPublisher channel = false)
        by (rewrite hasPublisher_lookup, Hp; reflexivity).
      rewrite (submitToChannels_none env request channel rest submissions w Hp).
      specialize (IH submissions (warned w channel)).
      destruct (submitToChannels env request rest submissions (warned w channel))
        as [[results|msg] w2].
      * destruct IH as (added & -> & Hsub & Hadded).
        exists added. split; [reflexivity|].
        split; [exact (inTurn_skip env request channel rest w added w2 Hp Hsub)|].
        cbn [List.filter]. rewrite Hc. exact Hadded.
      * destruct IH as (before & c & after & p & added & w0 & -> & Hsub & Hcp & Hthrow).
        exists (channel :: before), c, after, p, added, w0.
        split; [reflexivity|].
        split; [exact (inTurn_skip env request channel before w added w0 Hp Hsub)|].
        split; assumption.
Qed.

(** When every adapter returns, the loop returns what they returned. *)
Lemma submitToChannels_returns {Ext} (env : Env Ext) request channels w added w' :
  submittedInTurn env request channels w added w' ->
  forall submissions,
    submitToChannels env request channels submissions w = (Ok (submissions ++ added), w').
Proof.
  induction 1 as [w|channel rest w results w' Hp _ IH
                  |channel rest publisher w result w1 results w' Hp Es _ IH];
    intros submissions.
  - simpl. unfold ret. now rewrite app_nil_r.
  - rewrite (submitToChannels_none env request channel rest submissions w Hp). apply IH.
  - rewrite (submitToChannels_some env request channel rest publisher submissions w Hp), Es.
    rewrite IH, <- app_assoc. reflexivity.
Qed.

(** When an adapter throws, the loop throws there. *)
Lemma submitToChannels_throws {Ext} (env : Env Ext) request before w added w1 :
  submittedInTurn env request before w added w1 ->
  forall channel after publisher msg w' submissions,
    publishers !! channel_key channel = Some publisher ->
    submitBook env publisher request w1 = (Throw msg, w') ->
    submitToChannels env request (before ++ channel :: after) submissions w
    = (Throw msg, w').
Proof.
  induction 1 as [w|c rest w results w' Hp _ IH
                  |c rest publisher w result w1 results w' Hp Es _ IH];
    intros channel after pub msg w2 submissions Hpub Hthrow.
  - cbn [app]. rewrite (submitToChannels_some env request channel after pub submissions
                          w Hpub), Hthrow. reflexivity.
  - cbn [app]. rewrite (submitToChannels_none env request c _ submissions w Hp).
    exact (IH channel after pub msg w2 submissions Hpub Hthrow).
  - cbn [app].
    rewrite (submitToChannels_some env request c _ publisher submissions w Hp), Es.
    exact (IH channel after pub msg w2 (submissions ++ [result]) Hpub Hthrow).
Qed.

(** C7, as amended: the submissions are made one after the other, each
    adapter starting in the world the one before it left.  When no adapter
    throws, the phase returns the results the adapters returned, one per
    requested channel that has an adapter, in request order and whatever
    their status: a destination whose adapter rejects the files by returning
    status ['error'] is recorded as that destination's result and the later
    destinations are still attempted.  When an adapter throws, the phase
    throws that error at once: the world is the one this adapter left, so no
    later destination is attempted, and no result is returned.  Both hold in
    either direction: the result of the loop tells what the adapters did, and
    what the adapters do decides the result of the loop. *)
Theorem submissions_sequential_and_fail_fast {Ext} (env : Env Ext) request channels
    submissions w :
  match submitToChannels env request channels submissions w with
  | (Ok results, w') =>
      exists added,
        results = submissions ++ added
        /\ submittedInTurn env request channels w added w'
        /\ map platform added = List.filter hasPublisher channels
  | (Throw msg, w') =>
      exists before channel after publisher added w1,
        channels = before ++ channel :: after
        /\ submittedInTurn env request before w added w1
        /\ publishers !! channel_key channel = Some publisher
        /\ submitBook env publisher request w1 = (Throw msg, w')
  end
  /\ (forall added w',
        submittedInTurn env request channels w added w' ->
        submitToChannels env request channels submissions w
        = (Ok (submissions ++ added), w'))
  /\ (forall before channel after publisher added w1 msg w',
        channels = before ++ channel :: after ->
        submittedInTurn env request before w added w1 ->
        publishers !! channel_key channel = Some publisher ->
        submitBook env publisher request w1 = (Throw msg, w') ->
        submitToChannels env request channels submissions w = (Throw msg, w')).
Proof.
  split; [apply submitToChannels_result|]. split.
  - intros added w' H. now apply submitToChannels_returns.
  - intros before channel after publisher added w1 msg w' -> Hsub Hp Hthrow.
    exact (submitToChannels_throws env request before w added w1 Hsub channel after
             publisher msg w' submissions Hp Hthrow).
Qed.

(** C7, a run: Findaway Voices returns its result, then the Amazon KDP
    adapter, given no file, throws, and the phase throws with it. *)
Lemma submissions_sequential_and_fail_fast_witness :
  let request :=
    submissionRequest (sampleParams [audiobook] [findaway_voices; amazon_kdp])
      sampleMetadata (DesignedCover sampleCover)
      {| fo_epub := None; fo_mobi := None; fo_pdf := None |} in
  exists result w1 w',
    submittedInTurn quietEnv request [findaway_voices] emptyWorld [result] w1
    /\ platform result = findaway_voices
    /\ submitBook quietEnv AmazonKDPPublisher request w1
       = (Throw "KDP submission failed: Cannot read properties of undefined (reading 'length')",
          w')
    /\ submitToChannels quietEnv request [findaway_voices; amazon_kdp] [] emptyWorld
       = (Throw "KDP submission failed: Cannot read properties of undefined (reading 'length')",
          w').
Proof.
  cbv zeta.
  set (request := submissionRequest (sampleParams [audiobook] [findaway_voices; amazon_kdp])
                    sampleMetadata (DesignedCover sampleCover)
                    {| fo_epub := None; fo_mobi := None; fo_pdf := None |}).
  destruct (submitBook quietEnv FindawayVoicesPublisher request emptyWorld)
    as [[result|msg] w1] eqn:Efirst; [|vm_compute in Efirst; discriminate Efirst].
  destruct (submitBook quietEnv AmazonKDPPublisher request w1)
    as [[r|msg] w'] eqn:Esecond.
  - vm_compute in Efirst. injection Efirst as <- <-.
    vm_compute in Esecond. discriminate Esecond.
  - assert (Hmsg : msg = "KDP submission failed: Cannot read properties of undefined (reading 'length')").
    { vm_compute in Efirst. injection Efirst as <- <-.
      vm_compute in Esecond. injection Esecond as <- _. reflexivity. }
    subst msg.
    assert (Hsub : submittedInTurn quietEnv request [findaway_voices] emptyWorld [result] w1).
    { eapply inTurn_next; [vm_compute; reflexivity|exact Efirst|constructor]. }
    exists result, w1, w'. split; [exact Hsub|].
    split; [vm_compute in Efirst; injection Efirst as <- _; reflexivity|].
    split; [exact Esecond|].
    exact (proj2 (proj2 (submissions_sequential_and_fail_fast quietEnv request
                           [findaway_voices; amazon_kdp] [] emptyWorld))
             [findaway_voices] amazon_kdp [] AmazonKDPPublisher [result] w1 _ w'
             eq_refl Hsub ltac:(vm_compute; reflexivity) Esecond).
Defined.

(* ===================================================================== *)
(** ** Frame: what the phase bodies leave alone *)
(* ===================================================================== *)

Section Pipeline.

Context {Ext : Type} (env : Env Ext).

Lemma framed_ret {A} (a : A) : framed (@ret Ext A a).
Proof. intros w. split; reflexivity. Qed.

Lemma framed_throw {A} (msg : string) : framed (@throw Ext A msg).
Proof. intros w. split; reflexivity. Qed.

Lemma framed_bind {A B} (c : M Ext A) (k : A -> M Ext B) :
  framed c -> (forall a, framed (k a)) -> framed (bind c k).
Proof.
  intros Hc Hk w. unfold bind. destruct (Hc w) as [Hp He].
  destruct (c w) as [[a|msg] w1]; simpl in *.
  - destruct (Hk a w1) as [Hp' He']. split; congruence.
  - split; assumption.
Qed.

Lemma framed_try_catch {A} (body : M Ext A) (handler : string -> M Ext A) :
  framed body -> (forall msg, framed (handler msg)) -> framed (try_catch body handler).
Proof.
  intros Hb Hh w. unfold try_catch. destruct (Hb w) as [Hp He].
  destruct (body w) as [[a|msg] w1]; simpl in *.
  - split; assumption.
  - destruct (Hh msg w1) as [Hp' He']. split; congruence.
Qed.

Lemma framed_call {A} (f : Ext -> Result A * Ext) : framed (call f).
Proof. intros w. unfold call. destruct (f (w_ext w)). split; reflexivity. Qed.

Lemma framed_logger (lvl : LogLevel) (msg : string) : framed (@logger Ext lvl msg).
Proof. intros w. split; reflexivity. Qed.

Lemma framed_uuidv4 : framed (uuidv4 env).
Proof. intros w. split; reflexivity. Qed.

Lemma framed_get_world : framed (@get_world Ext).
Proof. intros w. split; reflexivity. Qed.

(** Structural proof of [framed] for code built from the combinators. *)
Ltac frame :=
  repeat first
    [ apply framed_ret | apply framed_throw | apply framed_call | apply framed_logger
    | apply framed_uuidv4 | apply framed_get_world
    | apply framed_bind | apply framed_try_catch
    | progress intros
    | match goal with
      | |- framed (match ?x with _ => _ end) => destruct x
      end ].

Lemma framed_convertToEPUB project chapters metadata cover :
  framed (convertToEPUB env project chapters metadata cover).
Proof. unfold convertToEPUB, generateContentOPF, generateTocNCX. frame. Qed.

Lemma framed_convertToMOBI buffer project :
  framed (convertToMOBI env buffer project).
Proof. unfold convertToMOBI. frame. Qed.

Lemma framed_convertToPDF project chapters metadata trim bleed :
  framed (convertToPDF env project chapters metadata trim bleed).
Proof. unfold convertToPDF. frame. Qed.

Lemma framed_isbnAcquisitionPhase project fs :
  framed (isbnAcquisitionPhase env project fs).
Proof. induction fs as [|f fs IH]; simpl; frame. exact IH. Qed.

Lemma framed_formatConversionPhase params :
  framed (formatConversionPhase env params).
Proof.
  unfold formatConversionPhase.
  apply framed_bind.
  - destruct (includes ebook (p_formats params)); [|apply framed_ret].
    apply framed_bind; [apply framed_convertToEPUB|]. intros epub.
    apply framed_bind; [apply framed_convertToMOBI|]. intros mobi. apply framed_ret.
  - intros fo. destruct (includes print (p_formats params)); [|apply framed_ret].
    apply framed_bind; [apply framed_convertToPDF|]. intros pdf. apply framed_ret.
Qed.

Lemma framed_validateIfPresent {A} key (x : option A)
    (validate : A -> M Ext ValidationResult) :
  (forall a, framed (validate a)) -> framed (validateIfPresent key x validate).
Proof. intros H. unfold validateIfPresent. destruct x; frame. apply H. Qed.

Lemma framed_qualityValidationPhase fo cover metadata :
  framed (qualityValidationPhase env fo cover metadata).
Proof.
  unfold qualityValidationPhase.
  apply framed_bind; [apply framed_validateIfPresent; intros; unfold validateEPUB; frame|].
  intros v1.
  apply framed_bind; [apply framed_validateIfPresent; intros; unfold validatePDF; frame|].
  intros v2.
  apply framed_bind; [apply framed_validateIfPresent; intros; unfold validateCover; frame|].
  intros v3. frame.
Qed.

Lemma framed_submitBook publisher request :
  framed (submitBook env publisher request).
Proof.
  destruct publisher; simpl.
  - unfold kdp_submitBook, kdp_validateFiles, manuscript_length. frame.
  - unfold ingram_submitBook, ingram_validateFiles, manuscript_length. frame.
  - unfold d2d_submitBook. frame.
  - unfold findaway_submitBook. frame.
Qed.

Lemma framed_submitToChannels request channels submissions :
  framed (submitToChannels env request channels submissions).
Proof.
  revert submissions. induction channels as [|channel rest IH]; intros submissions; simpl.
  - apply framed_ret.
  - destruct (publishers !! channel_key channel).
    + apply framed_bind; [apply framed_submitBook|]. intros s. apply IH.
    + apply framed_bind; [apply framed_logger|]. intros _. apply IH.
Qed.

(** Each of the eight phase bodies of [publishBook] leaves the pipeline and
    the emitted events alone: only [runPhase] writes them. *)
Lemma framed_phase_bodies params formatOutputs coverDesign optimizedMetadata :
  framed (isbnAcquisitionPhase env (p_project_id params) (p_formats params))
  /\ framed (copyrightRegistrationPhase env params)
  /\ framed (lccnApplicationPhase env params)
  /\ framed (formatConversionPhase env params)
  /\ framed (coverGenerationPhase env params)
  /\ framed (metadataOptimizationPhase env params)
  /\ framed (qualityValidationPhase env formatOutputs (Some coverDesign) optimizedMetadata)
  /\ framed (platformSubmissionPhase env params optimizedMetadata coverDesign
               formatOutputs).
Proof.
  split; [|split; [|split; [|split; [|split; [|split; [|split]]]]]].
  - apply framed_isbnAcquisitionPhase.
  - unfold copyrightRegistrationPhase; frame.
  - unfold lccnApplicationPhase; frame.
  - apply framed_formatConversionPhase.
  - unfold coverGenerationPhase; frame.
  - unfold metadataOptimizationPhase; frame.
  - apply framed_qualityValidationPhase.
  - apply framed_submitToChannels.
Qed.

(* ===================================================================== *)
(** ** runPhase *)
(* ===================================================================== *)

Lemma alter_last {A} (f : A -> A) (l : list A) (x : A) :
  alter f (length l) (l ++ [x]) = l ++ [f x].
Proof.
  replace (length l) with (length l + 0)%nat by lia.
  now rewrite alter_app_r.
Qed.

(** What [runPhase] does around a body that leaves the pipeline and the
    events alone. *)
Lemma runPhase_run {A} (p : PhaseName) (handler : M Ext A) w :
  framed handler ->
  runPhase env p handler w
  = match handler (phaseStarted w p) with
    | (Ok a, w1) => (Ok a, phaseCompleted w w1 p)
    | (Throw msg, w1) =>
        (Throw (raisedBy env (project_id (w_pipeline w)) p msg), phaseFailed w w1 p msg)
    end.
Proof.
  intros Hf. unfold runPhase. run.
  fold (startedRecord p). fold (runningPhase p).
  change {| w_pipeline := _; w_events := _; w_log := w_log w; w_uuids := w_uuids w;
            w_ext := w_ext w |} with (phaseStarted w p).
  destruct (Hf (phaseStarted w p)) as [Hp He].
  destruct (handler (phaseStarted w p)) as [[a|msg] w1]; simpl in Hp, He; simpl.
  - rewrite Hp, He. simpl. unfold phaseCompleted, with_progress_percentage, with_phases.
    cbn [phases project_id current_phase progress_percentage].
    rewrite alter_last, <- app_assoc. reflexivity.
  - rewrite Hp, He. unfold raisedBy, phaseFailed, with_phases.
    destruct (has_error_listener env); run;
      cbn [phases project_id current_phase progress_percentage];
      rewrite alter_last, <- app_assoc; reflexivity.
Qed.

(** A throwing body: the record is marked failed, the error event is
    emitted, the error leaves [runPhase], and whatever follows the phase is
    not run. *)
Lemma runPhase_throw {A B} (p : PhaseName) (handler : M Ext A)
    (rest : A -> M Ext B) w msg w1 :
  framed handler ->
  handler (phaseStarted w p) = (Throw msg, w1) ->
  bind (runPhase env p handler) rest w
  = (Throw (raisedBy env (project_id (w_pipeline w)) p msg), phaseFailed w w1 p msg).
Proof.
  intros Hf H. unfold bind. rewrite (runPhase_run p handler w Hf), H. reflexivity.
Qed.

Lemma completedRecords_S (k : nat) (p : PhaseName) :
  phaseOrder !! k = Some p ->
  completedRecords (S k) = completedRecords k ++ [completedRecord p].
Proof.
  intros H. unfold completedRecords. rewrite (take_S_r _ _ _ H), map_app. reflexivity.
Qed.

(** One phase of the pipeline, among the first seven: it fails, or the rest
    of the pipeline runs with one more completed record. *)
Lemma runPhase_step {A B} (project : string) (k : nat) (p : PhaseName)
    (handler : M Ext A) (rest : A -> M Ext B) w :
  (k <= 6)%nat ->
  phaseOrder !! k = Some p ->
  framed handler ->
  phases (w_pipeline w) = completedRecords k ->
  project_id (w_pipeline w) = project ->
  (forall a w0 w0' w1,
      handler w0 = (Ok a, w0') ->
      phases (w_pipeline w1) = completedRecords (S k) ->
      project_id (w_pipeline w1) = project ->
      endsFailed env project (rest a w1)) ->
  endsFailed env project (bind (runPhase env p handler) rest w).
Proof.
  intros Hk Hp Hf Hphases Hproject Hrest.
  destruct (handler (phaseStarted w p)) as [[a|msg] w1] eqn:E.
  - unfold bind. rewrite (runPhase_run p handler w Hf), E.
    apply (Hrest a _ _ _ E).
    + simpl. rewrite Hphases. symmetry. now apply completedRecords_S.
    + exact Hproject.
  - rewrite (runPhase_throw p handler rest w msg w1 Hf E).
    exists k, p, msg. simpl. rewrite Hphases, Hproject.
    repeat split; try assumption; try reflexivity.
    rewrite last_app. reflexivity.
Qed.

Lemma coverGenerationPhase_returns params w cover w' :
  coverGenerationPhase env params w = (Ok cover, w') ->
  exists r, cover = GeneratedCover r.
Proof.
  unfold coverGenerationPhase. intros H. run_in H.
  destruct (generateCover env _ _ _ (w_ext w)) as [[r|msg] e]; simpl in H;
    inversion H; subst. now exists r.
Qed.

(** The object [generateCover] returns has no [dimensions]: the cover
    evaluation of phase 7 throws, and so does the phase. *)
Lemma qualityValidationPhase_generated_cover formatOutputs r
    optimizedMetadata w :
  fst (qualityValidationPhase env formatOutputs (Some (GeneratedCover r))
         optimizedMetadata w)
  = Throw "Cannot read properties of undefined (reading 'width')".
Proof.
  destruct (qualityValidationPhase_run env formatOutputs (Some (GeneratedCover r))
              optimizedMetadata w) as (w' & E & _).
  rewrite E. reflexivity.
Qed.

(** Every run of the [try] block of [publishBook] ends with one of the first
    seven phases failed. *)
Lemma publishPhases_outcome params w :
  phases (w_pipeline w) = [] ->
  project_id (w_pipeline w) = p_project_id params ->
  endsFailed env (p_project_id params) (publishPhases env params w).
Proof.
  intros Hphases Hproject. unfold publishPhases.
  apply (runPhase_step _ 0 isbn_acquisition); try assumption;
    [lia | reflexivity | apply framed_isbnAcquisitionPhase |].
  intros _ _ _ w1 _ Hphases1 Hproject1.
  apply (runPhase_step _ 1 copyright_registration); try assumption;
    [lia | reflexivity | unfold copyrightRegistrationPhase; frame |].
  intros _ _ _ w2 _ Hphases2 Hproject2.
  apply (runPhase_step _ 2 lccn_application); try assumption;
    [lia | reflexivity | unfold lccnApplicationPhase; frame |].
  intros _ _ _ w3 _ Hphases3 Hproject3.
  apply (runPhase_step _ 3 format_conversion); try assumption;
    [lia | reflexivity | apply framed_formatConversionPhase |].
  intros formatOutputs _ _ w4 _ Hphases4 Hproject4.
  apply (runPhase_step _ 4 cover_generation); try assumption;
    [lia | reflexivity | unfold coverGenerationPhase; frame |].
  intros coverDesign w0 w0' w5 Hcover Hphases5 Hproject5.
  apply coverGenerationPhase_returns in Hcover as [r ->].
  apply (runPhase_step _ 5 metadata_optimization); try assumption;
    [lia | reflexivity | unfold metadataOptimizationPhase; frame |].
  intros optimizedMetadata _ _ w6 _ Hphases6 Hproject6.
  apply (runPhase_step _ 6 quality_validation); try assumption;
    [lia | reflexivity | apply framed_qualityValidationPhase |].
  intros validations w7 w7' w8 Hvalid _ _.
  pose proof (qualityValidationPhase_generated_cover formatOutputs r
                optimizedMetadata w7) as Hthrow.
  rewrite Hvalid in Hthrow. discriminate Hthrow.
Qed.

(* ===================================================================== *)
(** ** publishBook *)
(* ===================================================================== *)

Lemma publishBook_run params w :
  publishBook env params w
  = match publishPhases env params (publishStart params w) with
    | (Ok project, w') => (Ok project, w')
    | (Throw msg, w') =>
        (Throw ("Publishing failed at " +:+ name (current_phase (w_pipeline w')) +:+ ": "
                  +:+ msg),
         {| w_pipeline := w_pipeline w'; w_events := w_events w';
            w_log := w_log w' ++ [{| level := log_error;
                                     text := "Publishing pipeline failed" |}];
            w_uuids := w_uuids w'; w_ext := w_ext w' |})
    end.
Proof. reflexivity. Qed.

(** How every publish call ends. *)
Lemma publishBook_outcome params w :
  let run := publishBook env params w in
  exists (k : nat) (p : PhaseName) (msg : string),
    (k <= 6)%nat
    /\ phaseOrder !! k = Some p
    /\ phases (w_pipeline (snd run)) = completedRecords k ++ [failedRecord p msg]
    /\ last (w_events (snd run)) = Some (ErrorEvent (p_project_id params) p msg)
    /\ fst run = Throw ("Publishing failed at " +:+ phase_key p +:+ ": "
                          +:+ raisedBy env (p_project_id params) p msg).
Proof.
  cbv zeta. rewrite publishBook_run.
  destruct (publishPhases_outcome params (publishStart params w) eq_refl eq_refl)
    as (k & p & msg & Hk & Hp & Hphases & Hname & Hlast & Hres).
  destruct (publishPhases env params (publishStart params w)) as [r w1].
  simpl in *. subst r. simpl. rewrite Hname. exists k, p, msg. auto.
Qed.

(** Whenever the body of a phase throws, the record of that phase is marked
    failed with the message, an error event with the phase and the message is
    emitted, an error leaves [runPhase] and whatever follows the phase is not
    run.  In a publish call a failed record is therefore the last record of
    the pipeline, every record before it is still completed, the error event
    of that phase is the last event emitted, and the call rejects with an
    error naming the phase.  The error that leaves [runPhase] is the one of
    the phase body when somebody listens for ['error'] events. *)
Theorem phase_failure_aborts_pipeline :
  (forall (A B : Type) (p : PhaseName) (handler : M Ext A) (rest : A -> M Ext B)
          (w : World Ext) (msg : string) (w1 : World Ext),
      framed handler ->
      handler (phaseStarted w p) = (Throw msg, w1) ->
      exists w',
        bind (runPhase env p handler) rest w
        = (Throw (raisedBy env (project_id (w_pipeline w)) p msg), w')
        /\ phases (w_pipeline w') = phases (w_pipeline w) ++ [failedRecord p msg]
        /\ last (w_events w') = Some (ErrorEvent (project_id (w_pipeline w)) p msg))
  /\ (forall (params : PublishParams) (w : World Ext) (i : nat)
             (record : PublishingPhaseStatus),
        let run := publishBook env params w in
        phases (w_pipeline (snd run)) !! i = Some record ->
        status record = failed ->
        length (phases (w_pipeline (snd run))) = S i
        /\ (forall j earlier,
              (j < i)%nat ->
              phases (w_pipeline (snd run)) !! j = Some earlier ->
              status earlier = completed)
        /\ exists msg,
             message record = Some msg
             /\ last (w_events (snd run))
                = Some (ErrorEvent (p_project_id params) (phase record) msg)
             /\ fst run
                = Throw ("Publishing failed at " +:+ phase_key (phase record) +:+ ": "
                           +:+ raisedBy env (p_project_id params) (phase record) msg)).
Proof.
  split.
  - intros A B p handler rest w msg w1 Hf H.
    rewrite (runPhase_throw p handler rest w msg w1 Hf H).
    eexists. split; [reflexivity|]. simpl. split; [reflexivity|].
    rewrite last_app. reflexivity.
  - intros params w i record. cbv zeta.
    destruct (publishBook_outcome params w)
      as (k & p & msg & Hk & Hp & Hphases & Hlast & Hres).
    rewrite Hphases, Hlast, Hres. clear Hphases Hlast Hres.
    intros Hi Hfailed.
    assert (Hlen : length (completedRecords k) = k).
    { unfold completedRecords. rewrite length_map, length_take.
      apply lookup_lt_Some in Hp. lia. }
    assert (Hcompleted : forall j r, completedRecords k !! j = Some r -> status r = completed).
    { intros j r Hj. unfold completedRecords in Hj.
      rewrite list_lookup_fmap in Hj.
      destruct (take k phaseOrder !! j) as [q|]; simpl in Hj; [|discriminate Hj].
      injection Hj as <-. reflexivity. }
    destruct (decide (i < k)%nat) as [Hlt|Hge].
    + rewrite lookup_app_l in Hi by lia.
      apply Hcompleted in Hi. congruence.
    + rewrite lookup_app_r in Hi by lia. rewrite Hlen in Hi.
      destruct (i - k)%nat as [|d] eqn:Hd; simpl in Hi; [|discriminate Hi].
      injection Hi as <-. assert (i = k) by lia. subst i.
      split; [rewrite length_app; simpl; lia|].
      split.
      * intros j earlier Hj Hlook. rewrite lookup_app_l in Hlook by lia.
        now apply Hcompleted in Hlook.
      * exists msg. auto.
Qed.

(** C8, the defect: on an orchestrator nobody listens to for ['error']
    events the error of the phase body is not the one re-raised.  The
    [emit('error', ...)] of [runPhase] throws in its place and the [throw
    error] after it is not reached: what leaves [runPhase] is the error about
    the unhandled event, and [publishBook] rejects with it under the name of
    the phase.  The record is marked failed and the event is emitted all the
    same. *)
Theorem unheard_phase_failure_loses_the_error :
  has_error_listener env = false ->
  (forall (A B : Type) (p : PhaseName) (handler : M Ext A) (rest : A -> M Ext B)
          (w : World Ext) (msg : string) (w1 : World Ext),
      framed handler ->
      handler (phaseStarted w p) = (Throw msg, w1) ->
      exists w',
        bind (runPhase env p handler) rest w
        = (Throw ("Unhandled error. ("
                    +:+ inspect env (ErrorEvent (project_id (w_pipeline w)) p msg)
                    +:+ ")"), w')
        /\ phases (w_pipeline w') = phases (w_pipeline w) ++ [failedRecord p msg]
        /\ last (w_events w') = Some (ErrorEvent (project_id (w_pipeline w)) p msg))
  /\ (forall (params : PublishParams) (w : World Ext),
        exists (p : PhaseName) (msg : string),
          last (w_events (snd (publishBook env params w)))
          = Some (ErrorEvent (p_project_id params) p msg)
          /\ last (phases (w_pipeline (snd (publishBook env params w))))
             = Some (failedRecord p msg)
          /\ fst (publishBook env params w)
             = Throw ("Publishing failed at " +:+ phase_key p +:+ ": "
                        +:+ ("Unhandled error. ("
                               +:+ inspect env (ErrorEvent (p_project_id params) p msg)
                               +:+ ")"))).
Proof.
  intros Hdeaf. split.
  - intros A B p handler rest w msg w1 Hf H.
    rewrite (runPhase_throw p handler rest w msg w1 Hf H).
    unfold raisedBy. rewrite Hdeaf.
    eexists. split; [reflexivity|]. simpl. split; [reflexivity|].
    rewrite last_app. reflexivity.
  - intros params w.
    destruct (publishBook_outcome params w)
      as (k & p & msg & Hk & Hp & Hphases & Hlast & Hres).
    cbv zeta in Hphases, Hlast, Hres.
    exists p, msg. split; [exact Hlast|]. split.
    + rewrite Hphases, last_app. reflexivity.
    + rewrite Hres. unfold raisedBy. rewrite Hdeaf. reflexivity.
Qed.

(** A phase 8 whose requested channels all lack an adapter completes with no
    submission: nothing is attempted and no collaborator is called. *)
Lemma platform_submission_skips_unregistered params
    optimizedMetadata coverDesign formatOutputs w :
  forallb (fun c => negb (hasPublisher c)) (p_distribution_channels params) = true ->
  exists w',
    runPhase env platform_submission
      (platformSubmissionPhase env params optimizedMetadata coverDesign formatOutputs) w
    = (Ok [], w')
    /\ w_ext w' = w_ext w
    /\ submissionAttempts (w_log w') = submissionAttempts (w_log w)
    /\ phases (w_pipeline w') = phases (w_pipeline w) ++ [completedRecord platform_submission].
Proof.
  intros H. rewrite runPhase_run by apply framed_submitToChannels.
  unfold platformSubmissionPhase.
  destruct (submitToChannels_unregistered env
              (submissionRequest params optimizedMetadata coverDesign formatOutputs)
              (p_distribution_channels params) [] (phaseStarted w platform_submission) H)
    as (w1 & E & He & _ & _ & Hl).
  rewrite E. eexists. split; [reflexivity|]. simpl. auto.
Qed.

(** No publish call completes: the cover evaluation of phase 7 always throws,
    whatever was requested. *)
Lemma publishBook_never_completes params w :
  is_ok (fst (publishBook env params w)) = false.
Proof.
  destruct (publishBook_outcome params w) as (k & p & msg & _ & _ & _ & _ & H).
  now rewrite H.
Qed.

End Pipeline.

(** A run: with the ISBN inventory exhausted the first phase is the failed
    one, it is the only record, and the call rejects naming it. *)
Lemma phase_failure_aborts_pipeline_witness :
  let run := publishBook exhaustedEnv (sampleParams [print] [amazon_kdp]) emptyWorld in
  phases (w_pipeline (snd run)) !! 0%nat
  = Some (failedRecord isbn_acquisition
            "No available ISBNs. Please purchase more ISBNs before publishing.")
  /\ length (phases (w_pipeline (snd run))) = 1%nat
  /\ exists msg,
       message (failedRecord isbn_acquisition
                  "No available ISBNs. Please purchase more ISBNs before publishing.")
       = Some msg
       /\ last (w_events (snd run)) = Some (ErrorEvent "proj" isbn_acquisition msg)
       /\ fst run
          = Throw ("Publishing failed at " +:+ phase_key isbn_acquisition +:+ ": "
                     +:+ raisedBy exhaustedEnv "proj" isbn_acquisition msg).
Proof.
  cbv zeta.
  assert (H : phases (w_pipeline (snd (publishBook exhaustedEnv
                (sampleParams [print] [amazon_kdp]) emptyWorld))) !! 0%nat
              = Some (failedRecord isbn_acquisition
                  "No available ISBNs. Please purchase more ISBNs before publishing."))
    by (vm_compute; reflexivity).
  split; [exact H|].
  destruct (proj2 (phase_failure_aborts_pipeline exhaustedEnv)
              (sampleParams [print] [amazon_kdp]) emptyWorld 0%nat _ H eq_refl)
    as (Hlen & _ & Hmsg).
  split; [exact Hlen | exact Hmsg].
Defined.

(** C8, the defect at a concrete input: the orchestrator of the routes,
    which has no listener for ['error'] events.  The quality-validation phase
    throws [Cannot read properties of undefined (reading 'width')]; the
    caller is given the error about the unhandled event instead. *)
Lemma unheard_phase_failure_loses_the_error_witness :
  has_error_listener deafEnv = false
  /\ last (w_events (snd (publishBook deafEnv (sampleParams [print] [amazon_kdp])
                            emptyWorld)))
     = Some (ErrorEvent "proj" quality_validation
               "Cannot read properties of undefined (reading 'width')")
  /\ fst (publishBook deafEnv (sampleParams [print] [amazon_kdp]) emptyWorld)
     = Throw "Publishing failed at quality_validation: Unhandled error. ([event])".
Proof.
  split; [reflexivity|].
  destruct (proj2 (unheard_phase_failure_loses_the_error deafEnv eq_refl)
              (sampleParams [print] [amazon_kdp]) emptyWorld)
    as (p & msg & Hlast & _ & Hres).
  assert (Hevent :
    last (w_events (snd (publishBook deafEnv (sampleParams [print] [amazon_kdp])
                           emptyWorld)))
    = Some (ErrorEvent "proj" quality_validation
              "Cannot read properties of undefined (reading 'width')"))
    by (vm_compute; reflexivity).
  split; [exact Hevent|].
  rewrite Hevent in Hlast. injection Hlast as <- <-.
  rewrite Hres. reflexivity.
Defined.

(** C10, the defect at a concrete input: the print format, the one requested
    channel Kobo, every collaborator succeeding.  Phase 8 on its own passes
    Kobo over and returns no submission, as claimed; the publish call never
    reaches it and rejects in phase 7. *)
Theorem publish_with_unregistered_channel_rejects :
  (exists w',
      platformSubmissionPhase quietEnv (sampleParams [print] [kobo]) sampleMetadata
        (DesignedCover sampleCover)
        {| fo_epub := None; fo_mobi := None; fo_pdf := Some samplePDF |} emptyWorld
      = (Ok [], w')
      /\ submissionAttempts (w_log w') = [])
  /\ fst (publishBook quietEnv (sampleParams [print] [kobo]) emptyWorld)
     = Throw "Publishing failed at quality_validation: Cannot read properties of undefined (reading 'width')".
Proof. split; [eexists; vm_compute; split; reflexivity | vm_compute; reflexivity]. Qed.

(* ===================================================================== *)
(** ** QualityValidator: when a verdict is valid *)
(* ===================================================================== *)

Lemma noCritical_app errs1 errs2 :
  noCritical (errs1 ++ errs2) = noCritical errs1 && noCritical errs2.
Proof.
  unfold noCritical, countSeverity. rewrite List.filter_app, length_app.
  destruct (length (List.filter _ errs1)), (length (List.filter _ errs2)); simpl; try reflexivity.
Qed.

Lemma noCritical_when_critical (b : bool) code msg :
  noCritical (when b {| err_code := code; err_message := msg; err_severity := critical |})
  = negb b.
Proof. destruct b; reflexivity. Qed.

Lemma noCritical_when_error (b : bool) code msg :
  noCritical (when b {| err_code := code; err_message := msg; err_severity := error |})
  = true.
Proof. destruct b; reflexivity. Qed.

(** X1: [validateEPUB] always fulfils, with the verdict of its five checks,
    whether or not the epubcheck tool runs; the verdict is valid exactly when
    the file is at most 650 MB, has a cover, and title and author are not
    blank.  Warnings, the description and the keywords never decide it. *)
Theorem validateEPUB_verdict {Ext} (env : Env Ext) epub metadata w :
  fst (validateEPUB env epub metadata w) = Ok (epubVerdict epub metadata)
  /\ (valid (epubVerdict epub metadata) = true
      <-> epub_size epub <= 650 * MB
          /\ epub_has_cover epub = true
          /\ trimsToEmpty (meta_title metadata) = false
          /\ trimsToEmpty (meta_author metadata) = false).
Proof.
  split.
  - destruct (validateEPUB_run env epub metadata w) as (w' & Hrun & _).
    rewrite Hrun. reflexivity.
  - unfold epubVerdict, verdict, validateMetadata; cbn [valid fst snd].
    rewrite !noCritical_app, !noCritical_when_critical.
    rewrite !andb_true_iff, !negb_true_iff, Z.ltb_ge.
    destruct (epub_has_cover epub); simpl; intuition congruence.
Qed.

(** X2: only [ingram_spark] has print requirements of its own; every other
    channel falls back to those of [amazon_kdp].  The verdict of
    [validatePDF] is valid exactly when the file is within the size limit of
    the channel: too few pages is an error that leaves it valid. *)
Theorem validatePDF_validity pdf channel :
  getPDFRequirements channel
  = (if bool_decide (channel = ingram_spark)
     then {| maxFileSize := 500 * MB; minPages := 24; colorProfile := CMYK |}
     else {| maxFileSize := 650 * MB; minPages := 24; colorProfile := RGB |})
  /\ (valid (pdfVerdict pdf channel) = true
      <-> pdf_size pdf <= maxFileSize (getPDFRequirements channel)).
Proof.
  split.
  - destruct channel; reflexivity.
  - unfold pdfVerdict, verdict; cbn [valid].
    rewrite noCritical_app, noCritical_when_critical, noCritical_when_error.
    rewrite andb_true_r, negb_true_iff, Z.ltb_ge. reflexivity.
Qed.

(** X3: [ingram_spark] and [draft2digital] have cover requirements of their
    own; every other channel falls back to those of [amazon_kdp].  For a
    cover that has dimensions the verdict of [validateCover] is valid exactly
    when width and height reach the minimum of the channel and, for
    [ingram_spark], the resolution is at least 300 DPI: a format the channel
    does not accept is an error that leaves it valid. *)
Theorem validateCover_validity {Ext} (env : Env Ext) (d : CoverDesign) channel :
  getCoverRequirements channel
  = match channel with
    | ingram_spark => {| minWidth := 2550; minHeight := 3300;
                         allowedFormats := [jpg; png; tiff] |}
    | draft2digital => {| minWidth := 1600; minHeight := 2400;
                          allowedFormats := [jpg; png] |}
    | _ => {| minWidth := 2560; minHeight := 1600; allowedFormats := [jpg; tiff] |}
    end
  /\ exists v,
       coverVerdict env (DesignedCover d) channel = Ok v
       /\ (valid v = true
           <-> minWidth (getCoverRequirements channel) <= cd_width d
               /\ minHeight (getCoverRequirements channel) <= cd_height d
               /\ (channel = ingram_spark -> 300 <= cd_dpi d)).
Proof.
  split.
  - destruct channel; reflexivity.
  - unfold coverVerdict. cbn [dimensions cover_dpi cover_format cover_color_mode].
    eexists. split; [reflexivity|].
    unfold verdict; cbn [valid].
    rewrite !noCritical_app, !noCritical_when_critical, noCritical_when_error.
    rewrite andb_true_r, !andb_true_iff, !negb_true_iff, orb_false_iff, !Z.ltb_ge.
    rewrite andb_false_iff, bool_decide_eq_false, Z.ltb_ge.
    split.
    + intros [[Hw Hh] Hd]. repeat split; auto. intros ->. destruct Hd; [congruence|lia].
    + intros (Hw & Hh & Hd). repeat split; auto.
      destruct (decide (channel = ingram_spark)); auto.
Qed.

(* ===================================================================== *)
(** ** Converter and validator together *)
(* ===================================================================== *)

Lemma formatConversionPhase_epub {Ext} (env : Env Ext) params w fo w1 :
  includes ebook (p_formats params) = true ->
  formatConversionPhase env params w = (Ok fo, w1) ->
  exists epub, fo_epub fo = Some epub /\ epub_has_cover epub = false.
Proof.
  intros Hebook. unfold formatConversionPhase. rewrite Hebook.
  unfold bind at 1. unfold bind at 1.
  pose proof (convertToEPUB_run env (p_project_id params) (p_chapters params)
                (p_metadata params) None w) as Hrun. cbv zeta in Hrun.
  destruct (convertToEPUB env (p_project_id params) (p_chapters params)
              (p_metadata params) None w) as [[epub|msg] w2]; [|discriminate].
  simpl in Hrun.
  destruct (fst (fs_writeFile env _ _ (w_ext w))); [|discriminate].
  injection Hrun as ->.
  unfold bind at 1.
  destruct (convertToMOBI env _ _ w2) as [[mobi|msg] w3]; [|discriminate].
  unfold ret at 1.
  destruct (includes print (p_formats params)).
  - unfold bind. destruct (convertToPDF _ _ _ _ _ _ w3) as [[pdf|msg] w4]; [|discriminate].
    unfold ret. intros [= <- <-]. eexists. split; reflexivity.
  - unfold ret. intros [= <- <-]. eexists. split; reflexivity.
Qed.

(** X4: the format-conversion phase builds its EPUB without a cover, so
    whenever the phase returns for a request that includes [ebook], the EPUB
    it stored has [has_cover = false], [validateEPUB] finds the critical
    [MISSING_COVER] in it whatever the metadata, and the quality-validation
    phase run on these outputs never returns, whatever the cover object. *)
Theorem ebook_outputs_never_pass_validation {Ext} (env : Env Ext) params w fo w1 :
  includes ebook (p_formats params) = true ->
  formatConversionPhase env params w = (Ok fo, w1) ->
  (exists epub,
      fo_epub fo = Some epub
      /\ epub_has_cover epub = false
      /\ forall metadata,
           valid (epubVerdict epub metadata) = false
           /\ {| err_code := "MISSING_COVER";
                 err_message := "EPUB does not contain a cover image";
                 err_severity := critical |} ∈ errors (epubVerdict epub metadata))
  /\ forall coverDesign optimizedMetadata w2,
       is_ok (fst (qualityValidationPhase env fo coverDesign optimizedMetadata w2)) = false.
Proof.
  intros Hebook Hrun.
  destruct (formatConversionPhase_epub env params w fo w1 Hebook Hrun) as (epub & Hfo & Hcover).
  assert (Hinvalid : forall metadata, valid (epubVerdict epub metadata) = false
            /\ {| err_code := "MISSING_COVER";
                  err_message := "EPUB does not contain a cover image";
                  err_severity := critical |} ∈ errors (epubVerdict epub metadata)).
  { intros metadata. unfold epubVerdict, verdict; cbn [valid errors]. rewrite Hcover.
    split.
    - unfold noCritical, countSeverity. rewrite !List.filter_app, !length_app. simpl.
      apply Z.eqb_neq. lia.
    - simpl. set_solver. }
  split; [exists epub; split; [exact Hfo | split; [exact Hcover | exact Hinvalid]]|].
  intros coverDesign optimizedMetadata w2.
  destruct (qualityValidationPhase_run env fo coverDesign optimizedMetadata w2)
    as (w' & Hq & _).
  rewrite Hq. cbn [fst].
  assert (Hex : existsb (fun kv => negb (valid (snd kv)))
                  (expectedValidations env fo coverDesign optimizedMetadata) = true).
  { apply existsb_invalid with (key := "epub") (v := epubVerdict epub optimizedMetadata).
    - unfold expectedValidations. rewrite Hfo. apply elem_of_app. left.
      apply list_elem_of_singleton. reflexivity.
    - apply Hinvalid. }
  destruct coverDesign as [cover|].
  - destruct (coverVerdict env cover amazon_kdp); [rewrite Hex|]; reflexivity.
  - rewrite Hex. reflexivity.
Qed.

Lemma ebook_outputs_never_pass_validation_witness :
  exists fo w1,
    formatConversionPhase quietEnv (sampleParams [ebook] [amazon_kdp]) emptyWorld = (Ok fo, w1)
    /\ is_ok (fst (qualityValidationPhase quietEnv fo (Some (DesignedCover sampleCover))
                     sampleMetadata emptyWorld)) = false.
Proof.
  destruct (formatConversionPhase quietEnv (sampleParams [ebook] [amazon_kdp]) emptyWorld)
    as [[fo|msg] w1] eqn:Hrun.
  - exists fo, w1. split; [reflexivity|].
    apply (ebook_outputs_never_pass_validation quietEnv
             (sampleParams [ebook] [amazon_kdp]) emptyWorld fo w1); [reflexivity | exact Hrun].
  - vm_compute in Hrun. discriminate.
Defined.

Lemma convertToPDF_returns {Ext} (env : Env Ext) project chapters metadata trim_size bleed
    w pdf w' :
  convertToPDF env project chapters metadata trim_size bleed w = (Ok pdf, w') ->
  pdf_color_profile pdf = RGB
  /\ pdf_trim_size pdf = default trim_6x9 trim_size
  /\ pdf_bleed pdf = default false bleed
  /\ pdf_size pdf = Buffer_length env (pdf_file pdf).
Proof.
  unfold convertToPDF. intros H. run_in H.
  destruct (pdfkit_render env chapters metadata (default trim_6x9 trim_size) (w_ext w))
    as [[[buffer pages]|msg] e]; simpl in H; [|discriminate].
  destruct (fs_writeFile env _ buffer e) as [[[]|msg] e']; simpl in H; [|discriminate].
  injection H as <- _. repeat split.
Qed.

(** X5: a PDF [convertToPDF] returns is always RGB, has the requested trim
    size (6x9 when none is given) and bleed flag (false when none is given);
    so [validatePDF] for [ingram_spark] always warns about the colour
    profile, scoring at most 97, and for [amazon_kdp] never warns. *)
Theorem converted_pdf_is_rgb {Ext} (env : Env Ext) project chapters metadata trim_size bleed
    w pdf w' :
  convertToPDF env project chapters metadata trim_size bleed w = (Ok pdf, w') ->
  pdf_color_profile pdf = RGB
  /\ pdf_trim_size pdf = default trim_6x9 trim_size
  /\ pdf_bleed pdf = default false bleed
  /\ wrongColorProfile ∈ warnings (pdfVerdict pdf ingram_spark)
  /\ quality_score (pdfVerdict pdf ingram_spark) <= 97
  /\ warnings (pdfVerdict pdf amazon_kdp) = [].
Proof.
  intros H. destruct (convertToPDF_returns env _ _ _ _ _ _ _ _ H) as (Hrgb & Htrim & Hbleed & _).
  repeat split; auto.
  - unfold pdfVerdict, verdict; cbn [warnings]. rewrite Hrgb. simpl. set_solver.
  - unfold pdfVerdict, verdict; cbn [quality_score]. rewrite Hrgb.
    rewrite calculateQualityScore_formula. unfold scoreFormula.
    pose proof (countSeverity_nonneg critical) as Hc.
    pose proof (countSeverity_nonneg error) as He.
    pose proof (countImpact_nonneg high) as Hh.
    pose proof (countImpact_nonneg low) as Hl.
    match goal with
    | |- context [countImpact medium ?ws] =>
        assert (1 <= countImpact medium ws) as Hm
    end.
    { unfold countImpact. rewrite List.filter_app, length_app. simpl. lia. }
    match goal with
    | |- context [countSeverity critical ?es] => specialize (Hc es); specialize (He es)
    end.
    match goal with
    | |- context [countImpact high ?ws] => specialize (Hh ws); specialize (Hl ws)
    end.
    lia.
Qed.

Lemma converted_pdf_is_rgb_witness :
  exists pdf w',
    convertToPDF quietEnv "proj" [chapterAt 1] sampleMetadata None None emptyWorld
    = (Ok pdf, w')
    /\ pdf_trim_size pdf = trim_6x9
    /\ pdf_bleed pdf = false
    /\ wrongColorProfile ∈ warnings (pdfVerdict pdf ingram_spark).
Proof.
  eexists _, _. split; [vm_compute; reflexivity|].
  split; [reflexivity|]. split; [reflexivity|].
  eapply (converted_pdf_is_rgb quietEnv "proj" [chapterAt 1] sampleMetadata None None
            emptyWorld).
  vm_compute. reflexivity.
Defined.

(* ===================================================================== *)
(** ** Adapters and the publishing route *)
(* ===================================================================== *)

(** X6: for a request that carries a manuscript, [AmazonKDPPublisher.submitBook]
    returns a result of status ['error'], naming the first critical finding in
    the order manuscript size, cover, title, author, and writes nothing,
    exactly when the manuscript exceeds 650 MB, the cover is empty, or title
    or author is empty.  Otherwise it prepares the package and saves the
    record, whatever the number of categories and keywords, and a failure of
    either step is thrown as [KDP submission failed: ...]. *)
Theorem kdp_submitBook_outcome {Ext} (env : Env Ext) request manuscript w :
  req_manuscript request = Some manuscript ->
  let len := Buffer_length env manuscript in
  let run := kdp_submitBook env request w in
  if (650 * MB <? len) || (Buffer_length env (req_cover request) =? 0)
     || (strlen (req_title request) =? 0) || (strlen (req_author request) =? 0)
  then
    fst run
    = Ok {| submission_id := EmptyString; platform := amazon_kdp;
            sub_status := submission_error;
            instructions :=
              Some ("Validation failed: "
                    +:+ (if 650 * MB <? len then "Manuscript exceeds 650 MB limit"
                         else if Buffer_length env (req_cover request) =? 0
                              then "Cover image is required"
                         else if strlen (req_title request) =? 0 then "Title is required"
                         else "Author is required")) |}
    /\ w_ext (snd run) = w_ext w
  else
    fst run
    = match kdp_prepareSubmissionPackage env request (w_ext w) with
      | (Throw msg, _) => Throw ("KDP submission failed: " +:+ msg)
      | (Ok submissionId, e) =>
          match kdp_saveSubmissionRecord env submissionId request e with
          | (Throw msg, _) => Throw ("KDP submission failed: " +:+ msg)
          | (Ok _, _) =>
              Ok {| submission_id := submissionId; platform := amazon_kdp;
                    sub_status := ready_for_upload;
                    instructions := Some (uploadInstructions env amazon_kdp request) |}
          end
      end.
Proof.
  intros Hm. cbv zeta.
  unfold kdp_submitBook, kdp_validateFiles, manuscript_length. run. rewrite Hm. simpl.
  destruct (650 * MB <? Buffer_length env manuscript);
    destruct (Buffer_length env (req_cover request) =? 0);
    destruct (strlen (req_title request) =? 0);
    destruct (strlen (req_author request) =? 0); simpl;
    try (split; reflexivity).
  destruct (kdp_prepareSubmissionPackage env request (w_ext w)) as [[submissionId|msg] e];
    simpl; [|reflexivity].
  destruct (kdp_saveSubmissionRecord env submissionId request e) as [[[]|msg] e'];
    reflexivity.
Qed.

Lemma kdp_submitBook_outcome_witness :
  fst (kdp_submitBook quietEnv coverlessRequest emptyWorld)
  = Ok {| submission_id := EmptyString; platform := amazon_kdp;
          sub_status := submission_error;
          instructions := Some "Validation failed: Cover image is required" |}
  /\ w_ext (snd (kdp_submitBook quietEnv coverlessRequest emptyWorld)) = tt.
Proof.
  exact (kdp_submitBook_outcome quietEnv coverlessRequest (Blob 4096) emptyWorld eq_refl).
Defined.

(** X7: the request the orchestrator builds carries an empty ISBN, so
    IngramSpark's adapter never delivers it: with a manuscript it returns the
    ['error'] result [ISBN is required for IngramSpark], without one it
    throws, and in both cases nothing outside the process changes. *)
Theorem pipeline_never_delivers_to_ingram {Ext} (env : Env Ext) params optimizedMetadata
    coverDesign formatOutputs w :
  let request := submissionRequest params optimizedMetadata coverDesign formatOutputs in
  let run := submitBook env IngramSparkPublisher request w in
  w_ext (snd run) = w_ext w
  /\ fst run
     = match manuscriptOf formatOutputs with
       | Some _ =>
           Ok {| submission_id := EmptyString; platform := ingram_spark;
                 sub_status := submission_error;
                 instructions :=
                   Some "Validation failed: ISBN is required for IngramSpark" |}
       | None =>
           Throw "IngramSpark submission failed: Cannot read properties of undefined (reading 'length')"
       end.
Proof.
  cbv zeta. unfold submitBook, ingram_submitBook, ingram_validateFiles, manuscript_length.
  run. destruct (manuscriptOf formatOutputs) as [m|]; simpl.
  - destruct (500 * MB <? Buffer_length env m); split; reflexivity.
  - split; reflexivity.
Qed.

(** X8: [POST /projects] answers 500 to every body of well-typed formats
    and channels: its [publishBook] call rejects during one of the first
    seven phases, and the handler turns the message into the body. *)
Theorem post_projects_always_500 {Ext} (env : Env Ext) prose_project_id fs channels w :
  exists (p : PhaseName) (msg : string),
    p <> platform_submission
    /\ fst (postProjects env prose_project_id fs channels w)
       = Ok {| http_status := 500;
               http_body :=
                 JsonError ("Publishing failed at " +:+ phase_key p +:+ ": "
                              +:+ raisedBy env prose_project_id p msg) |}.
Proof.
  unfold postProjects, try_catch. unfold bind at 1. unfold logger at 1, modify_world.
  cbv beta iota. unfold bind at 1.
  match goal with
  | |- context [publishBook env ?params ?w0] =>
      destruct (publishBook_outcome env params w0) as (k & p & msg & Hk & Hp & _ & _ & Hres);
      cbv zeta in Hres;
      destruct (publishBook env params w0) as [r w1]
  end.
  simpl in Hres. subst r. exists p, msg. split.
  - intros ->. 
    assert (k = 7%nat) as ->.
    { destruct k as [|[|[|[|[|[|[|[|k]]]]]]]]; simpl in Hp; try discriminate; reflexivity. }
    lia.
  - reflexivity.
Qed.

(* ===================================================================== *)
(** ** escapeXML *)
(* ===================================================================== *)

Lemma append_assoc (s t u : string) : (s +:+ t) +:+ u = s +:+ (t +:+ u).
Proof.
  induction s as [|a s IH]; [reflexivity|].
  change (String a ((s +:+ t) +:+ u) = String a (s +:+ (t +:+ u))). f_equal. exact IH.
Qed.

Lemma replaceAll_app c by_ s t :
  replaceAll c by_ (s +:+ t) = replaceAll c by_ s +:+ replaceAll c by_ t.
Proof.
  induction s as [|a s IH]; simpl; [reflexivity|].
  destruct (Ascii.eqb a c); rewrite IH.
  - symmetry. apply append_assoc.
  - reflexivity.
Qed.

Lemma escapeXML_app s t : escapeXML (s +:+ t) = escapeXML s +:+ escapeXML t.
Proof. unfold escapeXML. rewrite !replaceAll_app. reflexivity. Qed.

Lemma escapeXML_char a : escapeXML (String a EmptyString) = escapeChar a.
Proof.
  unfold escapeXML, escapeChar.
  destruct (Ascii.eqb a "&") eqn:E1; [apply Ascii.eqb_eq in E1; subst; reflexivity|].
  destruct (Ascii.eqb a "<") eqn:E2; [apply Ascii.eqb_eq in E2; subst; reflexivity|].
  destruct (Ascii.eqb a ">") eqn:E3; [apply Ascii.eqb_eq in E3; subst; reflexivity|].
  destruct (Ascii.eqb a (ascii_of_nat 34)) eqn:E4;
    [apply Ascii.eqb_eq in E4; subst; reflexivity|].
  destruct (Ascii.eqb a "'") eqn:E5; [apply Ascii.eqb_eq in E5; subst; reflexivity|].
  simpl. rewrite E1. simpl. rewrite E2. simpl. rewrite E3. simpl. rewrite E4. simpl.
  rewrite E5. reflexivity.
Qed.

Lemma escapeXML_escapeEach text : escapeXML text = escapeEach text.
Proof.
  induction text as [|a text IH]; [reflexivity|].
  change (String a text) with (String a EmptyString +:+ text).
  rewrite escapeXML_app, escapeXML_char, IH. reflexivity.
Qed.

Lemma occurs_app c s t : occurs c (s +:+ t) = occurs c s || occurs c t.
Proof. induction s as [|a s IH]; simpl; [reflexivity|]. rewrite IH, orb_assoc. reflexivity. Qed.

Lemma occurs_escapeChar a c :
  c = "<"%char \/ c = ">"%char \/ c = ascii_of_nat 34 \/ c = "'"%char ->
  occurs c (escapeChar a) = false.
Proof.
  intros Hc. unfold escapeChar.
  assert (Hlit : forall s, s = "&amp;" \/ s = "&lt;" \/ s = "&gt;" \/ s = "&quot;"
                           \/ s = "&apos;" -> occurs c s = false).
  { intros s Hs.
    destruct Hc as [Hc|[Hc|[Hc|Hc]]]; subst c;
      destruct Hs as [Hs|[Hs|[Hs|[Hs|Hs]]]]; subst s; reflexivity. }
  destruct (Ascii.eqb a "&") eqn:E1; [apply Hlit; auto|].
  destruct (Ascii.eqb a "<") eqn:E2; [apply Hlit; auto|].
  destruct (Ascii.eqb a ">") eqn:E3; [apply Hlit; auto|].
  destruct (Ascii.eqb a (ascii_of_nat 34)) eqn:E4; [apply Hlit; auto|].
  destruct (Ascii.eqb a "'") eqn:E5; [apply Hlit; auto 6|].
  simpl. rewrite orb_false_r.
  destruct Hc as [Hc|[Hc|[Hc|Hc]]]; subst c; assumption.
Qed.

(** X9: the five replacements of [escapeXML], made one after the other,
    amount to replacing each character on its own (no entity written by an
    earlier pass is touched by a later one), and the result holds no [<],
    [>], double quote or apostrophe. *)
Theorem escapeXML_leaves_no_markup (text : string) :
  escapeXML text = escapeEach text
  /\ occurs "<" (escapeXML text) = false
  /\ occurs ">" (escapeXML text) = false
  /\ occurs (ascii_of_nat 34) (escapeXML text) = false
  /\ occurs "'" (escapeXML text) = false.
Proof.
  split; [apply escapeXML_escapeEach|].
  rewrite escapeXML_escapeEach.
  induction text as [|a text (IH1 & IH2 & IH3 & IH4)]; [repeat split|].
  simpl. rewrite !occurs_app, IH1, IH2, IH3, IH4, !orb_false_r.
  repeat split; apply occurs_escapeChar; auto.
Qed.

Lemma escapeChar_cases a :
  (a = "&"%char /\ escapeChar a = "&amp;")
  \/ (a = "<"%char /\ escapeChar a = "&lt;")
  \/ (a = ">"%char /\ escapeChar a = "&gt;")
  \/ (a = ascii_of_nat 34 /\ escapeChar a = "&quot;")
  \/ (a = "'"%char /\ escapeChar a = "&apos;")
  \/ (a <> "&"%char /\ escapeChar a = String a EmptyString).
Proof.
  unfold escapeChar.
  destruct (Ascii.eqb a "&") eqn:E1; [apply Ascii.eqb_eq in E1; auto|].
  destruct (Ascii.eqb a "<") eqn:E2; [apply Ascii.eqb_eq in E2; auto|].
  destruct (Ascii.eqb a ">") eqn:E3; [apply Ascii.eqb_eq in E3; auto 6|].
  destruct (Ascii.eqb a (ascii_of_nat 34)) eqn:E4; [apply Ascii.eqb_eq in E4; auto 8|].
  destruct (Ascii.eqb a "'") eqn:E5; [apply Ascii.eqb_eq in E5; auto 10|].
  apply Ascii.eqb_neq in E1. auto 12.
Qed.

Lemma escapeEach_inj s : forall t, escapeEach s = escapeEach t -> s = t.
Proof.
  induction s as [|a s IH]; intros [|b t] H.
  - reflexivity.
  - simpl in H. destruct (escapeChar_cases b) as [[_ E]|[[_ E]|[[_ E]|[[_ E]|[[_ E]|[_ E]]]]]];
      rewrite E in H; discriminate.
  - simpl in H. destruct (escapeChar_cases a) as [[_ E]|[[_ E]|[[_ E]|[[_ E]|[[_ E]|[_ E]]]]]];
      rewrite E in H; discriminate.
  - simpl in H.
    destruct (escapeChar_cases a) as [[Ha E]|[[Ha E]|[[Ha E]|[[Ha E]|[[Ha E]|[Ha E]]]]]];
      destruct (escapeChar_cases b) as [[Hb F]|[[Hb F]|[[Hb F]|[[Hb F]|[[Hb F]|[Hb F]]]]]];
      rewrite E, F in H; simpl in H;
      try discriminate;
      try (injection H as H; subst; f_equal; apply IH; assumption);
      try (injection H as H1 H; congruence).
Qed.

(** X10: [escapeXML] loses nothing: two texts have the same escaped form
    only when they are the same text. *)
Theorem escapeXML_loses_nothing (s t : string) :
  escapeXML s = escapeXML t <-> s = t.
Proof.
  split; [|intros ->; reflexivity].
  rewrite !escapeXML_escapeEach. apply escapeEach_inj.
Qed.

(* ===================================================================== *)
(** ** The EPUB archive as a whole *)
(* ===================================================================== *)








(* ===================================================================== *)
(** ** Decimal text *)
(* ===================================================================== *)

Lemma repeatChar_snoc (n : nat) (c : ascii) (s : string) :
  repeatChar n c +:+ String c s = repeatChar (S n) c +:+ s.
Proof.
  induction n as [|n IH]; [reflexivity|].
  change (String c (repeatChar n c +:+ String c s) = String c (repeatChar (S n) c +:+ s)).
  f_equal. exact IH.
Qed.

Lemma length_repeatChar (n : nat) (c : ascii) : String.length (repeatChar n c) = n.
Proof. induction n as [|n IH]; simpl; [reflexivity | now rewrite IH]. Qed.

Lemma lowDigits_pretty_N_go (k : nat) :
  forall (x : N) (s : string),
    (x < 10 ^ N.of_nat k)%N ->
    (String.length s <= String.length (pretty_N_go x s) <= k + String.length s)%nat
    /\ lowDigits k x s
       = repeatChar (k + String.length s - String.length (pretty_N_go x s)) "0"
         +:+ pretty_N_go x s.
Proof.
  induction k as [|k IH]; intros x s Hx.
  - assert (x = 0%N) as -> by (simpl in Hx; lia).
    rewrite pretty_N_go_0. simpl. split; [lia|]. now rewrite Nat.sub_diag.
  - assert (Hdiv : (x `div` 10 < 10 ^ N.of_nat k)%N).
    { apply N.Div0.div_lt_upper_bound.
      rewrite Nat2N.inj_succ, N.pow_succ_r' in Hx. lia. }
    destruct (IH (x `div` 10)%N (String (pretty_N_char (x `mod` 10)%N) s) Hdiv)
      as [Hlen Heq].
    cbn [lowDigits]. cbn [String.length] in Hlen, Heq.
    destruct (N.eq_dec x 0%N) as [->|Hpos].
    + rewrite pretty_N_go_0. change (0 `div` 10)%N with 0%N in *.
      change (0 `mod` 10)%N with 0%N in *. rewrite pretty_N_go_0 in *.
      cbn [pretty_N_char String.length] in *.
      split; [lia|]. rewrite Heq.
      replace (k + S (String.length s) - S (String.length s))%nat with k by lia.
      replace (S k + String.length s - String.length s)%nat with (S k) by lia.
      apply repeatChar_snoc.
    + rewrite (pretty_N_go_step x s) by lia.
      split; [lia|]. rewrite Heq. f_equal. f_equal. lia.
Qed.

Lemma padStart_pretty (k : nat) (r : Z) :
  (0 < k)%nat -> 0 <= r < 10 ^ Z.of_nat k ->
  padStart k "0" (pretty r) = lowDigits k (Z.to_N r) EmptyString.
Proof.
  intros Hk Hr.
  assert (Hx : (Z.to_N r < 10 ^ N.of_nat k)%N).
  { apply N2Z.inj_lt. rewrite Z2N.id, N2Z.inj_pow, nat_N_Z by lia. simpl. lia. }
  destruct (lowDigits_pretty_N_go k (Z.to_N r) EmptyString Hx) as [Hlen Heq].
  rewrite Heq. unfold padStart. cbn [String.length] in *.
  destruct r as [|p|p]; [| |lia].
  - change (Z.to_N 0) with 0%N. rewrite pretty_N_go_0.
    change (pretty 0) with "0". cbn [String.length].
    rewrite Nat.add_0_r, Nat.sub_0_r.
    destruct k as [|k]; [lia|]. replace (S k - 1)%nat with k by lia.
    apply repeatChar_snoc.
  - change (Z.to_N (Z.pos p)) with (N.pos p).
    change (pretty (Z.pos p)) with (pretty_N_go (N.pos p) EmptyString).
    rewrite Nat.add_0_r. reflexivity.
Qed.

Lemma parseIntChar_digit (d : N) :
  (d < 10)%N -> parseIntChar (Some (pretty_N_char d)) = Some (Z.of_N d).
Proof.
  intros Hd.
  assert (d = 0 \/ d = 1 \/ d = 2 \/ d = 3 \/ d = 4 \/ d = 5 \/ d = 6 \/ d = 7
          \/ d = 8 \/ d = 9)%N as H by lia.
  repeat (destruct H as [->|H]; [reflexivity|]). subst. reflexivity.
Qed.

Lemma pretty_digit (c : Z) :
  0 <= c < 10 -> pretty c = String (pretty_N_char (Z.to_N c)) EmptyString.
Proof.
  intros Hc.
  assert (c = 0 \/ c = 1 \/ c = 2 \/ c = 3 \/ c = 4 \/ c = 5 \/ c = 6 \/ c = 7
          \/ c = 8 \/ c = 9) as H by lia.
  repeat (destruct H as [->|H]; [reflexivity|]). subst. reflexivity.
Qed.

Lemma placeholder_shape (r : Z) :
  0 <= r < 1000000000 ->
  exists d1 d2 d3 d4 d5 d6 d7 d8 d9 : N,
    (d1 < 10 /\ d2 < 10 /\ d3 < 10 /\ d4 < 10 /\ d5 < 10 /\ d6 < 10 /\ d7 < 10
     /\ d8 < 10 /\ d9 < 10)%N
    /\ padStart 9 "0" (pretty r)
       = String (pretty_N_char d1) (String (pretty_N_char d2) (String (pretty_N_char d3)
           (String (pretty_N_char d4) (String (pretty_N_char d5) (String (pretty_N_char d6)
              (String (pretty_N_char d7) (String (pretty_N_char d8)
                 (String (pretty_N_char d9) EmptyString)))))))).
Proof.
  intros Hr. rewrite padStart_pretty by (simpl; lia).
  cbn [lowDigits].
  eexists _, _, _, _, _, _, _, _, _. split; [|reflexivity].
  repeat split; apply N.mod_lt; discriminate.
Qed.

(** X13: the ISBN-13 [generatePlaceholderISBNs] builds from a draw below
    10^9 has thirteen characters, starts with 978, and passes the ISBN-13
    check: its computed check digit is the right one. *)
Theorem placeholder_isbn13_is_valid (r : Z) :
  0 <= r < 1000000000 ->
  String.length (ISBNManager.placeholderISBN13 r) = 13%nat
  /\ String.prefix "978" (ISBNManager.placeholderISBN13 r) = true
  /\ validISBN13 (ISBNManager.placeholderISBN13 r) = true.
Proof.
  intros Hr.
  destruct (placeholder_shape r Hr)
    as (d1 & d2 & d3 & d4 & d5 & d6 & d7 & d8 & d9 & Hd & Hpad).
  destruct Hd as (H1 & H2 & H3 & H4 & H5 & H6 & H7 & H8 & H9).
  unfold ISBNManager.placeholderISBN13. rewrite Hpad.
  unfold ISBNManager.checkDigitSum.
  cbv [String.append].
  cbn [seq foldl String.get Nat.even].
  rewrite !parseIntChar_digit by assumption.
  change (parseIntChar (Some "9"%char)) with (Some 9).
  change (parseIntChar (Some "7"%char)) with (Some 7).
  change (parseIntChar (Some "8"%char)) with (Some 8).
  cbv beta iota.
  match goal with
  | |- context [pretty ((10 - ?sum mod 10) mod 10)] =>
      set (total := sum);
      assert (Hc : 0 <= (10 - total mod 10) mod 10 < 10) by (apply Z.mod_pos_bound; lia);
      rewrite (pretty_digit _ Hc);
      set (c := (10 - total mod 10) mod 10) in *
  end.
  cbv [String.append].
  split; [reflexivity|]. split; [reflexivity|].
  unfold validISBN13, isbn13Sum.
  cbn [String.length seq foldl String.get Nat.even Nat.eqb andb].
  rewrite !parseIntChar_digit by (assumption || lia).
  change (parseIntChar (Some "9"%char)) with (Some 9).
  change (parseIntChar (Some "7"%char)) with (Some 7).
  change (parseIntChar (Some "8"%char)) with (Some 8).
  cbv beta iota. rewrite Z2N.id by lia. apply Z.eqb_eq.
  fold total. 
  replace (total + c * 1) with (total + c) by lia.
  subst c. 
  pose proof (Z.mod_pos_bound total 10 ltac:(lia)) as Hm.
  rewrite <- Zplus_mod_idemp_l.
  destruct (Z.eq_dec (total mod 10) 0) as [E|E].
  - rewrite E. reflexivity.
  - rewrite (Z.mod_small (10 - total mod 10) 10) by lia.
    replace (total mod 10 + (10 - total mod 10)) with 10 by lia. reflexivity.
Qed.

(* ===================================================================== *)
(** ** ISBNManager *)
(* ===================================================================== *)

Ltac mrun :=
  cbv beta iota delta [bind ret throw try_catch call logger modify_world get_world
                         set_pipeline uuidv4 ISBNManager.request ISBNManager.insert
                         ISBNManager.random];
  cbn [fst snd w_ext w_pipeline w_events w_log w_uuids
         ISBNManager.isbns ISBNManager.net ISBNManager.draws].

Section ISBNManagerFacts.

Import ISBNManager.

Context {Net : Type} (env : Env (Store Net)) (bowker : Bowker Net).

Lemma calculateISBNCost_eq (quantity : Z) :
  calculateISBNCost env bowker quantity
  = if (quantity =? 1) || (quantity =? 10) || (quantity =? 100)
    then ret (if quantity =? 1 then cost_isbn_single env
              else if quantity =? 10 then isbn_10pack bowker
              else isbn_100pack bowker)
    else throw ("Invalid ISBN quantity: " +:+ pretty quantity).
Proof.
  destruct (Z.eq_dec quantity 1) as [->|H1]; [reflexivity|].
  destruct (Z.eq_dec quantity 10) as [->|H10]; [reflexivity|].
  destruct (Z.eq_dec quantity 100) as [->|H100]; [reflexivity|].
  apply Z.eqb_neq in H1 as E1. apply Z.eqb_neq in H10 as E10.
  apply Z.eqb_neq in H100 as E100. rewrite E1, E10, E100. simpl.
  unfold calculateISBNCost.
  destruct quantity as [|p|p]; try reflexivity.
  repeat (destruct p as [p|p|]; try reflexivity; try lia).
Qed.

(** What [insert] does, by the answer of the database. *)
Lemma insert_run (row : ISBN) (w : World (Store Net)) :
  insert bowker row w
  = match insert_error bowker row (w_ext w) with
    | Some msg => (Throw msg, w)
    | None =>
        (Ok tt,
         {| w_pipeline := w_pipeline w; w_events := w_events w; w_log := w_log w;
            w_uuids := w_uuids w;
            w_ext := {| isbns := isbns (w_ext w) ++ [row]; net := net (w_ext w);
                        draws := draws (w_ext w) |} |})
    end.
Proof.
  unfold insert, call. destruct (insert_error bowker row (w_ext w)); [|reflexivity].
  destruct w as [pl ev lg uu ex]. reflexivity.
Qed.

(** The loop over Bowker's answer: the rows it stored, whether it came to
    its end or a row was rejected. *)
Lemma storePurchased_run (cost quantity : Z) (response : list IsbnData) :
  forall (acc : list ISBN) (w : World (Store Net)),
  exists r stored w',
    storePurchased env bowker cost quantity response acc w = (r, w')
    /\ isbns (w_ext w') = isbns (w_ext w) ++ stored
    /\ net (w_ext w') = net (w_ext w)
    /\ draws (w_ext w') = draws (w_ext w)
    /\ Forall (freshRow cost quantity) stored
    /\ match r with
       | Ok rows => rows = acc ++ stored /\ map isbn_13 stored = map isbn13 response
       | Throw _ => True
       end
    /\ ((forall row s, insert_error bowker row s = None) -> is_ok r = true).
Proof.
  induction response as [|d rest IH]; intros acc w.
  - exists (Ok acc), [], w. simpl. unfold ret. rewrite !app_nil_r.
    repeat split. constructor.
  - cbn [storePurchased]. unfold bind at 1, uuidv4 at 1. unfold bind at 1.
    rewrite insert_run. cbn [w_ext w_pipeline w_events w_log w_uuids].
    destruct (insert_error bowker _ (w_ext w)) as [msg|] eqn:Hdb.
    + eexists (Throw msg), [], _. split; [reflexivity|].
      cbn [w_ext]. rewrite app_nil_r. repeat split; try constructor.
      intros Hall. rewrite Hall in Hdb. discriminate Hdb.
    + match goal with
      | |- context [storePurchased env bowker cost quantity rest ?acc' ?w0] =>
          destruct (IH acc' w0)
            as (r & stored & w' & Hrun & Hisbns & Hnet & Hdraws & Hfresh & Hr & Hall)
      end.
      eexists r, (_ :: stored), w'. rewrite Hrun. cbn [w_ext isbns net draws] in *.
      rewrite <- !app_assoc in *. cbn [app] in *.
      split; [reflexivity|]. split; [exact Hisbns|].
      split; [exact Hnet|]. split; [exact Hdraws|].
      split; [constructor; [repeat split|exact Hfresh]|].
      split; [|exact Hall].
      destruct r as [rows|msg]; [|exact I].
      destruct Hr as [-> H13]. split; [reflexivity|].
      cbn [map isbn_13 purchasedRow]. f_equal. exact H13.
Qed.

(** The loop of the placeholders, likewise. *)
Lemma placeholderLoop_run (cost quantity : Z) (n : nat) :
  forall (acc : list ISBN) (w : World (Store Net)),
  exists r stored w',
    placeholderLoop env bowker cost quantity n acc w = (r, w')
    /\ isbns (w_ext w') = isbns (w_ext w) ++ stored
    /\ net (w_ext w') = net (w_ext w)
    /\ Forall (fun row => isbn_10 row = EmptyString) stored
    /\ Forall (freshRow cost quantity) stored
    /\ match r with
       | Ok rows =>
           rows = acc ++ stored
           /\ map isbn_13 stored
              = map (fun k => placeholderISBN13 (random_at bowker (draws (w_ext w) + k)))
                  (seq 0 n)
       | Throw _ => True
       end
    /\ ((forall row s, insert_error bowker row s = None) -> is_ok r = true).
Proof.
  induction n as [|n IH]; intros acc w.
  - exists (Ok acc), [], w. simpl. unfold ret. rewrite !app_nil_r.
    repeat split; constructor.
  - cbn [placeholderLoop]. unfold bind at 1, random at 1, call.
    unfold bind at 1, uuidv4 at 1. unfold bind at 1.
    rewrite insert_run. cbn [w_ext w_pipeline w_events w_log w_uuids isbns net draws].
    match goal with
    | |- context [insert_error bowker ?row ?s] =>
        destruct (insert_error bowker row s) as [msg|] eqn:Hdb
    end.
    + eexists (Throw msg), [], _. split; [reflexivity|].
      cbn [w_ext isbns net]. rewrite app_nil_r. repeat split; try constructor.
      intros Hall. rewrite Hall in Hdb. discriminate Hdb.
    + match goal with
      | |- context [placeholderLoop env bowker cost quantity n ?acc' ?w0] =>
          destruct (IH acc' w0)
            as (r & stored & w' & Hrun & Hisbns & Hnet & H10 & Hfresh & Hr & Hall)
      end.
      eexists r, (_ :: stored), w'. rewrite Hrun. cbn [w_ext isbns net draws] in *.
      rewrite <- !app_assoc in *. cbn [app] in *.
      split; [reflexivity|]. split; [exact Hisbns|]. split; [exact Hnet|].
      split; [constructor; [reflexivity|exact H10]|].
      split; [constructor; [repeat split|exact Hfresh]|].
      split; [|exact Hall].
      destruct r as [rows|msg]; [|exact I].
      destruct Hr as [-> H13]. split; [reflexivity|].
      cbn [seq map isbn_13 purchasedRow]. rewrite Nat.add_0_r. f_equal.
      rewrite H13, <- seq_shift, map_map. apply map_ext. intros k. do 2 f_equal. lia.
Qed.

(** What a purchase stores, whatever Bowker and the database do. *)
Lemma purchaseISBN_stores (req : ISBNPurchaseRequest) (w : World (Store Net)) :
  (quantity req =? 1) || (quantity req =? 10) || (quantity req =? 100) = true ->
  let cost := if quantity req =? 1 then cost_isbn_single env
              else if quantity req =? 10 then isbn_10pack bowker
              else isbn_100pack bowker in
  exists r stored w',
    purchaseISBN env bowker req w = (r, w')
    /\ isbns (w_ext w') = isbns (w_ext w) ++ stored
    /\ Forall (freshRow cost (quantity req)) stored
    /\ match r with
       | Ok rows =>
           exists lost,
             stored = lost ++ rows
             /\ (String.eqb (nodeEnv bowker) "development" = false -> lost = [])
       | Throw msg =>
           String.eqb (nodeEnv bowker) "development" = false ->
           exists reason, msg = "Failed to purchase ISBNs: " +:+ reason
       end.
Proof.
  intros Hq. cbv zeta. unfold purchaseISBN, generatePlaceholderISBNs.
  rewrite calculateISBNCost_eq, Hq. mrun.
  destruct (post_purchase bowker req (net (w_ext w))) as [[response|msg] n]; mrun.
  - match goal with
    | |- context [storePurchased env bowker ?c ?q response [] ?w0] =>
        destruct (storePurchased_run c q response [] w0)
          as (r1 & stored1 & w1 & Hrun & Hisbns & _ & _ & Hfresh & Hr & _)
    end.
    rewrite Hrun. cbn [w_ext isbns] in Hisbns.
    destruct r1 as [rows|msg].
    + destruct Hr as [-> _]. cbn [app]. mrun.
      eexists (Ok stored1), stored1, _. split; [reflexivity|]. cbn [w_ext isbns].
      split; [exact Hisbns|]. split; [exact Hfresh|].
      exists []. split; [reflexivity|]. intros _. reflexivity.
    + mrun. destruct (String.eqb (nodeEnv bowker) "development") eqn:Hdev; mrun.
      * match goal with
        | |- context [placeholderLoop env bowker ?c ?q ?k [] ?w0] =>
            destruct (placeholderLoop_run c q k [] w0)
              as (r2 & stored2 & w2 & Hrun2 & Hisbns2 & _ & _ & Hfresh2 & Hr2 & _)
        end.
        rewrite Hrun2. cbn [w_ext isbns] in Hisbns2. rewrite Hisbns in Hisbns2.
        rewrite <- app_assoc in Hisbns2.
        destruct r2 as [rows|msg2].
        -- destruct Hr2 as [-> _]. cbn [app]. mrun.
           eexists (Ok stored2), (stored1 ++ stored2), _. split; [reflexivity|].
           cbn [w_ext isbns]. split; [exact Hisbns2|].
           split; [apply Forall_app; split; assumption|].
           exists stored1. split; [reflexivity|]. intros H. discriminate H.
        -- eexists (Throw msg2), (stored1 ++ stored2), _. split; [reflexivity|].
           split; [exact Hisbns2|]. split; [apply Forall_app; split; assumption|].
           intros H. discriminate H.
      * eexists (Throw _), stored1, _. split; [reflexivity|]. cbn [w_ext isbns].
        split; [exact Hisbns|]. split; [exact Hfresh|].
        intros _. eexists. reflexivity.
  - destruct (String.eqb (nodeEnv bowker) "development") eqn:Hdev; mrun.
    + match goal with
      | |- context [placeholderLoop env bowker ?c ?q ?k [] ?w0] =>
          destruct (placeholderLoop_run c q k [] w0)
            as (r2 & stored2 & w2 & Hrun2 & Hisbns2 & _ & _ & Hfresh2 & Hr2 & _)
      end.
      rewrite Hrun2. cbn [w_ext isbns] in Hisbns2.
      destruct r2 as [rows|msg2].
      * destruct Hr2 as [-> _]. cbn [app]. mrun.
        eexists (Ok stored2), stored2, _. split; [reflexivity|].
        cbn [w_ext isbns]. split; [exact Hisbns2|]. split; [exact Hfresh2|].
        exists []. split; [reflexivity|]. intros _. reflexivity.
      * eexists (Throw msg2), stored2, _. split; [reflexivity|].
        split; [exact Hisbns2|]. split; [exact Hfresh2|].
        intros H. discriminate H.
    + eexists (Throw _), [], _. split; [reflexivity|]. cbn [w_ext isbns].
      rewrite app_nil_r. split; [reflexivity|]. split; [constructor|].
      intros _. eexists. reflexivity.
Qed.

(** What a purchase does in front of a database that accepts every row. *)
Lemma purchaseISBN_run (req : ISBNPurchaseRequest) (w : World (Store Net)) :
  (quantity req =? 1) || (quantity req =? 10) || (quantity req =? 100) = true ->
  (forall row s, insert_error bowker row s = None) ->
  let cost := if quantity req =? 1 then cost_isbn_single env
              else if quantity req =? 10 then isbn_10pack bowker
              else isbn_100pack bowker in
  match post_purchase bowker req (net (w_ext w)) with
  | (Ok response, n) =>
      exists rows w',
        purchaseISBN env bowker req w = (Ok rows, w')
        /\ isbns (w_ext w') = isbns (w_ext w) ++ rows
        /\ net (w_ext w') = n
        /\ map isbn_13 rows = map isbn13 response
        /\ Forall (freshRow cost (quantity req)) rows
  | (Throw msg, n) =>
      if String.eqb (nodeEnv bowker) "development" then
        exists rows w',
          purchaseISBN env bowker req w = (Ok rows, w')
          /\ isbns (w_ext w') = isbns (w_ext w) ++ rows
          /\ net (w_ext w') = n
          /\ map isbn_13 rows
             = map (fun k => placeholderISBN13 (random_at bowker (draws (w_ext w) + k)))
                 (seq 0 (Z.to_nat (quantity req)))
          /\ Forall (fun row => isbn_10 row = EmptyString) rows
          /\ Forall (freshRow cost (quantity req)) rows
      else
        fst (purchaseISBN env bowker req w) = Throw ("Failed to purchase ISBNs: " +:+ msg)
        /\ isbns (w_ext (snd (purchaseISBN env bowker req w))) = isbns (w_ext w)
  end.
Proof.
  intros Hq Hall. cbv zeta. unfold purchaseISBN, generatePlaceholderISBNs.
  rewrite calculateISBNCost_eq, Hq. mrun.
  destruct (post_purchase bowker req (net (w_ext w))) as [[response|msg] n]; mrun.
  - match goal with
    | |- context [storePurchased env bowker ?c ?q response [] ?w0] =>
        destruct (storePurchased_run c q response [] w0)
          as (r & rows & w' & Hrun & Hisbns & Hnet & _ & Hfresh & Hr & Hok)
    end.
    specialize (Hok Hall). destruct r as [rows'|msg]; [|discriminate Hok].
    destruct Hr as [-> H13].
    rewrite Hrun. cbn [app]. mrun.
    eexists rows, _. split; [reflexivity|]. cbn [w_ext isbns net] in *.
    repeat split; assumption.
  - destruct (String.eqb (nodeEnv bowker) "development"); mrun.
    + match goal with
      | |- context [placeholderLoop env bowker ?c ?q ?k [] ?w0] =>
          destruct (placeholderLoop_run c q k [] w0)
            as (r & rows & w' & Hrun & Hisbns & Hnet & H10 & Hfresh & Hr & Hok)
      end.
      specialize (Hok Hall). destruct r as [rows'|msg']; [|discriminate Hok].
      destruct Hr as [-> H13].
      rewrite Hrun. cbn [app]. mrun.
      eexists rows, _. split; [reflexivity|]. cbn [w_ext isbns net draws] in *.
      repeat split; assumption.
    + split; reflexivity.
Qed.

Lemma purchaseISBN_invalid (req : ISBNPurchaseRequest) (w : World (Store Net)) :
  quantity req <> 1 -> quantity req <> 10 -> quantity req <> 100 ->
  let run := purchaseISBN env bowker req w in
  fst run
  = Throw (if String.eqb (nodeEnv bowker) "development"
           then "Invalid ISBN quantity: " +:+ pretty (quantity req)
           else "Failed to purchase ISBNs: "
                  +:+ ("Invalid ISBN quantity: " +:+ pretty (quantity req)))
  /\ w_ext (snd run) = w_ext w.
Proof.
  intros H1 H10 H100. cbv zeta. unfold purchaseISBN, generatePlaceholderISBNs.
  rewrite calculateISBNCost_eq.
  apply Z.eqb_neq in H1, H10, H100. rewrite H1, H10, H100. cbn [orb]. mrun.
  destruct (String.eqb (nodeEnv bowker) "development"); mrun; split; reflexivity.
Qed.



Lemma sortsBefore_spec format row other :
  sortsBefore format row other = true
  <-> formatRank format row < formatRank format other
      \/ (formatRank format row = formatRank format other
          /\ purchased_at row < purchased_at other).
Proof.
  unfold sortsBefore, formatRank.
  rewrite orb_true_iff, andb_true_iff, !Z.ltb_lt, Z.eqb_eq. reflexivity.
Qed.

Lemma sortsBefore_false format row other :
  sortsBefore format row other = false
  <-> formatRank format other < formatRank format row
      \/ (formatRank format row = formatRank format other
          /\ purchased_at other <= purchased_at row).
Proof.
  rewrite <- not_true_iff_false, sortsBefore_spec. lia.
Qed.

Lemma foldl_best format (cands : list ISBN) :
  forall b,
  exists r,
    foldl (fun best row =>
             match best with
             | None => Some row
             | Some b => if sortsBefore format row b then Some row else Some b
             end) (Some b) cands = Some r
    /\ (r = b \/ r ∈ cands)
    /\ (forall x, sortsBefore format x b = false -> sortsBefore format x r = false)
    /\ (forall x, x ∈ cands -> sortsBefore format x r = false).
Proof.
  induction cands as [|c rest IH]; intros b.
  - exists b. simpl. repeat split; auto. intros x Hx. inversion Hx.
  - cbn [foldl].
    destruct (sortsBefore format c b) eqn:Hcb.
    + destruct (IH c) as (r & Hr & Hin & Hle & Hall).
      exists r. split; [exact Hr|]. split; [|split].
      * right. destruct Hin as [->|Hin]; [left|right; exact Hin].
      * intros x Hx. apply Hle.
        apply sortsBefore_false in Hx. apply sortsBefore_spec in Hcb.
        apply sortsBefore_false. lia.
      * intros x Hx. apply elem_of_cons in Hx as [->|Hx]; [|auto].
        apply Hle. apply sortsBefore_false. lia.
    + destruct (IH b) as (r & Hr & Hin & Hle & Hall).
      exists r. split; [exact Hr|]. split; [|split].
      * destruct Hin as [->|Hin]; [left; reflexivity|right; right; exact Hin].
      * exact Hle.
      * intros x Hx. apply elem_of_cons in Hx as [->|Hx]; [|auto].
        apply Hle. exact Hcb.
Qed.

Lemma selectAvailable_None format rows :
  selectAvailable format rows = None
  <-> Forall (fun row => assignable format row = false) rows.
Proof.
  unfold selectAvailable. split.
  - intros H. destruct (List.filter (assignable format) rows) as [|c rest] eqn:Hf.
    + apply Forall_forall. intros x Hx.
      destruct (assignable format x) eqn:Hax; [|reflexivity].
      assert (Hin : In x (List.filter (assignable format) rows))
        by (apply filter_In; split; [apply list_elem_of_In; exact Hx|exact Hax]).
      rewrite Hf in Hin. destruct Hin.
    + cbn [foldl] in H. destruct (foldl_best format rest c) as (r & Hr & _).
      rewrite Hr in H. discriminate.
  - intros H. replace (List.filter (assignable format) rows) with (@nil ISBN); [reflexivity|].
    symmetry. induction H as [|x rest Hx _ IH]; [reflexivity|].
    cbn [List.filter]. rewrite Hx. exact IH.
Qed.

Lemma selectAvailable_Some format rows row :
  selectAvailable format rows = Some row ->
  row ∈ rows
  /\ assignable format row = true
  /\ forall x, x ∈ rows -> assignable format x = true ->
       sortsBefore format x row = false.
Proof.
  unfold selectAvailable. intros H.
  destruct (List.filter (assignable format) rows) as [|c rest] eqn:Hf; [discriminate|].
  cbn [foldl] in H. destruct (foldl_best format rest c) as (r & Hr & Hin & Hle & Hall).
  rewrite Hr in H. injection H as ->.
  assert (Hcand : forall x, x ∈ c :: rest <-> x ∈ rows /\ assignable format x = true).
  { intros x. rewrite <- Hf, !list_elem_of_In, filter_In. reflexivity. }
  assert (Hrow : row ∈ c :: rest).
  { destruct Hin as [->|Hin]; [left|right; exact Hin]. }
  apply Hcand in Hrow as [Hrows Hassign]. repeat split; try assumption.
  intros x Hx Hax.
  assert (Hxc : x ∈ c :: rest) by (apply Hcand; auto).
  apply elem_of_cons in Hxc as [->|Hxc]; [|auto].
  apply Hle. apply sortsBefore_false. lia.
Qed.

Lemma assignISBN_run project format (w : World (Store Net)) :
  match selectAvailable format (isbns (w_ext w)) with
  | None =>
      fst (assignISBN env bowker project format w)
      = Throw "No available ISBNs. Please purchase more ISBNs before publishing."
      /\ w_ext (snd (assignISBN env bowker project format w)) = w_ext w
  | Some row =>
      exists barcode w',
        assignISBN env bowker project format w
        = (Ok {| assigned_isbn_13 := isbn_13 row; assigned_isbn_10 := isbn_10 row;
                 assigned_format := format; barcode_image := barcode |}, w')
        /\ isbns (w_ext w')
           = assignedTable project format (now_ms env) (id row) (isbns (w_ext w))
  end.
Proof.
  unfold assignISBN, generateBarcode, updateAssigned. mrun.
  destruct (selectAvailable format (isbns (w_ext w))) as [row|]; mrun.
  - destruct (get_barcode bowker (isbn_13 row) (net (w_ext w))) as [[image|msg] n]; mrun;
      eexists _, _; split; reflexivity.
  - split; reflexivity.
Qed.


(** X14: when the quantity is none of 1, 10 and 100, [purchaseISBN] rejects before
    anything leaves the process: in development with the bare message of
    [calculateISBNCost], which the fallback raises again outside the [try];
    elsewhere with the wrapped one. *)
Theorem purchaseISBN_invalid_quantity (req : ISBNPurchaseRequest) (w : World (Store Net)) :
  quantity req <> 1 -> quantity req <> 10 -> quantity req <> 100 ->
  let run := purchaseISBN env bowker req w in
  fst run
  = Throw (if String.eqb (nodeEnv bowker) "development"
           then "Invalid ISBN quantity: " +:+ pretty (quantity req)
           else "Failed to purchase ISBNs: "
                  +:+ ("Invalid ISBN quantity: " +:+ pretty (quantity req)))
  /\ w_ext (snd run) = w_ext w.
Proof. exact (purchaseISBN_invalid req w). Qed.

(** X15: for a quantity of 1, 10 or 100, in front of a database that accepts
    every row, [purchaseISBN] follows Bowker's reply.  When Bowker answers,
    one row is stored and returned for each ISBN of the answer, however many
    were asked for.  When Bowker rejects, a development server stores and
    returns [quantity] placeholders built from random draws, and any other
    server rejects with the wrapped message and stores nothing.  Whatever the
    database does, the table only grows, by rows that are available,
    unassigned and of format [ebook] and cost the pack price divided by the
    quantity; the rows returned are the last ones stored, and all of them
    unless a development server fell back on placeholders after a failure;
    rows stored before a failure stay in the table; and a server that is not
    a development server throws every failure, Bowker's or the database's,
    as [Failed to purchase ISBNs: ...]. *)
Theorem purchaseISBN_outcome (req : ISBNPurchaseRequest) (w : World (Store Net)) :
  (quantity req =? 1) || (quantity req =? 10) || (quantity req =? 100) = true ->
  let cost := if quantity req =? 1 then cost_isbn_single env
              else if quantity req =? 10 then isbn_10pack bowker
              else isbn_100pack bowker in
  ((forall row s, insert_error bowker row s = None) ->
   match post_purchase bowker req (net (w_ext w)) with
   | (Ok response, n) =>
       exists rows w',
         purchaseISBN env bowker req w = (Ok rows, w')
         /\ isbns (w_ext w') = isbns (w_ext w) ++ rows
         /\ net (w_ext w') = n
         /\ map isbn_13 rows = map isbn13 response
         /\ Forall (freshRow cost (quantity req)) rows
   | (Throw msg, n) =>
       if String.eqb (nodeEnv bowker) "development" then
         exists rows w',
           purchaseISBN env bowker req w = (Ok rows, w')
           /\ isbns (w_ext w') = isbns (w_ext w) ++ rows
           /\ net (w_ext w') = n
           /\ map isbn_13 rows
              = map (fun k => placeholderISBN13 (random_at bowker (draws (w_ext w) + k)))
                  (seq 0 (Z.to_nat (quantity req)))
           /\ Forall (fun row => isbn_10 row = EmptyString) rows
           /\ Forall (freshRow cost (quantity req)) rows
       else
         fst (purchaseISBN env bowker req w) = Throw ("Failed to purchase ISBNs: " +:+ msg)
         /\ isbns (w_ext (snd (purchaseISBN env bowker req w))) = isbns (w_ext w)
   end)
  /\ exists stored,
       isbns (w_ext (snd (purchaseISBN env bowker req w))) = isbns (w_ext w) ++ stored
       /\ Forall (freshRow cost (quantity req)) stored
       /\ match fst (purchaseISBN env bowker req w) with
          | Ok rows =>
              exists lost,
                stored = lost ++ rows
                /\ (String.eqb (nodeEnv bowker) "development" = false -> lost = [])
          | Throw msg =>
              String.eqb (nodeEnv bowker) "development" = false ->
              exists reason, msg = "Failed to purchase ISBNs: " +:+ reason
          end.
Proof.
  intros Hq. cbv zeta. split.
  - intros Hall. exact (purchaseISBN_run req w Hq Hall).
  - destruct (purchaseISBN_stores req w Hq) as (r & stored & w' & Hrun & Htable & Hfresh & Hr).
    rewrite Hrun. cbn [fst snd]. exists stored. split; [exact Htable|].
    split; [exact Hfresh|exact Hr].
Qed.

(** X16: [assignISBN] rejects, leaving the table and Bowker alone, exactly when no
    row is available with the requested format or with none.  Otherwise it
    hands out such a row: one already of the requested format when there is
    one, and among equals none purchased earlier is left behind; every row
    carrying the identifier of the chosen one is then assigned to the
    project in the requested format, and no other row changes. *)
Theorem assignISBN_outcome project format (w : World (Store Net)) :
  let run := assignISBN env bowker project format w in
  (Forall (fun row => assignable format row = false) (isbns (w_ext w)) ->
   fst run = Throw "No available ISBNs. Please purchase more ISBNs before publishing."
   /\ w_ext (snd run) = w_ext w)
  /\ (Exists (fun row => assignable format row = true) (isbns (w_ext w)) ->
      exists row barcode,
        row ∈ isbns (w_ext w)
        /\ assignable format row = true
        /\ fst run
           = Ok {| assigned_isbn_13 := isbn_13 row; assigned_isbn_10 := isbn_10 row;
                   assigned_format := format; barcode_image := barcode |}
        /\ isbns (w_ext (snd run))
           = assignedTable project format (now_ms env) (id row) (isbns (w_ext w))
        /\ forall other,
             other ∈ isbns (w_ext w) -> assignable format other = true ->
             (format_type other = Some format -> format_type row = Some format)
             /\ (format_type other = format_type row ->
                 purchased_at row <= purchased_at other)).
Proof.
  cbv zeta. pose proof (assignISBN_run project format w) as Hrun.
  destruct (selectAvailable format (isbns (w_ext w))) as [row|] eqn:Hsel.
  - apply selectAvailable_Some in Hsel as (Hin & Hassign & Hmin).
    split.
    + intros Hnone. rewrite Forall_forall in Hnone.
      rewrite (Hnone row Hin) in Hassign. discriminate.
    + intros _. destruct Hrun as (barcode & w' & Hrun & Htable).
      exists row, barcode. rewrite Hrun. cbn [fst snd].
      repeat split; try assumption.
      * intros Hother. specialize (Hmin other H H0).
        apply sortsBefore_false in Hmin. unfold formatRank in Hmin.
        rewrite (bool_decide_eq_true_2 _ Hother) in Hmin.
        destruct (bool_decide (format_type row = Some format)) eqn:Hrow;
          [apply bool_decide_eq_true in Hrow; exact Hrow | lia].
      * intros Hsame. specialize (Hmin other H H0).
        apply sortsBefore_false in Hmin. unfold formatRank in Hmin.
        rewrite Hsame in Hmin. lia.
  - apply selectAvailable_None in Hsel. split.
    + intros _. exact Hrun.
    + intros Hsome. apply Exists_exists in Hsome as (x & Hx & Hax).
      rewrite Forall_forall in Hsel. rewrite (Hsel x Hx) in Hax. discriminate.
Qed.

Lemma NoDup_map_inj {A B} (f : A -> B) (l : list A) (x y : A) :
  NoDup (map f l) -> x ∈ l -> y ∈ l -> f x = f y -> x = y.
Proof.
  induction l as [|a l IH]; intros Hnd Hx Hy Hf; [inversion Hx|].
  cbn [map] in Hnd. apply NoDup_cons in Hnd as [Hnotin Hnd].
  apply elem_of_cons in Hx as [->|Hx]; apply elem_of_cons in Hy as [->|Hy].
  - reflexivity.
  - exfalso. apply Hnotin. rewrite Hf. apply list_elem_of_fmap.
    exists y. split; [reflexivity|assumption].
  - exfalso. apply Hnotin. rewrite <- Hf. apply list_elem_of_fmap.
    exists x. split; [reflexivity|assumption].
  - auto.
Qed.

Lemma assignISBN_returns project format (w : World (Store Net)) assigned w' :
  assignISBN env bowker project format w = (Ok assigned, w') ->
  exists row,
    row ∈ isbns (w_ext w)
    /\ assignable format row = true
    /\ assigned_isbn_13 assigned = isbn_13 row
    /\ isbns (w_ext w')
       = assignedTable project format (now_ms env) (id row) (isbns (w_ext w)).
Proof.
  intros H. pose proof (assignISBN_run project format w) as Hrun.
  destruct (selectAvailable format (isbns (w_ext w))) as [row|] eqn:Hsel.
  - apply selectAvailable_Some in Hsel as (Hin & Hassign & _).
    destruct Hrun as (barcode & w1 & Hrun & Htable).
    rewrite Hrun in H. injection H as <- <-.
    exists row. repeat split; assumption.
  - destruct Hrun as [Hrun _]. rewrite H in Hrun. discriminate.
Qed.

(** X17: in a table whose ISBN-13s are all different, two assignments in a row
    never hand out the same ISBN, whatever the projects and formats. *)
Theorem assignISBN_never_twice project1 format1 project2 format2
    (w : World (Store Net)) assigned1 w1 assigned2 w2 :
  NoDup (map isbn_13 (isbns (w_ext w))) ->
  assignISBN env bowker project1 format1 w = (Ok assigned1, w1) ->
  assignISBN env bowker project2 format2 w1 = (Ok assigned2, w2) ->
  assigned_isbn_13 assigned1 <> assigned_isbn_13 assigned2.
Proof.
  intros Hnd H1 H2.
  apply assignISBN_returns in H1 as (row1 & Hin1 & _ & E1 & Htable).
  apply assignISBN_returns in H2 as (row2 & Hin2 & Hassign2 & E2 & _).
  rewrite E1, E2. intros Heq.
  rewrite Htable in Hin2. unfold assignedTable in Hin2.
  apply list_elem_of_fmap in Hin2 as (r & Hr & Hrin).
  assert (H13 : isbn_13 row2 = isbn_13 r).
  { rewrite Hr. destruct (String.eqb (id r) (id row1)); reflexivity. }
  assert (r = row1).
  { apply (NoDup_map_inj isbn_13 (isbns (w_ext w))); [assumption..|congruence]. }
  subst r. rewrite String.eqb_refl in Hr. subst row2.
  unfold assignable in Hassign2. cbn [status assignRow] in Hassign2.
  discriminate.
Qed.

(** X18: what [purchaseISBN] stores can only ever be assigned to an ebook: on a
    table that held nothing but rows of format [ebook], a purchase leaves
    [assignISBN] rejecting every request for another format. *)
Theorem purchased_isbns_serve_ebooks_only (req : ISBNPurchaseRequest)
    (w : World (Store Net)) bought w1 project format w2 :
  Forall (fun row => format_type row = Some ebook) (isbns (w_ext w)) ->
  purchaseISBN env bowker req w = (Ok bought, w1) ->
  w_ext w2 = w_ext w1 ->
  format <> ebook ->
  Forall (fun row => format_type row = Some ebook) bought
  /\ fst (assignISBN env bowker project format w2)
     = Throw "No available ISBNs. Please purchase more ISBNs before publishing.".
Proof.
  intros Hpool Hbuy Hext Hformat.
  assert (Hq : (quantity req =? 1) || (quantity req =? 10) || (quantity req =? 100) = true).
  { destruct ((quantity req =? 1) || (quantity req =? 10) || (quantity req =? 100)) eqn:Hq;
      [reflexivity|].
    apply orb_false_iff in Hq as [Hq H100]. apply orb_false_iff in Hq as [H1 H10].
    apply Z.eqb_neq in H1, H10, H100.
    destruct (purchaseISBN_invalid req w H1 H10 H100) as [Hthrow _].
    rewrite Hbuy in Hthrow. discriminate. }
  destruct (purchaseISBN_stores req w Hq)
    as (r & stored & w' & Hrun & Htable & Hfresh & Hr).
  rewrite Hbuy in Hrun. injection Hrun as <- <-.
  destruct Hr as (lost & Hstored & _).
  assert (Hebooks : Forall (fun row => format_type row = Some ebook) stored).
  { eapply Forall_impl; [exact Hfresh|]. intros row (_ & _ & Hf & _). exact Hf. }
  assert (Hbought : Forall (fun row => format_type row = Some ebook) bought).
  { rewrite Hstored in Hebooks. apply Forall_app in Hebooks. apply Hebooks. }
  split; [exact Hbought|].
  pose proof (assignISBN_run project format w2) as Hassign.
  destruct (selectAvailable format (isbns (w_ext w2))) as [row|] eqn:Hsel;
    [|apply Hassign].
  exfalso. apply selectAvailable_Some in Hsel as (Hin & Hok & _).
  rewrite Hext, Htable in Hin.
  assert (Hebook : format_type row = Some ebook).
  { apply elem_of_app in Hin as [Hin|Hin].
    - rewrite Forall_forall in Hpool. auto.
    - rewrite Forall_forall in Hebooks. auto. }
  unfold assignable in Hok. rewrite Hebook in Hok.
  apply andb_true_iff in Hok as [_ Hok]. apply orb_true_iff in Hok as [Hok|Hok];
    apply bool_decide_eq_true in Hok; congruence.
Qed.

End ISBNManagerFacts.

Lemma placeholder_isbn13_is_valid_witness :
  0 <= 123456789 < 1000000000
  /\ ISBNManager.placeholderISBN13 123456789 = "9781234567897"
  /\ validISBN13 (ISBNManager.placeholderISBN13 123456789) = true.
Proof.
  split; [lia|]. split; [reflexivity|].
  apply (placeholder_isbn13_is_valid 123456789). lia.
Defined.

Lemma purchaseISBN_invalid_quantity_witness :
  fst (ISBNManager.purchaseISBN storeEnv devBowker (purchaseOf 5) (storeWorld []))
  = Throw "Invalid ISBN quantity: 5"
  /\ w_ext (snd (ISBNManager.purchaseISBN storeEnv devBowker (purchaseOf 5) (storeWorld [])))
     = w_ext (storeWorld []).
Proof.
  apply (purchaseISBN_invalid_quantity storeEnv devBowker (purchaseOf 5) (storeWorld []));
    simpl; lia.
Defined.

Lemma purchaseISBN_outcome_witness :
  (exists rows w',
      ISBNManager.purchaseISBN storeEnv devBowker (purchaseOf 10) (storeWorld [])
      = (Ok rows, w')
      /\ ISBNManager.isbns (w_ext w') = [] ++ rows
      /\ ISBNManager.net (w_ext w') = tt
      /\ map ISBNManager.isbn_13 rows
         = map (fun k => ISBNManager.placeholderISBN13 (123456789 + Z.of_nat (0 + k)))
             (seq 0 10)
      /\ Forall (fun row => ISBNManager.isbn_10 row = EmptyString) rows
      /\ Forall (ISBNManager.freshRow 29500 10) rows)
  /\ fst (ISBNManager.purchaseISBN storeEnv fullBowker (purchaseOf 1) (storeWorld []))
     = Throw "Failed to purchase ISBNs: could not extend file".
Proof.
  split.
  - exact (proj1 (purchaseISBN_outcome storeEnv devBowker (purchaseOf 10) (storeWorld [])
                    eq_refl)
             (fun _ _ => eq_refl)).
  - destruct (proj2 (purchaseISBN_outcome storeEnv fullBowker (purchaseOf 1)
                       (storeWorld []) eq_refl))
      as (stored & _ & _ & Hr).
    destruct (fst (ISBNManager.purchaseISBN storeEnv fullBowker (purchaseOf 1)
                     (storeWorld []))) as [rows|msg] eqn:Hrun;
      vm_compute in Hrun; [discriminate Hrun|].
    injection Hrun as <-. reflexivity.
Defined.

Lemma assignISBN_never_twice_witness :
  exists assigned1 w1 assigned2 w2,
    ISBNManager.assignISBN storeEnv devBowker "proj-a" ebook (storeWorld twoISBNs)
    = (Ok assigned1, w1)
    /\ ISBNManager.assignISBN storeEnv devBowker "proj-b" ebook w1 = (Ok assigned2, w2)
    /\ ISBNManager.assigned_isbn_13 assigned1 = "9780306406157"
    /\ ISBNManager.assigned_isbn_13 assigned2 = "9781861972712"
    /\ ISBNManager.assigned_isbn_13 assigned1 <> ISBNManager.assigned_isbn_13 assigned2.
Proof.
  eexists _, _, _, _.
  split; [vm_compute; reflexivity|]. split; [vm_compute; reflexivity|].
  split; [reflexivity|]. split; [reflexivity|].
  eapply (assignISBN_never_twice storeEnv devBowker "proj-a" ebook "proj-b" ebook
            (storeWorld twoISBNs)).
  - apply (bool_decide_unpack _). vm_compute. reflexivity.
  - vm_compute. reflexivity.
  - vm_compute. reflexivity.
Defined.

Lemma purchased_isbns_serve_ebooks_only_witness :
  exists bought w1,
    ISBNManager.purchaseISBN storeEnv devBowker (purchaseOf 1) (storeWorld [])
    = (Ok bought, w1)
    /\ length bought = 1%nat
    /\ fst (ISBNManager.assignISBN storeEnv devBowker "proj" print w1)
       = Throw "No available ISBNs. Please purchase more ISBNs before publishing.".
Proof.
  eexists _, _. split; [vm_compute; reflexivity|]. split; [reflexivity|].
  eapply (purchased_isbns_serve_ebooks_only storeEnv devBowker (purchaseOf 1)
            (storeWorld []) _ _ "proj" print).
  - constructor.
  - vm_compute. reflexivity.
  - reflexivity.
  - discriminate.
Defined.
(* ===================================================================== *)
(** ** LCCNManager *)
(* ===================================================================== *)

Lemma decimalValue_lowDigits (k : nat) :
  forall (x : N) (acc : string) (v0 : Z),
    (x < 10 ^ N.of_nat k)%N ->
    foldl (fun value a =>
             match value, parseIntChar (Some a) with
             | Some v, Some d => Some (10 * v + d)
             | _, _ => None
             end)
      (Some v0) (list_ascii_of_string (lowDigits k x acc))
    = foldl (fun value a =>
               match value, parseIntChar (Some a) with
               | Some v, Some d => Some (10 * v + d)
               | _, _ => None
               end)
        (Some (v0 * 10 ^ Z.of_nat k + Z.of_N x)) (list_ascii_of_string acc).
Proof.
  induction k as [|k IH]; intros x acc v0 Hx.
  - assert (x = 0%N) as -> by (simpl in Hx; lia).
    cbn [lowDigits]. do 2 f_equal. simpl. lia.
  - assert (Hdiv : (x `div` 10 < 10 ^ N.of_nat k)%N).
    { apply N.Div0.div_lt_upper_bound.
      rewrite Nat2N.inj_succ, N.pow_succ_r' in Hx. lia. }
    cbn [lowDigits]. rewrite (IH _ _ _ Hdiv).
    cbn [list_ascii_of_string foldl].
    rewrite parseIntChar_digit by (apply N.mod_lt; discriminate).
    do 2 f_equal. rewrite Nat2Z.inj_succ, Z.pow_succ_r by lia.
    rewrite N2Z.inj_div, N2Z.inj_mod. change (Z.of_N 10) with 10.
    pose proof (Z.div_mod (Z.of_N x) 10 ltac:(lia)). lia.
Qed.

Lemma length_lowDigits (k : nat) :
  forall (x : N) (acc : string),
    String.length (lowDigits k x acc) = (k + String.length acc)%nat.
Proof.
  induction k as [|k IH]; intros x acc; [reflexivity|].
  cbn [lowDigits]. rewrite IH. simpl. lia.
Qed.

(** X19: the placeholder LCCN is the year, a dash, and the draw written
    with exactly six digits: for a draw below 10^6 the part after the dash
    has six characters and reads back as the draw. *)
Theorem placeholderLCCN_format (year r : Z) :
  0 <= r < 1000000 ->
  exists sequence,
    LCCNManager.placeholderLCCN year r = pretty year +:+ "-" +:+ sequence
    /\ String.length sequence = 6%nat
    /\ decimalValue sequence = Some r.
Proof.
  intros Hr. unfold LCCNManager.placeholderLCCN.
  rewrite padStart_pretty by (simpl; lia).
  eexists. split; [reflexivity|]. split.
  - apply length_lowDigits.
  - unfold decimalValue. rewrite decimalValue_lowDigits.
    + simpl. f_equal. rewrite Z2N.id by lia. reflexivity.
    + apply N2Z.inj_lt. rewrite Z2N.id by lia. simpl. lia.
Qed.

Lemma placeholderLCCN_format_witness :
  LCCNManager.placeholderLCCN 2024 4711 = "2024-004711"
  /\ exists sequence,
       LCCNManager.placeholderLCCN 2024 4711 = pretty 2024 +:+ "-" +:+ sequence
       /\ String.length sequence = 6%nat
       /\ decimalValue sequence = Some 4711.
Proof.
  split; [reflexivity|]. apply (placeholderLCCN_format 2024 4711). lia.
Defined.

(** X20: a book is eligible for an LCCN exactly when its publisher and its
    publication date are both set.  Each of the two that is missing is named
    in the reasons.  A language other than [en] and [English] adds a note to
    the reasons and leaves the book eligible. *)
Theorem lccn_eligibility (metadata : BookMetadata) :
  let result := LCCNManager.validateLCCNEligibility metadata in
  LCCNManager.eligible result
  = nonEmpty (meta_publisher metadata) && nonEmpty (meta_publication_date metadata)
  /\ ("Publisher name is required" ∈ LCCNManager.reasons result
      <-> meta_publisher metadata = EmptyString)
  /\ ("Publication date must be set" ∈ LCCNManager.reasons result
      <-> meta_publication_date metadata = EmptyString)
  /\ (LCCNManager.reasons result = []
      <-> meta_publisher metadata <> EmptyString
          /\ meta_publication_date metadata <> EmptyString
          /\ (meta_language metadata = "en" \/ meta_language metadata = "English")).
Proof.
  cbv zeta. unfold LCCNManager.validateLCCNEligibility.
  cbn [LCCNManager.eligible LCCNManager.reasons].
  destruct (meta_publisher metadata) as [|a publisher];
    destruct (meta_publication_date metadata) as [|b date];
    cbn [nonEmpty negb andb when app];
    destruct (String.eqb_spec (meta_language metadata) "en") as [Hen|Hen];
    destruct (String.eqb_spec (meta_language metadata) "English") as [Heng|Heng];
    cbn [negb andb when app];
    (split; [reflexivity|]); (split; [|split]); split.
  all: try (intros _; reflexivity).
  all: try (intros _; apply (bool_decide_unpack _); reflexivity).
  all: try (intros H; discriminate H).
  all: try (intros [H _]; congruence).
  all: try (intros [_ [H _]]; congruence).
  all: try (intros [_ [_ [H|H]]]; congruence).
  all: try (intros _; split; [discriminate | split; [discriminate | auto]]).
  all: intros H; exfalso;
    repeat (apply elem_of_cons in H as [H|H]; [discriminate H|]); inversion H.
Qed.

Section LCCNManagerFacts.

Context (env : Env LCCNManager.Store) (clock : LCCNManager.Clock)
        (db : LCCNManager.Database).

(** X21: the row of an application is stored under the ISBN of the
    application, and the application of the publishing pipeline carries an
    empty ISBN.  When the database accepts the row, the application goes
    through and appends this one pending row under the empty project
    identifier: asking for the LCCN of the empty identifier then finds a row,
    and asking for the LCCN of the project itself answers what it answered
    before.  When the database rejects the row, the application throws
    [LCCN application failed: ...] with the error of the database, and the
    table is as it was. *)
Theorem pipeline_lccn_is_stored_under_no_project (params : PublishParams)
    (w : World LCCNManager.Store) :
  let application := LCCNManager.pipelineApplication params in
  let run := LCCNManager.applyForLCCN env clock db application w in
  let stored :=
    {| LCCNManager.id := uuidv4_at env (w_uuids w);
       LCCNManager.project_id := EmptyString;
       LCCNManager.lccn :=
         LCCNManager.placeholderLCCN (LCCNManager.fullYear clock)
           (LCCNManager.random_at clock (LCCNManager.draws (w_ext w)));
       LCCNManager.status := LCCNManager.lccn_pending;
       LCCNManager.application_date := now_ms env;
       LCCNManager.assignment_date := None |} in
  match LCCNManager.insert_error db stored
          {| LCCNManager.lccns := LCCNManager.lccns (w_ext w);
             LCCNManager.draws := S (LCCNManager.draws (w_ext w)) |} with
  | None =>
      exists applied,
        fst run = Ok applied
        /\ LCCNManager.row applied = stored
        /\ LCCNManager.lccns (w_ext (snd run)) = LCCNManager.lccns (w_ext w) ++ [stored]
        /\ (exists found,
              fst (LCCNManager.getByProjectId EmptyString (snd run)) = Ok (Some found))
        /\ (p_project_id params <> EmptyString ->
            fst (LCCNManager.getByProjectId (p_project_id params) (snd run))
            = fst (LCCNManager.getByProjectId (p_project_id params) w))
  | Some msg =>
      fst run = Throw ("LCCN application failed: " +:+ msg)
      /\ LCCNManager.lccns (w_ext (snd run)) = LCCNManager.lccns (w_ext w)
  end.
Proof.
  cbv zeta.
  unfold LCCNManager.applyForLCCN, LCCNManager.generatePlaceholderLCCN,
    LCCNManager.getByProjectId.
  mrun. cbn [LCCNManager.lccns LCCNManager.draws LCCNManager.pipelineApplication
             LCCNManager.isbn].
  destruct (LCCNManager.insert_error db _ _) as [msg|]; mrun.
  - split; reflexivity.
  - eexists. split; [reflexivity|]. cbn [LCCNManager.row LCCNManager.lccns].
    split; [reflexivity|]. split; [reflexivity|]. split.
    + rewrite List.filter_app. cbn [List.filter LCCNManager.project_id String.eqb].
      destruct (List.filter _ (LCCNManager.lccns (w_ext w))); simpl; eauto.
    + intros Hproject. rewrite List.filter_app.
      cbn [List.filter LCCNManager.project_id].
      assert (String.eqb EmptyString (p_project_id params) = false) as ->.
      { apply String.eqb_neq. congruence. }
      rewrite app_nil_r. reflexivity.
Qed.

End LCCNManagerFacts.

(* ===================================================================== *)
(** ** MetadataOptimizer *)
(* ===================================================================== *)

Lemma dedupe_spec (l : list string) :
  forall seen,
    NoDup (dedupe seen l)
    /\ forall x, x ∈ dedupe seen l <-> x ∈ l /\ x ∉ seen.
Proof.
  induction l as [|a l IH]; intros seen; cbn [dedupe].
  - split; [constructor|]. intros x. split; [intros H; inversion H|intros [H _]; inversion H].
  - destruct (bool_decide (a ∈ seen)) eqn:Ha.
    + apply bool_decide_eq_true in Ha. destruct (IH seen) as [Hnd Hin].
      split; [exact Hnd|]. intros x. rewrite Hin, elem_of_cons.
      split; [intros [H1 H2]; auto|].
      intros [[->|H1] H2]; [contradiction|auto].
    + apply bool_decide_eq_false in Ha. destruct (IH (a :: seen)) as [Hnd Hin].
      split.
      * apply NoDup_cons. split; [|exact Hnd].
        rewrite Hin. intros [_ H]. apply H. left.
      * intros x. rewrite !elem_of_cons, Hin, elem_of_cons.
        split.
        -- intros [->|[H1 H2]]; [auto|]. split; [auto|]. intros H. apply H2. right. exact H.
        -- intros [[->|H1] H2]; [auto|].
           destruct (decide (x = a)) as [->|Hne]; [auto|].
           right. split; [exact H1|]. intros [H|H]; contradiction.
Qed.

Lemma NoDup_take {A} (n : nat) (l : list A) : NoDup l -> NoDup (take n l).
Proof. intros H. exact (sublist_NoDup _ _ H (sublist_take l n)). Qed.

Section SelectCategories.

Import MetadataOptimizer.

Variable categoryList : list string.

Let selection := MetadataOptimizer.selection categoryList.

Lemma selection_push (f : string -> bool) selected c :
  selection selected -> (length selected < 3)%nat ->
  List.find (fun cat => f cat && negb (selectedIncludes selected cat)) categoryList = Some c ->
  selection (selected ++ [c]).
Proof.
  intros (Hnd & Hsub & Hlen) Hlt Hfind.
  apply find_some in Hfind as [Hin Hc].
  apply andb_true_iff in Hc as [_ Hc]. apply negb_true_iff in Hc.
  apply bool_decide_eq_false in Hc.
  repeat split.
  - apply NoDup_app. split; [exact Hnd|]. split; [|apply NoDup_singleton].
    intros x Hx Hxc. apply list_elem_of_singleton in Hxc. subst x. contradiction.
  - intros x Hx. apply elem_of_app in Hx as [Hx|Hx]; [auto|].
    apply list_elem_of_singleton in Hx. subst x. apply list_elem_of_In. exact Hin.
  - rewrite length_app. simpl. lia.
Qed.

Lemma secondaryCategories_selection subgenres :
  forall selected,
    selection selected -> selection (secondaryCategories categoryList subgenres selected).
Proof.
  induction subgenres as [|subgenre rest IH]; intros selected Hsel; cbn [secondaryCategories];
    [exact Hsel|].
  destruct (3 <=? length selected)%nat eqn:Hfull; [exact Hsel|].
  apply Nat.leb_gt in Hfull.
  destruct (List.find _ categoryList) as [secondary|] eqn:Hfind; [|apply IH; exact Hsel].
  apply IH.
  exact (selection_push (fun cat => includesText subgenre (toLowerCase cat))
           selected secondary Hsel Hfull Hfind).
Qed.

Lemma generalCategories_three (rounds : nat) :
  NoDup categoryList -> (3 <= length categoryList)%nat ->
  forall selected,
    selection selected -> (3 <= length selected + rounds)%nat ->
    selection (generalCategories rounds categoryList selected)
    /\ length (generalCategories rounds categoryList selected) = 3%nat.
Proof.
  intros categories_distinct categories_enough.
  induction rounds as [|rounds IH]; intros selected Hsel Hrounds; cbn [generalCategories].
  - destruct Hsel as (Hnd & Hsub & Hlen). repeat split; try assumption. lia.
  - destruct (length selected <? 3)%nat eqn:Hlt.
    + apply Nat.ltb_lt in Hlt.
      assert ((length selected <? length categoryList)%nat = true) as ->
        by (apply Nat.ltb_lt; lia).
      cbn [andb].
      destruct (List.find _ categoryList) as [general|] eqn:Hfind.
      * assert (Hpush : selection (selected ++ [general])).
        { apply (selection_push (fun _ => true) selected general Hsel Hlt). exact Hfind. }
        apply IH; [exact Hpush|]. rewrite length_app. simpl. lia.
      * exfalso. destruct Hsel as (Hnd & Hsub & Hlen).
        assert (Hall : forall c, c ∈ categoryList -> c ∈ selected).
        { intros c Hc. apply list_elem_of_In in Hc.
          pose proof (find_none _ _ Hfind c Hc) as Hnone. cbn beta in Hnone.
          apply negb_false_iff in Hnone. apply bool_decide_eq_true in Hnone. exact Hnone. }
        pose proof (submseteq_length _ _
                      (NoDup_submseteq _ _ categories_distinct Hall)) as Hle.
        lia.
    + apply Nat.ltb_ge in Hlt. cbn [andb].
      destruct Hsel as (Hnd & Hsub & Hlen). repeat split; try assumption. lia.
Qed.

End SelectCategories.

Lemma fiction_categories :
  MetadataOptimizer.categoriesOf "fiction" =
  [ "FIC000000 - FICTION / General";
    "FIC002000 - FICTION / Action & Adventure";
    "FIC009000 - FICTION / Fantasy / General";
    "FIC028000 - FICTION / Science Fiction / General";
    "FIC030000 - FICTION / Thriller / General";
    "FIC027000 - FICTION / Romance / General";
    "FIC022000 - FICTION / Mystery & Detective / General";
    "FIC015000 - FICTION / Horror" ].
Proof. vm_compute. reflexivity. Qed.

Lemma nonfiction_categories :
  MetadataOptimizer.categoriesOf "non-fiction" =
  [ "BUS000000 - BUSINESS & ECONOMICS / General";
    "SEL000000 - SELF-HELP / General";
    "HIS000000 - HISTORY / General";
    "BIO000000 - BIOGRAPHY & AUTOBIOGRAPHY / General";
    "SCI000000 - SCIENCE / General";
    "POL000000 - POLITICAL SCIENCE / General" ].
Proof. vm_compute. reflexivity. Qed.

Lemma fiction_categories_NoDup : NoDup (MetadataOptimizer.categoriesOf "fiction").
Proof. rewrite fiction_categories. apply (bool_decide_unpack _). vm_compute. exact I. Qed.

Lemma nonfiction_categories_NoDup : NoDup (MetadataOptimizer.categoriesOf "non-fiction").
Proof. rewrite nonfiction_categories. apply (bool_decide_unpack _). vm_compute. exact I. Qed.

Lemma selectBISACCategories_from (input : MetadataOptimizer.Input) (categoryList : list string) :
  NoDup categoryList -> (3 <= length categoryList)%nat ->
  forall primary : option string,
    (forall c, primary = Some c -> c ∈ categoryList) ->
    let selected :=
      MetadataOptimizer.generalCategories 3 categoryList
        (MetadataOptimizer.secondaryCategories categoryList
           (map toLowerCase (MetadataOptimizer.subgenres input))
           (match primary with Some c => [c] | None => [] end)) in
    length selected = 3%nat /\ NoDup selected
    /\ forall c, c ∈ selected -> c ∈ categoryList.
Proof.
  intros Hnd Hlen primary Hprimary selected.
  assert (Hstart : MetadataOptimizer.selection categoryList
                     (match primary with Some c => [c] | None => [] end)).
  { destruct primary as [c|]; repeat split.
    - apply NoDup_singleton.
    - intros x Hx. apply list_elem_of_singleton in Hx. subst x. apply Hprimary. reflexivity.
    - simpl. lia.
    - constructor.
    - intros x Hx. inversion Hx.
    - simpl. lia. }
  pose proof (secondaryCategories_selection categoryList
                (map toLowerCase (MetadataOptimizer.subgenres input)) _ Hstart) as Hsecond.
  destruct (generalCategories_three categoryList 3 Hnd Hlen _ Hsecond ltac:(lia))
    as [(Hnd' & Hsub & _) Hthree].
  repeat split; assumption.
Qed.

Lemma find_elem_of {A} (f : A -> bool) (l : list A) (x : A) :
  List.find f l = Some x -> x ∈ l.
Proof. intros H. apply find_some in H as [H _]. apply list_elem_of_In. exact H. Qed.

Lemma selectBISACCategories_selected (input : MetadataOptimizer.Input) :
  let selected := MetadataOptimizer.selectBISACCategories input in
  length selected = 3%nat /\ NoDup selected
  /\ ((forall c, c ∈ selected -> c ∈ MetadataOptimizer.categoriesOf "fiction")
      \/ (forall c, c ∈ selected -> c ∈ MetadataOptimizer.categoriesOf "non-fiction")).
Proof.
  unfold MetadataOptimizer.selectBISACCategories. cbv zeta.
  match goal with |- context [if ?b then _ else _] => destruct b end.
  - edestruct (selectBISACCategories_from input (MetadataOptimizer.categoriesOf "fiction")
                 fiction_categories_NoDup) as (H1 & H2 & H3);
      [rewrite fiction_categories; simpl; lia| |].
    2: { split; [exact H1|]. split; [exact H2|]. left. exact H3. }
    intros c Hc. eapply find_elem_of. exact Hc.
  - edestruct (selectBISACCategories_from input (MetadataOptimizer.categoriesOf "non-fiction")
                 nonfiction_categories_NoDup) as (H1 & H2 & H3);
      [rewrite nonfiction_categories; simpl; lia| |].
    2: { split; [exact H1|]. split; [exact H2|]. right. exact H3. }
    intros c Hc. eapply find_elem_of. exact Hc.
Qed.

(** The [while] loop of [selectBISACCategories] has left by the time the
    rounds of the model are used up: with three categories selected, further
    rounds change nothing. *)
Lemma generalCategories_done (rounds : nat) (categoryList selected : list string) :
  (3 <= length selected)%nat ->
  MetadataOptimizer.generalCategories rounds categoryList selected = selected.
Proof.
  intros H. destruct rounds as [|rounds]; [reflexivity|].
  cbn [MetadataOptimizer.generalCategories].
  assert ((length selected <? 3)%nat = false) as -> by (apply Nat.ltb_ge; exact H).
  reflexivity.
Qed.

(** X23: a genre whose name contains the word fiction, whatever its case, is
    given categories of the fiction list only: so is the genre "non-fiction",
    the name of the other list. *)
Theorem genre_naming_fiction_gets_fiction_categories (input : MetadataOptimizer.Input) :
  includesText "fiction" (toLowerCase (MetadataOptimizer.genre input)) = true ->
  forall c, c ∈ MetadataOptimizer.selectBISACCategories input ->
            c ∈ MetadataOptimizer.categoriesOf "fiction".
Proof.
  intros Hfiction.
  unfold MetadataOptimizer.selectBISACCategories. cbv zeta.
  rewrite Hfiction. cbn [orb].
  edestruct (selectBISACCategories_from input (MetadataOptimizer.categoriesOf "fiction")
               fiction_categories_NoDup) as (_ & _ & H3);
    [rewrite fiction_categories; simpl; lia| |exact H3].
  intros c Hc. eapply find_elem_of. exact Hc.
Qed.

Lemma length_substring0 (n : nat) :
  forall s, (String.length (substring0 n s) <= n)%nat.
Proof.
  unfold substring0.
  induction n as [|n IH]; intros [|a s]; cbn [String.substring String.length]; try lia.
  specialize (IH s). lia.
Qed.

Lemma length_optimizeDescription (input : MetadataOptimizer.Input) :
  (String.length (MetadataOptimizer.optimizeDescription input) <= 4000)%nat.
Proof.
  unfold MetadataOptimizer.optimizeDescription. cbv zeta.
  match goal with |- context [(4000 <? String.length ?o)%nat] =>
    destruct (4000 <? String.length o)%nat eqn:Hlong end.
  - rewrite length_append.
    match goal with |- context [substring0 3997 ?o] =>
      pose proof (length_substring0 3997 o) end.
    cbn [String.length]. lia.
  - apply Nat.ltb_ge in Hlong. exact Hlong.
Qed.

Lemma dedupe_head (x : string) (l : list string) :
  dedupe [] (x :: l) = x :: dedupe [x] l.
Proof.
  cbn [dedupe]. rewrite bool_decide_eq_false_2; [reflexivity|]. intros H. inversion H.
Qed.

(** What [generateKeywords] returns, by the answer of the LearningAgent. *)
Lemma generateKeywords_run {Net} (agent : MetadataOptimizer.LearningAgent Net)
    (input : MetadataOptimizer.Input) (w : World Net) :
  exists keywords w',
    MetadataOptimizer.generateKeywords agent input w = (Ok keywords, w')
    /\ match fst (MetadataOptimizer.research agent
                    ("trending keywords for " +:+ MetadataOptimizer.genre input
                       +:+ " books in " +:+ pretty (MetadataOptimizer.fullYear agent))
                    (w_ext w)) with
       | Ok trendingKeywords =>
           keywords =
           take 7 (dedupe []
                     (MetadataOptimizer.extractMainKeywords
                        (MetadataOptimizer.description input)
                        (MetadataOptimizer.genre input)
                      ++ MetadataOptimizer.subgenres input ++ take 3 trendingKeywords))
       | Throw _ => keywords = MetadataOptimizer.generateFallbackKeywords input
       end.
Proof.
  unfold MetadataOptimizer.generateKeywords.
  cbv beta iota delta [bind ret try_catch call logger modify_world].
  cbn [w_ext w_pipeline w_events w_log w_uuids].
  destruct (MetadataOptimizer.research agent _ (w_ext w)) as [[trending|msg] net'];
    cbn [fst]; eexists _, _; split; reflexivity.
Qed.

Lemma generateKeywords_returns {Net} (agent : MetadataOptimizer.LearningAgent Net)
    (input : MetadataOptimizer.Input) (w : World Net) :
  exists keywords w',
    MetadataOptimizer.generateKeywords agent input w = (Ok keywords, w')
    /\ (length keywords <= 7)%nat
    /\ head keywords = Some (MetadataOptimizer.genre input)
    /\ (is_ok (fst (MetadataOptimizer.research agent
                      ("trending keywords for " +:+ MetadataOptimizer.genre input
                         +:+ " books in " +:+ pretty (MetadataOptimizer.fullYear agent))
                      (w_ext w))) = true
        -> NoDup keywords).
Proof.
  destruct (generateKeywords_run agent input w) as (keywords & w' & Hrun & Hwhat).
  exists keywords, w'. split; [exact Hrun|].
  destruct (fst (MetadataOptimizer.research agent _ (w_ext w))) as [trending|msg];
    subst keywords.
  - split; [rewrite length_take; lia|].
    split.
    + unfold MetadataOptimizer.extractMainKeywords. cbv zeta.
      rewrite <- app_comm_cons, dedupe_head. reflexivity.
    + intros _. apply NoDup_take. apply dedupe_spec.
  - split; [unfold MetadataOptimizer.generateFallbackKeywords; rewrite length_take; lia|].
    split; [reflexivity|]. intros H. discriminate H.
Qed.

(** X22: [selectBISACCategories] always returns exactly three categories,
    all different, and all of the same list: the fiction list or the
    non-fiction list. *)
Theorem selectBISACCategories_three (input : MetadataOptimizer.Input) :
  let selected := MetadataOptimizer.selectBISACCategories input in
  length selected = 3%nat /\ NoDup selected
  /\ ((forall c, c ∈ selected -> c ∈ MetadataOptimizer.categoriesOf "fiction")
      \/ (forall c, c ∈ selected -> c ∈ MetadataOptimizer.categoriesOf "non-fiction")).
Proof. exact (selectBISACCategories_selected input). Qed.

(** X24: the description [optimizeDescription] returns is never longer than
    4000 characters. *)
Theorem optimizeDescription_at_most_4000 (input : MetadataOptimizer.Input) :
  (String.length (MetadataOptimizer.optimizeDescription input) <= 4000)%nat.
Proof. exact (length_optimizeDescription input). Qed.

(** X25: [generateKeywords] never throws, whatever the LearningAgent does:
    it returns at most seven keywords, and the first one is the genre.  When
    the agent answered, the keywords are all different. *)
Theorem generateKeywords_never_throws {Net} (agent : MetadataOptimizer.LearningAgent Net)
    (input : MetadataOptimizer.Input) (w : World Net) :
  exists keywords w',
    MetadataOptimizer.generateKeywords agent input w = (Ok keywords, w')
    /\ (length keywords <= 7)%nat
    /\ head keywords = Some (MetadataOptimizer.genre input)
    /\ (is_ok (fst (MetadataOptimizer.research agent
                      ("trending keywords for " +:+ MetadataOptimizer.genre input
                         +:+ " books in " +:+ pretty (MetadataOptimizer.fullYear agent))
                      (w_ext w))) = true
        -> NoDup keywords).
Proof. exact (generateKeywords_returns agent input w). Qed.

Module SEOScoreFacts.

Import QArith_base Qround Qminmax.
Local Close Scope Q_scope.
Local Open Scope Z_scope.

Lemma calculateSEOScore_exact description categories keywords searchTerms :
  MetadataOptimizer.calculateSEOScore description categories keywords searchTerms
  = (2 * MetadataOptimizer.score21 description categories keywords searchTerms + 21) / 42.
Proof.
  unfold MetadataOptimizer.calculateSEOScore, MetadataOptimizer.round,
    MetadataOptimizer.count, MetadataOptimizer.score21,
    MetadataOptimizer.descriptionPoints.
  cbv zeta.
  set (c := Z.of_nat (length categories)).
  set (k := Z.of_nat (length keywords)).
  set (t := Z.of_nat (length searchTerms)).
  assert (Hc : 0 <= c) by (subst c; lia).
  assert (Hk : 0 <= k) by (subst k; lia).
  assert (Ht : 0 <= t) by (subst t; lia).
  set (d := if ((300 <=? String.length description)%nat
                && (String.length description <=? 4000)%nat)
            then 30 else if (150 <=? String.length description)%nat then 20 else 10).
  assert (Hd : ((if ((300 <=? String.length description)%nat
                     && (String.length description <=? 4000)%nat)
                 then (0 + 30)%Q
                 else if (150 <=? String.length description)%nat then (0 + 20)%Q
                      else (0 + 10)%Q) == inject_Z d)%Q).
  { subst d. destruct (_ && _); [reflexivity|]. destruct (_ <=? _)%nat; reflexivity. }
  assert (Hmin : (Qmin (inject_Z t / 15 * 20) 20 == (Z.min (28 * t) 420 # 21))%Q).
  { destruct (Z.le_gt_cases (28 * t) 420) as [Hle|Hgt].
    - rewrite Z.min_l by exact Hle. rewrite Q.min_l.
      + unfold Qeq, Qdiv, Qmult, Qinv, inject_Z. simpl. lia.
      + unfold Qle, Qdiv, Qmult, Qinv, inject_Z. simpl. lia.
    - rewrite Z.min_r by lia. rewrite Q.min_r.
      + reflexivity.
      + unfold Qle, Qdiv, Qmult, Qinv, inject_Z. simpl. lia. }
  rewrite Hd, Hmin.
  assert (Hsum : (inject_Z d + inject_Z c / 3 * 25 + inject_Z k / 7 * 25
                  + (Z.min (28 * t) 420 # 21) + (1 # 2)
                  == (2 * (21 * d + 175 * c + 75 * k + Z.min (28 * t) 420) + 21 # 42))%Q).
  { unfold Qeq, Qplus, Qdiv, Qmult, Qinv, inject_Z. simpl. lia. }
  rewrite Hsum. reflexivity.
Qed.

Lemma calculateSEOScore_bounded description categories keywords searchTerms :
  (length categories <= 3)%nat -> (length keywords <= 7)%nat ->
  10 <= MetadataOptimizer.calculateSEOScore description categories keywords searchTerms <= 100.
Proof.
  intros Hc Hk. rewrite calculateSEOScore_exact.
  unfold MetadataOptimizer.score21, MetadataOptimizer.descriptionPoints. cbv zeta.
  destruct (_ && _); [|destruct (_ <=? _)%nat]; split;
    try (apply Z.div_le_lower_bound; lia);
    apply Z.lt_succ_r; apply Z.div_lt_upper_bound; lia.
Qed.

Lemma calculateSEOScore_optimized description categories keywords searchTerms :
  length categories = 3%nat -> (1 <= length keywords)%nat ->
  (1 <= length searchTerms)%nat ->
  40 <= MetadataOptimizer.calculateSEOScore description categories keywords searchTerms.
Proof.
  intros Hc Hk Ht. rewrite calculateSEOScore_exact.
  unfold MetadataOptimizer.score21, MetadataOptimizer.descriptionPoints. cbv zeta.
  destruct (_ && _); [|destruct (_ <=? _)%nat];
    apply Z.div_le_lower_bound; lia.
Qed.

End SEOScoreFacts.

(** X26: with at most three categories and at most seven keywords the SEO
    score lies between 10 and 100. *)
Theorem calculateSEOScore_range description categories keywords searchTerms :
  (length categories <= 3)%nat -> (length keywords <= 7)%nat ->
  10 <= MetadataOptimizer.calculateSEOScore description categories keywords searchTerms <= 100.
Proof. exact (SEOScoreFacts.calculateSEOScore_bounded description categories keywords searchTerms). Qed.

Lemma generateSearchTerms_head (input : MetadataOptimizer.Input) :
  head (MetadataOptimizer.generateSearchTerms input) = Some (MetadataOptimizer.genre input).
Proof.
  unfold MetadataOptimizer.generateSearchTerms. cbv zeta.
  rewrite <- app_comm_cons, dedupe_head. reflexivity.
Qed.

Lemma head_length {A} (l : list A) (x : A) : head l = Some x -> (1 <= length l)%nat.
Proof. destruct l; [discriminate|]. simpl. lia. Qed.

(** What [optimizeMetadata] returns. *)
Lemma optimizeMetadata_run {Net} (agent : MetadataOptimizer.LearningAgent Net)
    (input : MetadataOptimizer.Input) (w : World Net) :
  exists keywords w',
    MetadataOptimizer.optimizeMetadata agent input w
    = (Ok {| MetadataOptimizer.optimized :=
               {| meta_title := fst (MetadataOptimizer.optimizeTitle input);
                  meta_subtitle := snd (MetadataOptimizer.optimizeTitle input);
                  meta_author := meta_author (MetadataOptimizer.metadata input);
                  meta_publisher := meta_publisher (MetadataOptimizer.metadata input);
                  meta_publication_date :=
                    meta_publication_date (MetadataOptimizer.metadata input);
                  meta_language := meta_language (MetadataOptimizer.metadata input);
                  meta_genre := meta_genre (MetadataOptimizer.metadata input);
                  meta_description := MetadataOptimizer.optimizeDescription input;
                  meta_bisac_categories := MetadataOptimizer.selectBISACCategories input;
                  meta_keywords := keywords;
                  meta_price_usd := meta_price_usd (MetadataOptimizer.metadata input) |};
             MetadataOptimizer.search_terms := MetadataOptimizer.generateSearchTerms input;
             MetadataOptimizer.seo_score :=
               MetadataOptimizer.calculateSEOScore
                 (MetadataOptimizer.optimizeDescription input)
                 (MetadataOptimizer.selectBISACCategories input) keywords
                 (MetadataOptimizer.generateSearchTerms input) |}, w')
    /\ (length keywords <= 7)%nat
    /\ head keywords = Some (MetadataOptimizer.genre input).
Proof.
  unfold MetadataOptimizer.optimizeMetadata.
  cbv beta iota zeta delta [bind ret try_catch logger modify_world].
  match goal with |- context [MetadataOptimizer.generateKeywords agent input ?w1] =>
    destruct (generateKeywords_returns agent input w1)
      as (keywords & w' & Hrun & Hlen & Hhead & _);
    rewrite Hrun
  end.
  eexists keywords, _. split; [reflexivity|]. split; assumption.
Qed.

(** X27: [optimizeMetadata] never fails, whatever the LearningAgent does.
    The metadata it returns has exactly three categories, at most seven
    keywords and a description of at most 4000 characters, and its SEO score
    lies between 40 and 100. *)
Theorem optimizeMetadata_never_fails {Net} (agent : MetadataOptimizer.LearningAgent Net)
    (input : MetadataOptimizer.Input) (w : World Net) :
  exists result w',
    MetadataOptimizer.optimizeMetadata agent input w = (Ok result, w')
    /\ length (meta_bisac_categories (MetadataOptimizer.optimized result)) = 3%nat
    /\ (length (meta_keywords (MetadataOptimizer.optimized result)) <= 7)%nat
    /\ (String.length (meta_description (MetadataOptimizer.optimized result)) <= 4000)%nat
    /\ 40 <= MetadataOptimizer.seo_score result <= 100.
Proof.
  destruct (optimizeMetadata_run agent input w) as (keywords & w' & Hrun & Hlen & Hhead).
  eexists _, w'. split; [exact Hrun|].
  cbn [MetadataOptimizer.optimized MetadataOptimizer.seo_score
       meta_bisac_categories meta_keywords meta_description].
  pose proof (selectBISACCategories_selected input) as (Hthree & _).
  split; [exact Hthree|]. split; [exact Hlen|].
  split; [apply length_optimizeDescription|].
  split.
  - apply SEOScoreFacts.calculateSEOScore_optimized;
      [exact Hthree|exact (head_length _ _ Hhead)|].
    exact (head_length _ _ (generateSearchTerms_head input)).
  - apply SEOScoreFacts.calculateSEOScore_bounded; [rewrite Hthree; lia|exact Hlen].
Qed.

(** X28: the request the pipeline sends to Amazon KDP carries the categories
    and keywords of the optimized metadata.  The check of the KDP adapter
    then always warns that there are too many categories, and of nothing
    else, so its quality score is at most 95. *)
Theorem kdp_always_warns_about_optimized_categories {Net Ext}
    (agent : MetadataOptimizer.LearningAgent Net) (input : MetadataOptimizer.Input)
    (w0 w0' : World Net) (result : MetadataOptimizer.OptimizedMetadata)
    (env : Env Ext) (params : PublishParams) (coverDesign : CoverObject)
    (formatOutputs : FormatOutputs) (w w' : World Ext) (validation : ValidationResult) :
  MetadataOptimizer.optimizeMetadata agent input w0 = (Ok result, w0') ->
  kdp_validateFiles env
    (submissionRequest params (MetadataOptimizer.optimized result) coverDesign formatOutputs) w
  = (Ok validation, w') ->
  map warn_code (warnings validation) = ["TOO_MANY_CATEGORIES"]
  /\ quality_score validation <= 95.
Proof.
  intros Hopt Hcheck.
  destruct (optimizeMetadata_run agent input w0) as (keywords & w1 & Hrun & Hlen & _).
  rewrite Hrun in Hopt. injection Hopt as <- _.
  pose proof (selectBISACCategories_selected input) as (Hthree & _).
  unfold kdp_validateFiles, manuscript_length in Hcheck. run_in Hcheck.
  destruct (manuscriptOf formatOutputs) as [m|]; simpl in Hcheck; [|discriminate Hcheck].
  injection Hcheck as Hv _. subst validation.
  cbn [warnings quality_score adapterVerdict].
  rewrite Hthree.
  assert ((7 <? Z.of_nat (length keywords)) = false) as -> by (apply Z.ltb_ge; lia).
  change (2 <? Z.of_nat 3) with true.
  cbn [when app map warn_code].
  split; [reflexivity|].
  cbn [length]. lia.
Qed.

Lemma genre_naming_fiction_gets_fiction_categories_witness :
  MetadataOptimizer.selectBISACCategories nonFictionBook
  = [ "FIC000000 - FICTION / General";
      "FIC002000 - FICTION / Action & Adventure";
      "FIC009000 - FICTION / Fantasy / General" ]
  /\ Forall (fun c => c ∈ MetadataOptimizer.categoriesOf "fiction")
       (MetadataOptimizer.selectBISACCategories nonFictionBook).
Proof.
  split; [vm_compute; reflexivity|].
  apply Forall_forall.
  apply (genre_naming_fiction_gets_fiction_categories nonFictionBook).
  vm_compute. reflexivity.
Defined.

Lemma calculateSEOScore_range_witness :
  MetadataOptimizer.calculateSEOScore "A compelling story..."
    ["FIC000000 - FICTION / General"] ["fiction"; "story"] ["fiction"] = 27
  /\ 10 <= MetadataOptimizer.calculateSEOScore "A compelling story..."
             ["FIC000000 - FICTION / General"] ["fiction"; "story"] ["fiction"] <= 100.
Proof.
  split; [vm_compute; reflexivity|].
  apply (calculateSEOScore_range "A compelling story..."
           ["FIC000000 - FICTION / General"] ["fiction"; "story"] ["fiction"]);
    simpl; lia.
Defined.

Lemma kdp_always_warns_about_optimized_categories_witness :
  exists result w0' validation w',
    MetadataOptimizer.optimizeMetadata silentAgent nonFictionBook emptyWorld
    = (Ok result, w0')
    /\ kdp_validateFiles quietEnv
         (submissionRequest (sampleParams [print] [amazon_kdp])
            (MetadataOptimizer.optimized result) (DesignedCover sampleCover)
            {| fo_epub := None; fo_mobi := None; fo_pdf := Some samplePDF |})
         emptyWorld
       = (Ok validation, w')
    /\ map warn_code (warnings validation) = ["TOO_MANY_CATEGORIES"]
    /\ quality_score validation <= 95.
Proof.
  eexists _, _, _, _.
  split; [vm_compute; reflexivity|]. split; [vm_compute; reflexivity|].
  eapply (kdp_always_warns_about_optimized_categories silentAgent nonFictionBook
            emptyWorld _ _ quietEnv (sampleParams [print] [amazon_kdp])
            (DesignedCover sampleCover)
            {| fo_epub := None; fo_mobi := None; fo_pdf := Some samplePDF |}
            emptyWorld).
  - vm_compute. reflexivity.
  - vm_compute. reflexivity.
Defined.

(* ===================================================================== *)
(** ** Text without tags *)
(* ===================================================================== *)

Lemma hasTag_opened (text : string) :
  hasTag text true = false -> hasTag text false = false.
Proof.
  induction text as [|a rest IH]; [reflexivity|].
  cbn [hasTag andb orb]. intros H. apply orb_false_iff in H as [_ H].
  destruct (Ascii.eqb a "<"); [exact H|apply IH; exact H].
Qed.

Lemma hasTag_snoc (text : string) (a : ascii) :
  hasTag text true = false -> Ascii.eqb a ">" = false ->
  hasTag (text +:+ String a EmptyString) true = false.
Proof.
  intros Htext Ha. induction text as [|b rest IH].
  - change (hasTag (String a EmptyString) true = false).
    cbn [hasTag andb orb]. rewrite Ha. reflexivity.
  - change (hasTag (String b (rest +:+ String a EmptyString)) true = false).
    cbn [hasTag andb orb] in Htext |- *.
    apply orb_false_iff in Htext as [Hb Hrest].
    rewrite Hb. cbn [orb]. apply IH. exact Hrest.
Qed.

Lemma removeTags_leaves_no_tag (html : string) :
  hasTag (removeTags html None) false = false
  /\ forall text, hasTag text true = false ->
                  hasTag (removeTags html (Some text)) false = false.
Proof.
  induction html as [|a rest [IHnone IHsome]]; cbn [removeTags].
  - split; [reflexivity|]. intros text H. apply hasTag_opened. exact H.
  - split.
    + destruct (Ascii.eqb a "<") eqn:Ha.
      * apply IHsome. reflexivity.
      * cbn [hasTag andb orb]. rewrite Ha. exact IHnone.
    + intros text Htext. destruct (Ascii.eqb a ">") eqn:Ha; [exact IHnone|].
      apply IHsome. apply hasTag_snoc; assumption.
Qed.

Lemma removeTags_without_tag (html : string) :
  (hasTag html false = false -> removeTags html None = html)
  /\ forall text, hasTag html true = false ->
                  removeTags html (Some text) = text +:+ html.
Proof.
  induction html as [|a rest [IHnone IHsome]]; cbn [removeTags].
  - split; [reflexivity|]. intros text _. cbn [default].
    induction text as [|b t IHt]; [reflexivity|].
    change (String b t = String b (t +:+ EmptyString)). f_equal. exact IHt.
  - split.
    + cbn [hasTag andb orb]. intros H.
      destruct (Ascii.eqb a "<") eqn:Ha.
      * apply Ascii.eqb_eq in Ha. subst a. apply (IHsome "<"). exact H.
      * f_equal. apply IHnone. exact H.
    + intros text H. cbn [hasTag andb orb] in H.
      apply orb_false_iff in H as [Ha H]. rewrite Ha.
      rewrite IHsome by exact H.
      rewrite append_assoc. reflexivity.
Qed.

Lemma isSpace_no_bracket (a : ascii) :
  isSpace a = true -> Ascii.eqb a "<" = false /\ Ascii.eqb a ">" = false.
Proof.
  intros H. split.
  - destruct (Ascii.eqb a "<") eqn:Ha; [|reflexivity].
    apply Ascii.eqb_eq in Ha. subst a. discriminate H.
  - destruct (Ascii.eqb a ">") eqn:Ha; [|reflexivity].
    apply Ascii.eqb_eq in Ha. subst a. discriminate H.
Qed.

Lemma hasTag_trimStart (text : string) (opened : bool) :
  hasTag (trimStart text) opened = hasTag text opened.
Proof.
  induction text as [|a rest IH]; [reflexivity|].
  cbn [trimStart]. destruct (isSpace a) eqn:Ha; [|reflexivity].
  destruct (isSpace_no_bracket a Ha) as [Hlt Hgt].
  rewrite IH. cbn [hasTag]. rewrite Hlt, Hgt.
  destruct opened; reflexivity.
Qed.

Lemma hasTag_trimEnd (text : string) :
  forall opened, hasTag (trimEnd text) opened = hasTag text opened.
Proof.
  induction text as [|a rest IH]; intros opened; [reflexivity|].
  cbn [trimEnd]. destruct (trimEnd rest) as [|b r] eqn:Hrest.
  - destruct (isSpace a) eqn:Ha.
    + destruct (isSpace_no_bracket a Ha) as [Hlt Hgt].
      cbn [hasTag]. rewrite Hlt, Hgt, <- IH.
      destruct opened; reflexivity.
    + cbn [hasTag]. rewrite <- IH. reflexivity.
  - cbn [hasTag]. rewrite <- IH. reflexivity.
Qed.

(** X29: [stripHTML] leaves no tag, a [<] with a [>] after it, in the text,
    and a text that holds no tag is only trimmed. *)
Theorem stripHTML_leaves_no_tag (html : string) :
  hasTag (stripHTML html) false = false
  /\ (hasTag html false = false -> stripHTML html = trim html).
Proof.
  unfold stripHTML, trim. split.
  - rewrite hasTag_trimEnd, hasTag_trimStart. apply removeTags_leaves_no_tag.
  - intros H. destruct (removeTags_without_tag html) as [Hnone _].
    rewrite (Hnone H). reflexivity.
Qed.
